(** * Invoice data extraction: field extraction, line items, verification

    A shallow embedding of the three core modules of the repository

      - [src/field_extraction.py]     (module [FieldExtraction])
      - [src/line_item_extractor.py]  (module [LineItemExtractor])
      - [src/verification_engine.py]  (module [VerificationEngine])

    and of the rows and report entries [src/exporter.py] builds from their
    output (module [Exporter]).

    The Python values the code handles (JSON documents read from disk, the
    dict literals it returns) are modelled by one type [pyval]; Python
    [float]s are Rocq's primitive binary64 floats; exceptions are explicit
    ([res]); files are a finite map from paths to contents.

    Text is modelled in the ASCII range: on a [string] whose characters
    all have codes below 128 ([str_isascii]), [isdigit], [isspace],
    [strip], [float] and case-insensitive matching are what CPython
    computes.  A statement that depends on what these functions answer
    carries the hypothesis that the text is ASCII; a statement that only
    relates the functions of the program to each other does not.  The
    messages of exceptions are those of CPython 3.11. *)

From Stdlib Require Import ZArith List String Ascii Bool Floats Lia.
From Stdlib Require DecimalString.
From stdpp Require Import base gmap strings.
Import ListNotations.

#[local] Set Warnings "-inexact-float,-register-all".
#[local] Open Scope string_scope.

(** ** The Python runtime the sources rely on *)

Module Py.

(** Values: what [json.load] can return, and what the code builds.  A
    [dict] keeps its insertion order; keys are strings. *)
Inductive pyval : Type :=
| PNone
| PBool (b : bool)
| PInt (z : Z)
| PFloat (f : float)
| PStr (s : string)
| PList (l : list pyval)
| PDict (d : list (string * pyval)).

(** Exceptions (all are subclasses of [Exception]); each carries the text
    [str(e)] gives. *)
Inductive exn : Type :=
| TypeError (msg : string)
| ValueError (msg : string)
| AttributeError (msg : string)
| IndexError (msg : string)
| OverflowError (msg : string)
| ZeroDivisionError (msg : string)
| OSError (msg : string)
| JSONDecodeError (msg : string)
| KeyError (msg : string).

Definition exn_str (e : exn) : string :=
  match e with
  | TypeError m | ValueError m | AttributeError m | IndexError m
  | OverflowError m | ZeroDivisionError m | OSError m | JSONDecodeError m
  | KeyError m => m
  end.

(** A computation either returns or raises. *)
Inductive res (A : Type) : Type :=
| Ok (a : A)
| Raise (e : exn).
Arguments Ok {A} a.
Arguments Raise {A} e.

Definition bind {A B} (m : res A) (k : A -> res B) : res B :=
  match m with
  | Ok a => k a
  | Raise e => Raise e
  end.

(** [[f(x) for x in l]], left to right, stopping at the first exception. *)
Fixpoint mapM {A B} (f : A -> res B) (l : list A) : res (list B) :=
  match l with
  | [] => Ok []
  | x :: r => bind (f x) (fun y => bind (mapM f r) (fun ys => Ok (y :: ys)))
  end.

Definition type_name (v : pyval) : string :=
  match v with
  | PNone => "NoneType"
  | PBool _ => "bool"
  | PInt _ => "int"
  | PFloat _ => "float"
  | PStr _ => "str"
  | PList _ => "list"
  | PDict _ => "dict"
  end.

Notation "'let*' x ':=' m 'in' k" := (bind m (fun x => k))
  (at level 10, x pattern, m at level 100, k at level 200).

(** *** Dictionaries *)

Definition dict : Type := list (string * pyval).

Fixpoint dict_lookup (d : dict) (k : string) : option pyval :=
  match d with
  | [] => None
  | (k', v) :: r => if String.eqb k' k then Some v else dict_lookup r k
  end.

(** [d[k] = v]: replaces the value in place, or appends a new key. *)
Fixpoint dict_set (d : dict) (k : string) (v : pyval) : dict :=
  match d with
  | [] => [(k, v)]
  | (k', v') :: r =>
      if String.eqb k' k then (k', v) :: r else (k', v') :: dict_set r k v
  end.

(** [d.update(e)] *)
Definition dict_update (d e : dict) : dict :=
  fold_left (fun acc kv => dict_set acc (fst kv) (snd kv)) e d.

(** [v.get(k, default)]: only a dict has the method. *)
Definition py_get (v : pyval) (k : string) (default : pyval) : res pyval :=
  match v with
  | PDict d =>
      Ok (match dict_lookup d k with Some x => x | None => default end)
  | _ =>
      Raise (AttributeError
               ("'" ++ type_name v ++ "' object has no attribute 'get'"))
  end.

(** [iter(v)], run to the end. *)
Definition py_iter (v : pyval) : res (list pyval) :=
  match v with
  | PList l => Ok l
  | PDict d => Ok (map (fun kv => PStr (fst kv)) d)
  | PStr s => Ok (map (fun c => PStr (String c "")) (list_ascii_of_string s))
  | _ => Raise (TypeError ("'" ++ type_name v ++ "' object is not iterable"))
  end.

(** [v[k]] for a string key [k]. *)
Definition py_getitem (v : pyval) (k : string) : res pyval :=
  match v with
  | PDict d =>
      match dict_lookup d k with
      | Some x => Ok x
      | None => Raise (KeyError ("'" ++ k ++ "'"))
      end
  | PList _ =>
      Raise (TypeError "list indices must be integers or slices, not str")
  | PStr _ => Raise (TypeError "string indices must be integers, not 'str'")
  | _ => Raise (TypeError ("'" ++ type_name v ++ "' object is not subscriptable"))
  end.

(** [l[i]] on a list, for [i >= 0]. *)
Definition list_index {A} (l : list A) (i : nat) : res A :=
  match nth_error l i with
  | Some x => Ok x
  | None => Raise (IndexError "list index out of range")
  end.

(** [l[i:j]] for [0 <= i <= j]. *)
Definition slice {A} (l : list A) (i j : nat) : list A :=
  firstn (j - i) (skipn i l).

(** *** Characters and strings (the ASCII range) *)

Definition code (c : ascii) : nat := nat_of_ascii c.

Definition between (lo hi : nat) (c : ascii) : bool :=
  Nat.leb lo (code c) && Nat.leb (code c) hi.

(** A character of the ASCII range, and [s.isascii()].  The predicates
    and conversions below are Python's on ASCII text; the digits, white
    space and letters Unicode has beyond it are not modelled, and the
    statements that depend on them are made for ASCII text. *)
Definition is_ascii (c : ascii) : bool := Nat.ltb (code c) 128.

Definition str_isascii (s : string) : bool :=
  forallb is_ascii (list_ascii_of_string s).

(** [c.isdigit()], for an ASCII character *)
Definition is_digit (c : ascii) : bool := between 48 57 c.

(** [c.isspace()], for an ASCII character: tab, line feed, vertical tab,
    form feed, carriage return, the four separators 0x1c-0x1f, and
    space. *)
Definition is_space (c : ascii) : bool :=
  between 9 13 c || between 28 32 c.

(** C's [isspace], which [float()] uses on an ASCII string. *)
Definition is_c_space (c : ascii) : bool :=
  between 9 13 c || Nat.eqb (code c) 32.

Definition to_lower (c : ascii) : ascii :=
  if between 65 90 c then ascii_of_nat (code c + 32) else c.

Definition to_upper (c : ascii) : ascii :=
  if between 97 122 c then ascii_of_nat (code c - 32) else c.

(** [s.isdigit()]: at least one character, all of them digits. *)
Definition str_isdigit (s : string) : bool :=
  match list_ascii_of_string s with
  | [] => false
  | l => forallb is_digit l
  end.

(** [any(c.isdigit() for c in s)] *)
Definition has_digit (s : string) : bool :=
  existsb is_digit (list_ascii_of_string s).

(** [v.isdigit()]: only a string has the method. *)
Definition py_isdigit (v : pyval) : res bool :=
  match v with
  | PStr s => Ok (str_isdigit s)
  | _ =>
      Raise (AttributeError
               ("'" ++ type_name v ++ "' object has no attribute 'isdigit'"))
  end.

(** [any(c.isdigit() for c in v)]: stops at the first digit. *)
Fixpoint any_isdigit (cs : list pyval) : res bool :=
  match cs with
  | [] => Ok false
  | c :: r =>
      bind (py_isdigit c) (fun b => if b then Ok true else any_isdigit r)
  end.

Definition py_any_isdigit (v : pyval) : res bool :=
  bind (py_iter v) any_isdigit.

(** [s.replace(",", "")] *)
Definition remove_commas (s : string) : string :=
  string_of_list_ascii
    (List.filter (fun c => negb (Ascii.eqb c ","%char)) (list_ascii_of_string s)).

Fixpoint drop_while {A} (p : A -> bool) (l : list A) : list A :=
  match l with
  | x :: r => if p x then drop_while p r else l
  | [] => []
  end.

Definition strip_with (p : ascii -> bool) (l : list ascii) : list ascii :=
  rev (drop_while p (rev (drop_while p l))).

(** [s.strip()] *)
Definition strip (s : string) : string :=
  string_of_list_ascii (strip_with is_space (list_ascii_of_string s)).

(** [sep.join(l)] *)
Fixpoint join (sep : string) (l : list string) : string :=
  match l with
  | [] => ""
  | [s] => s
  | s :: r => s ++ sep ++ join sep r
  end.

(** [s.split(sep)] for a separator of one character. *)
Fixpoint split (sep : ascii) (s : string) : list string :=
  match s with
  | EmptyString => [EmptyString]
  | String c s' =>
      if Ascii.eqb c sep then EmptyString :: split sep s'
      else
        match split sep s' with
        | p :: ps => String c p :: ps
        | [] => [String c EmptyString]
        end
  end.

(** [s.startswith(t)] *)
Fixpoint startswith (s t : string) {struct t} : bool :=
  match t with
  | EmptyString => true
  | String b t' =>
      match s with
      | String a s' => Ascii.eqb a b && startswith s' t'
      | EmptyString => false
      end
  end.

(** [t in s] *)
Fixpoint str_contains (s t : string) : bool :=
  startswith s t
  || match s with
     | EmptyString => false
     | String _ s' => str_contains s' t
     end.

(** [s.replace(old, EMPTY)]: the occurrences of [old] are removed from
    left to right; [skip] counts the characters still to drop of the
    occurrence being removed. *)
Fixpoint str_remove_from (old : string) (skip : nat) (s : string) : string :=
  match s with
  | EmptyString => EmptyString
  | String c s' =>
      match skip with
      | S k => str_remove_from old k s'
      | O =>
          if startswith s old
          then str_remove_from old (String.length old - 1) s'
          else String c (str_remove_from old 0 s')
      end
  end.

Definition str_remove (old s : string) : string :=
  match old with
  | EmptyString => s
  | String _ _ => str_remove_from old 0 s
  end.

(** [str(z)] of an [int]. *)
Definition str_int (z : Z) : string :=
  DecimalString.NilZero.string_of_int (Z.to_int z).

(** [v.replace(",", EMPTY)]: only a string has the method. *)
Definition py_remove_commas (v : pyval) : res string :=
  match v with
  | PStr s => Ok (remove_commas s)
  | _ =>
      Raise (AttributeError
               ("'" ++ type_name v ++ "' object has no attribute 'replace'"))
  end.

(** [sep.join(items)]: every item has to be a string; [i] is the index of
    the first item. *)
Fixpoint join_items (i : nat) (items : list pyval) : res (list string) :=
  match items with
  | [] => Ok []
  | PStr s :: r => bind (join_items (S i) r) (fun ss => Ok (s :: ss))
  | v :: _ =>
      Raise (TypeError ("sequence item " ++ str_int (Z.of_nat i)
                        ++ ": expected str instance, " ++ type_name v
                        ++ " found"))
  end.

Definition py_join (sep : string) (items : list pyval) : res string :=
  bind (join_items 0 items) (fun ss => Ok (join sep ss)).

(** [bool(v)] for the values tested in the sources. *)
Definition truthy (v : pyval) : bool :=
  match v with
  | PNone => false
  | PBool b => b
  | PInt z => negb (Z.eqb z 0)
  | PFloat f => negb (PrimFloat.eqb f 0)
  | PStr s => negb (String.eqb s "")
  | PList l => match l with [] => false | _ => true end
  | PDict d => match d with [] => false | _ => true end
  end.

(** [repr(s)] of a string: single quotes unless the string holds one and
    no double quote; backslash, the quote and control characters escaped. *)
Definition squote : ascii := ascii_of_nat 39.
Definition dquote : ascii := ascii_of_nat 34.
Definition backslash : ascii := ascii_of_nat 92.

Definition hex_digit (n : nat) : ascii :=
  ascii_of_nat (if Nat.ltb n 10 then 48 + n else 87 + n).

Definition repr_char (q : ascii) (c : ascii) : list ascii :=
  if Ascii.eqb c backslash then [backslash; backslash]
  else if Ascii.eqb c q then [backslash; c]
  else if Nat.eqb (code c) 9 then [backslash; "t"%char]
  else if Nat.eqb (code c) 10 then [backslash; "n"%char]
  else if Nat.eqb (code c) 13 then [backslash; "r"%char]
  else if Nat.ltb (code c) 32 || Nat.leb 127 (code c) then
    [backslash; "x"%char; hex_digit (code c / 16); hex_digit (code c mod 16)]
  else [c].

Definition repr_str (s : string) : string :=
  let l := list_ascii_of_string s in
  let q := if existsb (Ascii.eqb squote) l && negb (existsb (Ascii.eqb dquote) l)
           then dquote else squote in
  String q (string_of_list_ascii (flat_map (repr_char q) l)) ++ String q "".

(** *** Floats

    A Python [float] is an IEEE 754 binary64 number: Rocq's primitive
    [float].  Conversions from decimal text and from integers round to the
    nearest float, ties to even; they are computed on the exact value with
    the Standard Library's [SpecFloat]. *)

(** The float nearest to [(-1)^neg * digits * 10^exp10]. *)
Definition float_of_decimal (neg : bool) (digits : Z) (exp10 : Z) : float :=
  SF2Prim
    match digits with
    | Zpos d =>
        if (0 <=? exp10)%Z then
          binary_normalize prec emax
            (if neg then - (Zpos d * 10 ^ exp10) else Zpos d * 10 ^ exp10)%Z
            0 false
        else
          SFdiv prec emax (S754_finite neg d 0)
            (S754_finite false (Z.to_pos (10 ^ (- exp10))) 0)
    | _ => S754_zero neg
    end.

(** [float(z)] for an [int]: OverflowError when the nearest float is not
    finite. *)
Definition float_of_int (z : Z) : res float :=
  match binary_normalize prec emax z 0 false with
  | S754_infinity _ => Raise (OverflowError "int too large to convert to float")
  | sf => Ok (SF2Prim sf)
  end.

Definition digit_val (c : ascii) : Z := (Z.of_nat (code c) - 48)%Z.

(** The longest run of digits at the head of [s]: its value on top of
    [acc], its length on top of [n], and what follows. *)
Fixpoint take_digits (acc n : Z) (s : list ascii) : Z * Z * list ascii :=
  match s with
  | c :: r =>
      if is_digit c then take_digits (10 * acc + digit_val c)%Z (n + 1)%Z r
      else (acc, n, s)
  | [] => (acc, n, s)
  end.

Definition parse_sign (s : list ascii) : bool * list ascii :=
  match s with
  | c :: r =>
      if Ascii.eqb c "-"%char then (true, r)
      else if Ascii.eqb c "+"%char then (false, r)
      else (false, s)
  | [] => (false, s)
  end.

(** An exponent part [e[+-]digits]; when the digits are missing nothing is
    consumed. *)
Definition parse_exponent (s : list ascii) : Z * list ascii :=
  match s with
  | c :: r =>
      if Ascii.eqb (to_lower c) "e"%char then
        let '(neg, r1) := parse_sign r in
        let '(v, n, r2) := take_digits 0 0 r1 in
        if (n =? 0)%Z then (0%Z, s) else ((if neg then - v else v)%Z, r2)
      else (0%Z, s)
  | [] => (0%Z, s)
  end.

(** [digits [. digits] [exponent]] or [. digits [exponent]], to the end of
    the text: the decimal mantissa and the power of ten. *)
Definition parse_decimal (s : list ascii) : option (Z * Z) :=
  let '(ip, ni, r1) := take_digits 0 0 s in
  let '(m, nf, r2) :=
    match r1 with
    | c :: r => if Ascii.eqb c "."%char then take_digits ip 0 r else (ip, 0%Z, r1)
    | [] => (ip, 0%Z, r1)
    end in
  if (ni + nf =? 0)%Z then None
  else
    let '(e, r3) := parse_exponent r2 in
    match r3 with
    | [] => Some (m, (e - nf)%Z)
    | _ => None
    end.

(** [inf], [infinity] and [nan], in any case. *)
Definition parse_inf_nan (s : list ascii) : option float :=
  let w := string_of_list_ascii (map to_lower s) in
  if String.eqb w "inf" || String.eqb w "infinity" then Some infinity
  else if String.eqb w "nan" then Some nan
  else None.

(** An underscore may only stand between two digits; the text without its
    underscores. *)
Fixpoint drop_underscores (prev : ascii) (s : list ascii) : option (list ascii) :=
  match s with
  | [] => if Ascii.eqb prev "_"%char then None else Some []
  | c :: r =>
      if Ascii.eqb c "_"%char then
        if is_digit prev then drop_underscores c r else None
      else if Ascii.eqb prev "_"%char && negb (is_digit c) then None
      else option_map (cons c) (drop_underscores c r)
  end.

(** [float(s)] for an ASCII string; [None] where Python raises
    ValueError. *)
Definition float_of_string (s : string) : option float :=
  match strip_with is_c_space (list_ascii_of_string s) with
  | [] => None
  | l =>
      match drop_underscores Ascii.zero l with
      | None => None
      | Some l' =>
          let '(neg, r) := parse_sign l' in
          match parse_inf_nan r with
          | Some f => Some (if neg then - f else f)%float
          | None =>
              match parse_decimal r with
              | Some (m, e) => Some (float_of_decimal neg m e)
              | None => None
              end
          end
      end
  end.

(** [float(v)] *)
Definition py_float (v : pyval) : res float :=
  match v with
  | PFloat f => Ok f
  | PInt z => float_of_int z
  | PBool b => Ok (if b then 1 else 0)%float
  | PStr s =>
      match float_of_string s with
      | Some f => Ok f
      | None =>
          Raise (ValueError ("could not convert string to float: " ++ repr_str s))
      end
  | _ =>
      Raise (TypeError
               ("float() argument must be a string or a real number, not '"
                  ++ type_name v ++ "'"))
  end.

(** [round(x, ndigits)] for a float and [ndigits >= 0]: the exact value of
    [x] rounded to a multiple of [10^-ndigits], ties to even, then the
    float nearest to that decimal.  Zeros, infinities and nan are returned
    as they are. *)
Definition round_float (x : float) (ndigits : nat) : float :=
  match Prim2SF x with
  | S754_finite s m e =>
      if (0 <=? e)%Z then x
      else
        let num := (Zpos m * 10 ^ Z.of_nat ndigits)%Z in
        let den := (2 ^ (- e))%Z in
        let q := (num / den)%Z in
        let r := (num mod den)%Z in
        let q' :=
          match (2 * r ?= den)%Z with
          | Lt => q
          | Gt => (q + 1)%Z
          | Eq => if Z.even q then q else (q + 1)%Z
          end in
        float_of_decimal s q' (- Z.of_nat ndigits)
  | _ => x
  end.

(** [round(v, ndigits)] on a number: an [int] is its own rounding. *)
Definition py_round (v : pyval) (ndigits : nat) : pyval :=
  match v with
  | PFloat f => PFloat (round_float f ndigits)
  | _ => v
  end.

(** [a / b] on floats *)
Definition py_div (a b : float) : res float :=
  if PrimFloat.eqb b 0 then Raise (ZeroDivisionError "float division by zero")
  else Ok (a / b)%float.

(** [max(a, b)]: the first argument unless the second is greater. *)
Definition py_max (a b : float) : float :=
  if PrimFloat.ltb a b then b else a.

(** [sum(xs)] over floats: the [int] 0 when there is nothing to add,
    otherwise the terms added left to right onto 0 (the accumulation of
    CPython up to 3.11; from 3.12 on [sum] also carries a compensation
    term, which can change the last bit of a sum of inexact terms). *)
Definition py_sum (xs : list float) : pyval :=
  match xs with
  | [] => PInt 0
  | _ => PFloat (fold_left PrimFloat.add xs 0%float)
  end.

(** The float a number stands for in arithmetic with floats. *)
Definition num_float (v : pyval) : float :=
  match v with
  | PFloat f => f
  | PInt z => SF2Prim (binary_normalize prec emax z 0 false)
  | PBool b => (if b then 1 else 0)%float
  | _ => nan
  end.

End Py.

(** ** Regular expressions

    The fragment of Python's [re] the field patterns are written in:
    literal characters, [\s], character classes, greedy repetition of one
    character ([*], [+], [?], [{m,n}]) and one capturing group.  Matching
    is case-insensitive ([re.IGNORECASE]) and backtracks as [re] does: a
    repetition takes as many characters as it can and gives them back one
    at a time.  The text searched is ASCII: the white space and the case
    pairs Unicode has beyond it are not modelled. *)

Module Re.
Import Py.

Inductive atom : Type :=
| Lit (c : ascii)
| Cls (ranges : list (ascii * ascii))
| Space.

Inductive item : Type :=
| Rep (a : atom) (lo : nat) (hi : option nat).

(** What stands before, inside and after the capturing group. *)
Record pattern : Type := Pattern {
  pre : list item;
  grp : list item;
  post : list item
}.

Definition in_ranges (rs : list (ascii * ascii)) (c : ascii) : bool :=
  existsb (fun r => Nat.leb (code (fst r)) (code c)
                    && Nat.leb (code c) (code (snd r))) rs.

(** Whether an ASCII character matches an atom, ignoring case. *)
Definition atom_matches (a : atom) (c : ascii) : bool :=
  match a with
  | Lit l => Ascii.eqb (to_lower c) (to_lower l)
  | Cls rs => in_ranges rs (to_lower c) || in_ranges rs (to_upper c)
  | Space => is_space c
  end.

(** Between [lo] and [hi] characters matching [a], then [k] on the rest:
    the longest run first. *)
Fixpoint match_rep {R} (a : atom) (lo : nat) (hi : option nat)
  (k : list ascii -> option R) (s : list ascii) : option R :=
  let stop := match lo with O => k s | S _ => None end in
  match hi, s with
  | Some O, _ => stop
  | _, [] => stop
  | _, c :: s' =>
      if atom_matches a c then
        match match_rep a (Nat.pred lo) (option_map Nat.pred hi) k s' with
        | Some r => Some r
        | None => stop
        end
      else stop
  end.

Fixpoint match_items {R} (its : list item) (k : list ascii -> option R)
  : list ascii -> option R :=
  match its with
  | [] => k
  | Rep a lo hi :: rest => match_rep a lo hi (match_items rest k)
  end.

(** A match starting at the head of [s]: the text of group 1. *)
Definition match_at (p : pattern) (s : list ascii) : option (list ascii) :=
  match_items (pre p)
    (fun s1 =>
       match_items (grp p)
         (fun s2 =>
            match_items (post p)
              (fun _ => Some (firstn (length s1 - length s2) s1)) s2) s1) s.

Fixpoint search_from (p : pattern) (s : list ascii) : option (list ascii) :=
  match match_at p s with
  | Some g => Some g
  | None =>
      match s with
      | [] => None
      | _ :: r => search_from p r
      end
  end.

(** [re.search(p, text, re.IGNORECASE)]: [group(1)] of the leftmost match. *)
Definition search (p : pattern) (text : string) : option string :=
  option_map string_of_list_ascii (search_from p (list_ascii_of_string text)).

(** *** Reading a pattern from its source text *)

Inductive token : Type :=
| TItem (i : item)
| TOpen
| TClose.

Definition is_alnum (c : ascii) : bool :=
  is_digit c || between 65 90 c || between 97 122 c.

Definition is_meta (c : ascii) : bool :=
  existsb (Ascii.eqb c) (list_ascii_of_string ".^$|*+?{}[]()").

(** The members of a class, after its opening bracket. *)
Fixpoint parse_class (s : list ascii) (acc : list (ascii * ascii))
  : option (list (ascii * ascii) * list ascii) :=
  match s with
  | [] => None
  | a :: r =>
      if Ascii.eqb a "]"%char then Some (rev acc, r)
      else if Ascii.eqb a backslash then
        match r with
        | c :: r' =>
            if is_alnum c then None else parse_class r' ((c, c) :: acc)
        | [] => None
        end
      else
        match r with
        | d :: b :: r' =>
            if Ascii.eqb d "-"%char && negb (Ascii.eqb b "]"%char)
               && negb (Ascii.eqb b backslash)
            then parse_class r' ((a, b) :: acc)
            else parse_class r ((a, a) :: acc)
        | _ => parse_class r ((a, a) :: acc)
        end
  end.

Definition parse_nat (s : list ascii) : option (nat * list ascii) :=
  let '(v, n, r) := take_digits 0 0 s in
  if (n =? 0)%Z then None else Some (Z.to_nat v, r).

(** The repetition that follows an atom, [{1,1}] when there is none. *)
Definition parse_quantifier (s : list ascii)
  : option (nat * option nat * list ascii) :=
  match s with
  | c :: r =>
      if Ascii.eqb c "*"%char then Some (0, None, r)
      else if Ascii.eqb c "+"%char then Some (1, None, r)
      else if Ascii.eqb c "?"%char then Some (0, Some 1, r)
      else if Ascii.eqb c "{"%char then
        match parse_nat r with
        | Some (m, d :: r1) =>
            if Ascii.eqb d "}"%char then Some (m, Some m, r1)
            else if Ascii.eqb d ","%char then
              match parse_nat r1 with
              | Some (n, e :: r2) =>
                  if Ascii.eqb e "}"%char then Some (m, Some n, r2) else None
              | _ => None
              end
            else None
        | _ => None
        end
      else Some (1, Some 1, s)
  | [] => Some (1, Some 1, s)
  end.

Definition parse_atom (s : list ascii) : option (atom * list ascii) :=
  match s with
  | [] => None
  | c :: r =>
      if Ascii.eqb c backslash then
        match r with
        | e :: r' =>
            if Ascii.eqb e "s"%char then Some (Space, r')
            else if is_alnum e then None
            else Some (Lit e, r')
        | [] => None
        end
      else if Ascii.eqb c "["%char then
        match parse_class r [] with
        | Some (rs, r') => Some (Cls rs, r')
        | None => None
        end
      else if is_meta c then None
      else Some (Lit c, r)
  end.

Fixpoint tokens (fuel : nat) (s : list ascii) : option (list token) :=
  match fuel with
  | O => match s with [] => Some [] | _ => None end
  | S fuel' =>
      match s with
      | [] => Some []
      | c :: r =>
          if Ascii.eqb c "("%char then option_map (cons TOpen) (tokens fuel' r)
          else if Ascii.eqb c ")"%char then option_map (cons TClose) (tokens fuel' r)
          else
            match parse_atom s with
            | Some (a, r1) =>
                match parse_quantifier r1 with
                | Some (lo, hi, r2) =>
                    option_map (cons (TItem (Rep a lo hi))) (tokens fuel' r2)
                | None => None
                end
            | None => None
            end
      end
  end.

Fixpoint items_until (stop : bool) (ts : list token)
  : option (list item * list token) :=
  match ts with
  | [] => if stop then None else Some ([], [])
  | TItem i :: r =>
      match items_until stop r with
      | Some (l, r') => Some (i :: l, r')
      | None => None
      end
  | TOpen :: r => if stop then None else Some ([], ts)
  | TClose :: r => if stop then Some ([], r) else None
  end.

(** [re.compile(src)] for a pattern of the fragment with exactly one
    group. *)
Definition compile (src : string) : option pattern :=
  let l := list_ascii_of_string src in
  match tokens (length l) l with
  | Some ts =>
      match items_until false ts with
      | Some (a, TOpen :: r1) =>
          match items_until true r1 with
          | Some (g, r2) =>
              match items_until false r2 with
              | Some (b, []) => Some (Pattern a g b)
              | _ => None
              end
          | None => None
          end
      | _ => None
      end
  | None => None
  end.

End Re.

(** ** OCR word records ([src/ocr_engine.py], [run_ocr_on_image]) *)

Module OcrEngine.

(** One recognised word: the [word_info] dict with its six keys. *)
Record WordRecord : Type := {
  text : string;
  left : Z;
  top : Z;
  width : Z;
  height : Z;
  conf : float
}.


(** The file name [save_ocr_output] writes a page to:
    [f"{prefix}_page_{page_num}_raw.json"]. *)
Definition raw_json_name (prefix : string) (page_num : Z) : string :=
  prefix ++ "_page_" ++ Py.str_int page_num ++ "_raw.json".

End OcrEngine.

(** ** [src/field_extraction.py] *)

Module FieldExtraction.
Import Py.

(** An entity of [doc.ents]: its text and its label. *)
Record Span : Type := {
  text : string;
  label_ : string
}.

Definition field (value : pyval) (confidence : float) (present : bool) : pyval :=
  PDict [("value", value); ("confidence", PFloat confidence);
         ("present", PBool present)].

Fixpoint extract_field (patterns : list Re.pattern) (text : string)
  (field_name : string) : pyval :=
  match patterns with
  | [] => field PNone 0%float false
  | pattern :: rest =>
      match Re.search pattern text with
      | Some group1 => field (PStr (strip group1)) 0.95%float true
      | None => extract_field rest text field_name
      end
  end.

(** The four pattern lists, each pattern compiled from its source text. *)
Definition re_invoice_number : Re.pattern :=
  Eval vm_compute in
    default (Re.Pattern [] [] [])
      (Re.compile "Invoice\s*No\.?\s*[:\-]?\s*([A-Za-z0-9\-]+)").

Definition re_date : Re.pattern :=
  Eval vm_compute in
    default (Re.Pattern [] [] [])
      (Re.compile "Date\s*[:\-]?\s*([0-9]{2,4}[-/][0-9]{1,2}[-/][0-9]{1,4})").

Definition re_gst_number : Re.pattern :=
  Eval vm_compute in
    default (Re.Pattern [] [] [])
      (Re.compile "GSTIN\s*[:\-]?\s*([0-9A-Z]{15})").

Definition re_po_number : Re.pattern :=
  Eval vm_compute in
    default (Re.Pattern [] [] [])
      (Re.compile "PO\s*No\.?\s*[:\-]?\s*([A-Za-z0-9\-]+)").

Definition patterns : list (string * list Re.pattern) :=
  [("invoice_number", [re_invoice_number]);
   ("date", [re_date]);
   ("gst_number", [re_gst_number]);
   ("po_number", [re_po_number])].

Definition extract_fields_from_text (text : string) : dict :=
  fold_left
    (fun results fp => dict_set results (fst fp) (extract_field (snd fp) text (fst fp)))
    patterns [].

Definition label_in (labels : list string) (ent : Span) : bool :=
  existsb (String.eqb (label_ ent)) labels.

(** [nlp] is the entity tagger: [nlp text] stands for [nlp(text).ents]. *)
Definition extract_bill_ship_to (text0 : string) (nlp : string -> list Span) : dict :=
  let ents := nlp text0 in
  let orgs := map text (List.filter (label_in ["ORG"; "PERSON"]) ents) in
  let locs := map text (List.filter (label_in ["GPE"; "LOC"]) ents) in
  let first_of l := match l with x :: _ => PStr x | [] => PNone end in
  let second_of l :=
    if Nat.ltb 1 (length l)
    then match nth_error l 1 with Some x => PStr x | None => PNone end
    else PNone in
  let bill_to := first_of orgs in
  let ship_to := second_of orgs in
  let bill_addr := first_of locs in
  let ship_addr := second_of locs in
  let entry v c := field v (if truthy v then c else 0%float) (truthy v) in
  [("bill_to", entry bill_to 0.8%float);
   ("ship_to", entry ship_to 0.8%float);
   ("bill_to_address", entry bill_addr 0.7%float);
   ("ship_to_address", entry ship_addr 0.7%float)].

(** The text of a document: every page's words joined by spaces, a line
    feed after each page. *)
Definition all_text (pages : list (list OcrEngine.WordRecord)) : string :=
  fold_left
    (fun acc words =>
       acc ++ join " " (map OcrEngine.text words) ++ String (ascii_of_nat 10) "")
    pages "".

(** [process_ocr_pages], from the loaded pages to the [fields] it returns
    (and writes to [<prefix>_fields.json]). *)
Definition process_ocr_pages (pages : list (list OcrEngine.WordRecord))
  (nlp : string -> list Span) : dict :=
  let text0 := all_text pages in
  let fields := extract_fields_from_text text0 in
  let bill_ship := extract_bill_ship_to text0 nlp in
  dict_update fields bill_ship.

End FieldExtraction.

(** ** Files and the console *)

Module Fs.

(** What the drivers see of the outside: the files (path to content) and
    the lines printed so far. *)
Record world : Type := {
  files : gmap string string;
  stdout : list string
}.

(** [path.exists()] *)
Definition path_exists (path : string) (w : world) : bool :=
  bool_decide (is_Some (files w !! path)).

(** [with open(path, "w") as f: f.write(content)] *)
Definition write_file (path content : string) (w : world) : world :=
  {| files := <[path := content]> (files w); stdout := stdout w |}.

(** [print(line)] *)
Definition print (line : string) (w : world) : world :=
  {| files := files w; stdout := stdout w ++ [line] |}.

(** [Path(dir) / name] for a relative [name]. *)
Definition path_join (dir name : string) : string := dir ++ "/" ++ name.

End Fs.

(** ** [src/field_extraction.py], the driver *)

Module FieldExtractionFiles.

Import Py Fs OcrEngine.

Definition OCR_OUTPUT_DIR : string := "output/ocr".
Definition FIELDS_OUTPUT_DIR : string := "output".

Section Driver.

(** The loaded spaCy pipeline and the calls into the standard library:
    [sorted(dir.glob(pattern))], [json.load] on the text of an OCR file (a
    list of word records, as [save_ocr_output] writes them),
    [json.dump(_, f, indent=2, ensure_ascii=False)] and [Path.resolve]. *)
Variable nlp : string -> list FieldExtraction.Span.
Variable sorted_glob : string -> string -> world -> list string.
Variable json_loads_words : string -> res (list WordRecord).
Variable json_dumps : pyval -> string.
Variable resolve : string -> string.

Definition load_ocr_json (page_json_path : string) (w : world)
  : res (list WordRecord) :=
  match files w !! page_json_path with
  | Some content => json_loads_words content
  | None =>
      Raise (OSError ("No such file or directory: " ++ repr_str page_json_path))
  end.

(** [path.mkdir(parents=True, exist_ok=True)]; directories are not part
    of the world. *)
Definition ensure_dir (path : string) (w : world) : world := w.

(** The loop over the OCR files, which adds a line for each page to
    [all_text]. *)
Fixpoint read_pages (ocr_files : list string) (all_text : string) (w : world)
  : res string :=
  match ocr_files with
  | [] => Ok all_text
  | ocr_file :: rest =>
      let* words := load_ocr_json ocr_file w in
      let page_text := join " " (map text words) in
      read_pages rest (all_text ++ page_text ++ String (ascii_of_nat 10) "") w
  end.

Definition process_ocr_pages (prefix : string) (w : world)
  : res pyval * world :=
  let ocr_files := sorted_glob OCR_OUTPUT_DIR (prefix ++ "_page_*_raw.json") w in
  match read_pages ocr_files "" w with
  | Raise e => (Raise e, w)
  | Ok all_text =>
      let fields := FieldExtraction.extract_fields_from_text all_text in
      let bill_ship := FieldExtraction.extract_bill_ship_to all_text nlp in
      let fields := dict_update fields bill_ship in
      let w1 := ensure_dir FIELDS_OUTPUT_DIR w in
      let out_path := path_join FIELDS_OUTPUT_DIR (prefix ++ "_fields.json") in
      let w2 := write_file out_path (json_dumps (PDict fields)) w1 in
      let w3 := print ("Extracted fields saved to " ++ resolve out_path) w2 in
      (Ok (PDict fields), w3)
  end.

End Driver.

End FieldExtractionFiles.

(** ** [src/verification_engine.py] *)

Module VerificationEngine.
Import Py Fs.

Definition FIELDS_OUTPUT_DIR : string := "output".
Definition LINEITEMS_OUTPUT_DIR : string := "output".
Definition VERIFICATION_OUTPUT_DIR : string := "output".

(** [float(fields.get(name, {}).get("value", 0))] *)
Definition field_float (fields : pyval) (name : string) : res float :=
  let* f := py_get fields name (PDict []) in
  let* v := py_get f "value" (PInt 0) in
  py_float v.

(** [float(item.get("row_total", 0))] *)
Definition row_total_float (item : pyval) : res float :=
  let* v := py_get item "row_total" (PInt 0) in
  py_float v.

(** The [try] block: the five values it binds, or the exception it
    raises. *)
Definition extract_values (fields line_items : pyval)
  : res (pyval * float * float * float * float) :=
  let* items := py_iter line_items in
  let* row_totals := mapM row_total_float items in
  let subtotal := py_sum row_totals in
  let* extracted_subtotal := field_float fields "subtotal" in
  let* gst := field_float fields "gst_amount" in
  let* discount := field_float fields "discount" in
  let* total := field_float fields "total" in
  Ok (subtotal, extracted_subtotal, gst, discount, total).

Definition verify_calculations (fields line_items : pyval) : res dict :=
  match extract_values fields line_items with
  | Raise e =>
      Ok [("verified", PBool false);
          ("error", PStr ("Value extraction error: " ++ exn_str e));
          ("confidence", PFloat 0);
          ("error_margin", PNone)]
  | Ok (subtotal, extracted_subtotal, gst, discount, total) =>
      let computed_total := (num_float subtotal + gst - discount)%float in
      let error_margin := abs (computed_total - total) in
      let verified := (error_margin <? 1)%float in
      let* ratio := py_div error_margin (total + 1e-5)%float in
      let confidence := py_max 0 (1 - ratio)%float in
      Ok [("verified", PBool verified);
          ("confidence", PFloat (round_float confidence 3));
          ("error_margin", PFloat (round_float error_margin 2));
          ("extracted_subtotal", PFloat extracted_subtotal);
          ("computed_subtotal", py_round subtotal 2);
          ("extracted_total", PFloat total);
          ("computed_total", PFloat (round_float computed_total 2));
          ("gst", PFloat gst);
          ("discount", PFloat discount)]
  end.

Section Driver.

(** The standard library calls of the driver: [json.load] on the text of a
    file, [json.dump(_, f, indent=2)], and [Path.resolve] (which depends
    on the working directory). *)
Variable json_loads : string -> res pyval.
Variable json_dumps : pyval -> string.
Variable resolve : string -> string.

Definition load_json (path : string) (w : world) : res pyval :=
  match files w !! path with
  | Some content => json_loads content
  | None => Raise (OSError ("No such file or directory: " ++ repr_str path))
  end.

(** [path.mkdir(parents=True, exist_ok=True)]; the output directory is the
    one the input files are read from, so nothing changes. *)
Definition ensure_dir (path : string) (w : world) : world := w.

Definition process_verification (prefix : string) (w : world)
  : res pyval * world :=
  let fields_path := path_join FIELDS_OUTPUT_DIR (prefix ++ "_fields.json") in
  let lineitems_path :=
    path_join LINEITEMS_OUTPUT_DIR (prefix ++ "_lineitems.json") in
  if negb (path_exists fields_path w) || negb (path_exists lineitems_path w)
  then
    (Ok PNone,
     print ("Required files not found for prefix '" ++ prefix ++ "'.") w)
  else
    match load_json fields_path w with
    | Raise e => (Raise e, w)
    | Ok fields =>
        match load_json lineitems_path w with
        | Raise e => (Raise e, w)
        | Ok line_items =>
            match verify_calculations fields line_items with
            | Raise e => (Raise e, w)
            | Ok result =>
                let w1 := ensure_dir VERIFICATION_OUTPUT_DIR w in
                let out_path :=
                  path_join VERIFICATION_OUTPUT_DIR
                    (prefix ++ "_verifiability_report.json") in
                let w2 := write_file out_path (json_dumps (PDict result)) w1 in
                let w3 :=
                  print ("Verification report saved to " ++ resolve out_path) w2 in
                (Ok (PDict result), w3)
            end
        end
    end.

End Driver.

(** The prefix [main] reads off the name of a fields file,
    [f.name.replace("_fields.json", EMPTY)]; [get_prefixes] of
    [src/exporter.py] does the same. *)
Definition prefix_of_fields_name (name : string) : string :=
  str_remove "_fields.json" name.

End VerificationEngine.

(** ** [src/line_item_extractor.py] *)

Module LineItemExtractor.
Import Py Fs OcrEngine.

Definition FIELDS_OUTPUT_DIR : string := "output".
Definition LINEITEMS_OUTPUT_DIR : string := "output".
Definition VERIFICATION_OUTPUT_DIR : string := "output".

(** This module carries its own copy of [verify_calculations] and of
    [process_verification]. *)

(** [float(fields.get(name, {}).get("value", 0))] *)
Definition field_float (fields : pyval) (name : string) : res float :=
  let* f := py_get fields name (PDict []) in
  let* v := py_get f "value" (PInt 0) in
  py_float v.

(** [float(item.get("row_total", 0))] *)
Definition row_total_float (item : pyval) : res float :=
  let* v := py_get item "row_total" (PInt 0) in
  py_float v.

(** The [try] block: the five values it binds, or the exception it
    raises. *)
Definition extract_values (fields line_items : pyval)
  : res (pyval * float * float * float * float) :=
  let* items := py_iter line_items in
  let* row_totals := mapM row_total_float items in
  let subtotal := py_sum row_totals in
  let* extracted_subtotal := field_float fields "subtotal" in
  let* gst := field_float fields "gst_amount" in
  let* discount := field_float fields "discount" in
  let* total := field_float fields "total" in
  Ok (subtotal, extracted_subtotal, gst, discount, total).

Definition verify_calculations (fields line_items : pyval) : res dict :=
  match extract_values fields line_items with
  | Raise e =>
      Ok [("verified", PBool false);
          ("error", PStr ("Value extraction error: " ++ exn_str e));
          ("confidence", PFloat 0);
          ("error_margin", PNone)]
  | Ok (subtotal, extracted_subtotal, gst, discount, total) =>
      let computed_total := (num_float subtotal + gst - discount)%float in
      let error_margin := abs (computed_total - total) in
      let verified := (error_margin <? 1)%float in
      let* ratio := py_div error_margin (total + 1e-5)%float in
      let confidence := py_max 0 (1 - ratio)%float in
      Ok [("verified", PBool verified);
          ("confidence", PFloat (round_float confidence 3));
          ("error_margin", PFloat (round_float error_margin 2));
          ("extracted_subtotal", PFloat extracted_subtotal);
          ("computed_subtotal", py_round subtotal 2);
          ("extracted_total", PFloat total);
          ("computed_total", PFloat (round_float computed_total 2));
          ("gst", PFloat gst);
          ("discount", PFloat discount)]
  end.

(** The body of the [try] block for one candidate row. *)
Definition parse_row (context numbers : list WordRecord) : res dict :=
  let row := [("description", PStr ""); ("qty", PNone);
              ("unit_price", PNone); ("row_total", PNone)] in
  let row :=
    dict_set row "description" (PStr (join " " (map text (slice context 1 3)))) in
  let* n1 := list_index numbers 1 in
  let* qty := py_float (PStr (remove_commas (text n1))) in
  let row := dict_set row "qty" (PFloat qty) in
  let* n2 := list_index numbers 2 in
  let* unit_price := py_float (PStr (remove_commas (text n2))) in
  let row := dict_set row "unit_price" (PFloat unit_price) in
  let* n3 := list_index numbers 3 in
  let* row_total := py_float (PStr (remove_commas (text n3))) in
  let row := dict_set row "row_total" (PFloat row_total) in
  let valid := (abs (unit_price * qty - row_total) <? 2)%float in
  let row := dict_set row "valid" (PBool valid) in
  Ok row.

(** One turn of the loop, at index [i] on [word]. *)
Definition scan_word (words : list WordRecord) (line_items : list pyval)
  (iw : nat * WordRecord) : list pyval :=
  let '(i, word) := iw in
  if str_isdigit (text word) then
    let context := slice words i (i + 8) in
    let numbers := List.filter (fun w => has_digit (text w)) context in
    if Nat.leb 3 (length numbers) then
      match parse_row context numbers with
      | Ok row => line_items ++ [PDict row]
      | Raise _ => line_items
      end
    else line_items
  else line_items.

(** [enumerate(l)] *)
Definition enumerate {A} (l : list A) : list (nat * A) :=
  combine (seq 0 (length l)) l.

Definition extract_line_items_from_ocr (words : list WordRecord) : list pyval :=
  fold_left (scan_word words) (enumerate words) [].

(** *** The same function on any list of values

    [extract_line_items_from_ocr] as Python runs it on what [json.load]
    gives: a word is any value, [word["text"]] and the string methods can
    raise, and only what the [try] block raises is caught. *)

(** [[w for w in context if any(c.isdigit() for c in w["text"])]] *)
Fixpoint numbers_of (context : list pyval) : res (list pyval) :=
  match context with
  | [] => Ok []
  | w :: r =>
      let* t := py_getitem w "text" in
      let* b := py_any_isdigit t in
      let* ns := numbers_of r in
      Ok (if b then w :: ns else ns)
  end.

(** [float(n["text"].replace(",", EMPTY))] *)
Definition token_float (n : pyval) : res float :=
  let* t := py_getitem n "text" in
  let* s := py_remove_commas t in
  py_float (PStr s).

(** The [try] block on any values. *)
Definition parse_row_dyn (context numbers : list pyval) : res dict :=
  let row := [("description", PStr ""); ("qty", PNone);
              ("unit_price", PNone); ("row_total", PNone)] in
  let* texts := mapM (fun w => py_getitem w "text") (slice context 1 3) in
  let* description := py_join " " texts in
  let row := dict_set row "description" (PStr description) in
  let* n1 := list_index numbers 1 in
  let* qty := token_float n1 in
  let row := dict_set row "qty" (PFloat qty) in
  let* n2 := list_index numbers 2 in
  let* unit_price := token_float n2 in
  let row := dict_set row "unit_price" (PFloat unit_price) in
  let* n3 := list_index numbers 3 in
  let* row_total := token_float n3 in
  let row := dict_set row "row_total" (PFloat row_total) in
  let valid := (abs (unit_price * qty - row_total) <? 2)%float in
  let row := dict_set row "valid" (PBool valid) in
  Ok row.

(** One turn of the loop; what it raises leaves the function. *)
Definition scan_word_dyn (words : list pyval) (line_items : list pyval)
  (iw : nat * pyval) : res (list pyval) :=
  let '(i, word) := iw in
  let* t := py_getitem word "text" in
  let* b := py_isdigit t in
  if b then
    let context := slice words i (i + 8) in
    let* numbers := numbers_of context in
    if Nat.leb 3 (length numbers) then
      match parse_row_dyn context numbers with
      | Ok row => Ok (line_items ++ [PDict row])%list
      | Raise _ => Ok line_items
      end
    else Ok line_items
  else Ok line_items.

Fixpoint scan_all (words : list pyval) (l : list (nat * pyval))
  (line_items : list pyval) : res (list pyval) :=
  match l with
  | [] => Ok line_items
  | iw :: r =>
      let* line_items := scan_word_dyn words line_items iw in
      scan_all words r line_items
  end.

Definition extract_line_items_from_ocr_dyn (words : list pyval)
  : res (list pyval) :=
  scan_all words (enumerate words) [].

Section Driver.

(** The standard library calls of the driver: [json.load] on the text of a
    file, [json.dump(_, f, indent=2)], and [Path.resolve] (which depends
    on the working directory). *)
Variable json_loads : string -> res pyval.
Variable json_dumps : pyval -> string.
Variable resolve : string -> string.

Definition load_json (path : string) (w : world) : res pyval :=
  match files w !! path with
  | Some content => json_loads content
  | None => Raise (OSError ("No such file or directory: " ++ repr_str path))
  end.

(** [path.mkdir(parents=True, exist_ok=True)]; the output directory is the
    one the input files are read from, so nothing changes. *)
Definition ensure_dir (path : string) (w : world) : world := w.

Definition process_verification (prefix : string) (w : world)
  : res pyval * world :=
  let fields_path := path_join FIELDS_OUTPUT_DIR (prefix ++ "_fields.json") in
  let lineitems_path :=
    path_join LINEITEMS_OUTPUT_DIR (prefix ++ "_lineitems.json") in
  if negb (path_exists fields_path w) || negb (path_exists lineitems_path w)
  then
    (Ok PNone,
     print ("Required files not found for prefix '" ++ prefix ++ "'.") w)
  else
    match load_json fields_path w with
    | Raise e => (Raise e, w)
    | Ok fields =>
        match load_json lineitems_path w with
        | Raise e => (Raise e, w)
        | Ok line_items =>
            match verify_calculations fields line_items with
            | Raise e => (Raise e, w)
            | Ok result =>
                let w1 := ensure_dir VERIFICATION_OUTPUT_DIR w in
                let out_path :=
                  path_join VERIFICATION_OUTPUT_DIR
                    (prefix ++ "_verifiability_report.json") in
                let w2 := write_file out_path (json_dumps (PDict result)) w1 in
                let w3 :=
                  print ("Verification report saved to " ++ resolve out_path) w2 in
                (Ok (PDict result), w3)
            end
        end
    end.

End Driver.

Definition OCR_OUTPUT_DIR : string := "output/ocr".

Section Pages.

(** The calls into the standard library: [sorted(dir.glob(pattern))],
    [json.load] on the text of an OCR file (a list of word records, as
    [save_ocr_output] writes them), [json.dump(_, f, indent=2)] and
    [Path.resolve]. *)
Variable sorted_glob : string -> string -> world -> list string.
Variable json_loads_words : string -> res (list WordRecord).
Variable json_dumps : pyval -> string.
Variable resolve : string -> string.

Definition load_ocr_json (page_json_path : string) (w : world)
  : res (list WordRecord) :=
  match files w !! page_json_path with
  | Some content => json_loads_words content
  | None =>
      Raise (OSError ("No such file or directory: " ++ repr_str page_json_path))
  end.

(** The loop [for ocr_file in ocr_files: words.extend(load_ocr_json(ocr_file))] *)
Fixpoint load_words (ocr_files : list string) (words : list WordRecord)
  (w : world) : res (list WordRecord) :=
  match ocr_files with
  | [] => Ok words
  | ocr_file :: rest =>
      let* page := load_ocr_json ocr_file w in
      load_words rest (words ++ page) w
  end.

Definition process_line_items (prefix : string) (w : world)
  : res pyval * world :=
  let ocr_files := sorted_glob OCR_OUTPUT_DIR (prefix ++ "_page_*_raw.json") w in
  match ocr_files with
  | [] => (Ok PNone, print ("No OCR outputs found for prefix '" ++ prefix ++ "'.") w)
  | _ :: _ =>
      match load_words ocr_files [] w with
      | Raise e => (Raise e, w)
      | Ok words =>
          let line_items := extract_line_items_from_ocr words in
          let w1 := ensure_dir LINEITEMS_OUTPUT_DIR w in
          let out_path :=
            path_join LINEITEMS_OUTPUT_DIR (prefix ++ "_lineitems.json") in
          let w2 := write_file out_path (json_dumps (PList line_items)) w1 in
          let w3 :=
            print ("Extracted line items saved to " ++ resolve out_path) w2 in
          (Ok (PList line_items), w3)
      end
  end.

End Pages.

Definition get_prefix_from_filename (filename : string) : string :=
  let parts := split "_" filename in
  (* [parts[:-3]] *)
  join "_" (slice parts 0 (length parts - 3)).

End LineItemExtractor.

(** ** [src/exporter.py] *)

Module Exporter.

Import Py.

(** One entry of [all_data], as [main] builds it from the files of a
    prefix: [{"prefix": ..., "fields": ..., "line_items": ...}] with the
    FieldSet and the line items of the two extractors. *)
Record Doc : Type := {
  prefix : string;
  fields : dict;
  line_items : list dict
}.

(** [v.get("value") if isinstance(v, dict) else v] *)
Definition flat_value (v : pyval) : pyval :=
  match v with
  | PDict d =>
      match dict_lookup d "value" with
      | Some x => x
      | None => PNone
      end
  | _ => v
  end.

(** The row of the [Fields] sheet: [{"prefix": prefix}] updated with the
    flattened fields. *)
Definition fields_row (doc : Doc) : dict :=
  dict_update [("prefix", PStr (prefix doc))]
    (dict_update [] (map (fun kv => (fst kv, flat_value (snd kv))) (fields doc))).

(** A row of the [LineItems] sheet: [{"prefix": prefix}] updated with the
    item. *)
Definition item_row (p : string) (item : dict) : dict :=
  dict_update [("prefix", PStr p)] item.

(** The two loops of [export_to_excel]: the rows of the two sheets. *)
Definition export_rows (all_data : list Doc) : list dict * list dict :=
  fold_left
    (fun rows doc =>
       ((fst rows ++ [fields_row doc])%list,
        (snd rows ++ map (item_row (prefix doc)) (line_items doc))%list))
    all_data ([], []).

(** [{"prefix": prefix, **verification}] *)
Definition report_entry (p : string) (verification : pyval) : res dict :=
  match verification with
  | PDict d => Ok (dict_update [("prefix", PStr p)] d)
  | _ =>
      Raise (TypeError ("'" ++ type_name verification
                        ++ "' object is not a mapping"))
  end.

(** [if verification: verification_reports.append(...)] *)
Definition add_report (p : string) (verification : pyval)
  (verification_reports : list dict) : res (list dict) :=
  if truthy verification then
    let* entry := report_entry p verification in
    Ok (verification_reports ++ [entry])%list
  else Ok verification_reports.

End Exporter.

(** * Properties *)

Import Py Fs.

(** ** Vocabulary of the statements *)

(** [verify_calculations] exists twice, in [verification_engine.py] and in
    [line_item_extractor.py].  The statements are about either copy. *)
Definition verify_calculations_copies : list (pyval -> pyval -> res dict) :=
  [VerificationEngine.verify_calculations;
   LineItemExtractor.verify_calculations].

(** So does [process_verification]; here with the library calls it is
    run with. *)
Definition process_verification_copies
  (json_loads : string -> res pyval) (json_dumps : pyval -> string)
  (resolve : string -> string) : list (string -> world -> res pyval * world) :=
  [VerificationEngine.process_verification json_loads json_dumps resolve;
   LineItemExtractor.process_verification json_loads json_dumps resolve].

(** The four fields the engine reads. *)
Definition REQUIRED_FIELDS : list string :=
  ["subtotal"; "gst_amount"; "discount"; "total"].

(** The failure record of the specification. *)
Definition failure_record (msg : string) : dict :=
  [("verified", PBool false);
   ("error", PStr msg);
   ("confidence", PFloat 0);
   ("error_margin", PNone)].

(** The success record, from the row totals and the four numbers read
    from the FieldSet: the formulas of the specification, and the
    rounding of the reported values. *)
Definition success_record (row_totals : list float)
  (extracted_subtotal gst discount total : float) : dict :=
  let subtotal := fold_left PrimFloat.add row_totals 0%float in
  let computed_total := (subtotal + gst - discount)%float in
  let error_margin := abs (computed_total - total) in
  let confidence := py_max 0 (1 - error_margin / (total + 1e-5))%float in
  [("verified", PBool (error_margin <? 1)%float);
   ("confidence", PFloat (round_float confidence 3));
   ("error_margin", PFloat (round_float error_margin 2));
   ("extracted_subtotal", PFloat extracted_subtotal);
   ("computed_subtotal",
    match row_totals with
    | [] => PInt 0
    | _ => PFloat (round_float subtotal 2)
    end);
   ("extracted_total", PFloat total);
   ("computed_total", PFloat (round_float computed_total 2));
   ("gst", PFloat gst);
   ("discount", PFloat discount)].

(** Two outcomes that agree on everything but [extracted_subtotal]. *)
Definition same_verdict (o o' : res dict) : Prop :=
  match o, o' with
  | Ok r, Ok r' =>
      forall k, k <> "extracted_subtotal" -> dict_lookup r k = dict_lookup r' k
  | Raise e, Raise e' => e = e'
  | _, _ => False
  end.

(** The invoice of the specification's example: two rows of 100 and 200,
    GST 54, no discount, total 354. *)
Definition example_fields : pyval :=
  PDict [("subtotal", FieldExtraction.field (PStr "300") 0.95 true);
         ("gst_amount", FieldExtraction.field (PStr "54") 0.95 true);
         ("discount", FieldExtraction.field (PStr "0") 0.95 true);
         ("total", FieldExtraction.field (PStr "354") 0.95 true)].

Definition example_line_items : pyval :=
  PList [PDict [("description", PStr "Widget A"); ("qty", PFloat 1);
                ("unit_price", PFloat 100); ("row_total", PFloat 100);
                ("valid", PBool true)];
         PDict [("description", PStr "Widget B"); ("qty", PFloat 2);
                ("unit_price", PFloat 100); ("row_total", PFloat 200);
                ("valid", PBool true)]].



(** The [n]-th text of a list as a value, [None] when there is none. *)
Definition nth_value (l : list string) (n : nat) : pyval :=
  match nth_error l n with
  | Some s => PStr s
  | None => PNone
  end.

(** The entry the source builds from a selected value. *)
Definition entity_entry (v : pyval) (c : float) : pyval :=
  FieldExtraction.field v (if truthy v then c else 0%float) (truthy v).

(** The organization/person texts and the location texts of the spans,
    in order of appearance. *)
Definition orgs_of (ents : list FieldExtraction.Span) : list string :=
  map FieldExtraction.text
    (List.filter (FieldExtraction.label_in ["ORG"; "PERSON"]) ents).

Definition locs_of (ents : list FieldExtraction.Span) : list string :=
  map FieldExtraction.text
    (List.filter (FieldExtraction.label_in ["GPE"; "LOC"]) ents).

(** The field the specification describes for the [n]-th candidate:
    present with confidence [c], or absent. *)
Definition positional_field (l : list string) (n : nat) (c : float) : pyval :=
  match nth_error l n with
  | Some s => FieldExtraction.field (PStr s) c true
  | None => FieldExtraction.field PNone 0 false
  end.

(** The FieldSet [process_ocr_pages] builds from the text of a document. *)
Definition field_set (text0 : string)
  (nlp : string -> list FieldExtraction.Span) : dict :=
  dict_update (FieldExtraction.extract_fields_from_text text0)
    (FieldExtraction.extract_bill_ship_to text0 nlp).

(** [v is None] *)
Definition is_none (v : pyval) : bool :=
  match v with
  | PNone => true
  | _ => false
  end.

(** [present == (value is not None)], and [confidence == 0.0] whenever
    [present] is false. *)
Definition field_value_invariant (fv : pyval) : Prop :=
  exists value confidence present,
    fv = FieldExtraction.field value confidence present
    /\ present = negb (is_none value)
    /\ (present = false -> confidence = 0%float).

(** The half of it that does not look at [value]. *)
Definition absent_without_confidence (fv : pyval) : Prop :=
  exists value confidence present,
    fv = FieldExtraction.field value confidence present
    /\ (present = false -> confidence = 0%float).

(** A word with the given text. *)
Definition word_of (s : string) : OcrEngine.WordRecord :=
  OcrEngine.Build_WordRecord s 0 0 0 0 0.

(** The window at index [i] and the numeric tokens of a window. *)
Definition window (words : list OcrEngine.WordRecord) (i : nat)
  : list OcrEngine.WordRecord :=
  slice words i (i + 8).

Definition numeric_tokens (context : list OcrEngine.WordRecord)
  : list OcrEngine.WordRecord :=
  List.filter (fun w => has_digit (OcrEngine.text w)) context.

(** The line item of the specification. *)
Definition line_item (description : string) (qty unit_price row_total : float)
  : pyval :=
  PDict [("description", PStr description);
         ("qty", PFloat qty);
         ("unit_price", PFloat unit_price);
         ("row_total", PFloat row_total);
         ("valid", PBool (abs (qty * unit_price - row_total) <? 2)%float)].

(** A spec float that is not below zero: a zero, plus infinity, or a
    positive finite number. *)
Definition sf_nonneg (x : spec_float) : Prop :=
  match x with
  | S754_zero _ | S754_infinity false | S754_finite false _ _ => True
  | _ => False
  end.

(** A field whose value is the integer 0. *)
Definition zero_field : pyval := PDict [("value", PInt 0)].

(** The characters a run of pattern items can consume. *)
Inductive consumed : list Re.item -> list ascii -> Prop :=
| consumed_nil : consumed [] []
| consumed_cons (a : Re.atom) (lo : nat) (hi : option nat) (rest : list Re.item)
    (p1 p2 : list ascii) :
    Forall (fun c => Re.atom_matches a c = true) p1 ->
    lo <= length p1 ->
    (forall h, hi = Some h -> length p1 <= h) ->
    consumed rest p2 ->
    consumed (Re.Rep a lo hi :: rest) (p1 ++ p2)%list.

(** [g] occurs in [text]. *)
Definition occurs_in (g text : string) : Prop :=
  exists before after, text = before ++ g ++ after.

(** A letter, a digit or a hyphen. *)
Definition is_ident_char (c : ascii) : bool :=
  Re.is_alnum c || Ascii.eqb c "-"%char.

(** A digit, a hyphen or a slash. *)
Definition is_date_char (c : ascii) : bool :=
  is_digit c || Ascii.eqb c "-"%char || Ascii.eqb c "/"%char.

(** The atom an item repeats. *)
Definition item_atom (it : Re.item) : Re.atom :=
  match it with Re.Rep a _ _ => a end.

(** Some item of the run accepts [c]. *)
Definition accepted_by (its : list Re.item) (c : ascii) : bool :=
  existsb (fun it => Re.atom_matches (item_atom it) c) its.

(** The fewest and the most characters a run of items consumes. *)
Fixpoint min_length (its : list Re.item) : nat :=
  match its with
  | [] => 0
  | Re.Rep _ lo _ :: rest => lo + min_length rest
  end.

Fixpoint max_length (its : list Re.item) : option nat :=
  match its with
  | [] => Some 0
  | Re.Rep _ _ hi :: rest =>
      match hi, max_length rest with
      | Some h, Some n => Some (h + n)
      | _, _ => None
      end
  end.

(** A value of the shape of a line item. *)
Definition is_line_item (row : pyval) : Prop :=
  exists description qty unit_price row_total,
    row = line_item description qty unit_price row_total.

(** The window at [i] gives the row [row]: the word at [i] is purely
    numeric, the window has a fourth numeric token, the second, third and
    fourth parse, and the row is built from them and from the two words
    after the first. *)
Definition row_at (words : list OcrEngine.WordRecord) (i : nat) (row : pyval)
  : Prop :=
  exists word n1 n2 n3 w1 w2 qty unit_price row_total,
    nth_error words i = Some word
    /\ str_isdigit (OcrEngine.text word) = true
    /\ nth_error (numeric_tokens (window words i)) 1 = Some n1
    /\ nth_error (numeric_tokens (window words i)) 2 = Some n2
    /\ nth_error (numeric_tokens (window words i)) 3 = Some n3
    /\ py_float (PStr (remove_commas (OcrEngine.text n1))) = Ok qty
    /\ py_float (PStr (remove_commas (OcrEngine.text n2))) = Ok unit_price
    /\ py_float (PStr (remove_commas (OcrEngine.text n3))) = Ok row_total
    /\ nth_error (window words i) 1 = Some w1
    /\ nth_error (window words i) 2 = Some w2
    /\ row = line_item (OcrEngine.text w1 ++ " " ++ OcrEngine.text w2)
               qty unit_price row_total.

(** The words that can start a row: the purely numeric ones among all but
    the last three. *)
Definition candidates (words : list OcrEngine.WordRecord)
  : list OcrEngine.WordRecord :=
  List.filter (fun w => str_isdigit (OcrEngine.text w))
    (firstn (length words - 3) words).

(** The float a row carries as its total. *)
Definition row_total (row : pyval) : float :=
  match row with
  | PDict d =>
      match dict_lookup d "row_total" with
      | Some (PFloat x) => x
      | _ => 0%float
      end
  | _ => 0%float
  end.

(** [c not in s] *)
Definition free_of (c : ascii) (s : string) : Prop :=
  ~ In c (list_ascii_of_string s).

(** The dict a value is, the empty one for other values. *)
Definition dict_of (v : pyval) : dict :=
  match v with
  | PDict d => d
  | _ => []
  end.

(** A cell that is a string or empty. *)
Definition text_or_none (v : pyval) : Prop :=
  v = PNone \/ exists s, v = PStr s.

(** The document the exporter reads for a prefix whose fields file holds
    the FieldSet of [process_ocr_pages] and whose line-items file holds
    the rows of [extract_line_items_from_ocr]. *)
Definition pipeline_doc (p : string) (pages : list (list OcrEngine.WordRecord))
  (nlp : string -> list FieldExtraction.Span)
  (words : list OcrEngine.WordRecord) : Exporter.Doc :=
  {| Exporter.prefix := p;
     Exporter.fields := FieldExtraction.process_ocr_pages pages nlp;
     Exporter.line_items :=
       map dict_of (LineItemExtractor.extract_line_items_from_ocr words) |}.

(** The columns of the two sheets. *)
Definition FIELDS_COLUMNS : list string :=
  ["prefix"; "invoice_number"; "date"; "gst_number"; "po_number";
   "bill_to"; "ship_to"; "bill_to_address"; "ship_to_address"].

Definition LINEITEMS_COLUMNS : list string :=
  ["prefix"; "description"; "qty"; "unit_price"; "row_total"; "valid"].


(** Words whose texts are ASCII. *)
Definition ascii_words (words : list OcrEngine.WordRecord) : Prop :=
  Forall (fun w => str_isascii (OcrEngine.text w) = true) words.



(** The same value, read as JSON: two objects are the same when they give
    the same value for every key, whatever the order of their entries. *)
Inductive same_json : pyval -> pyval -> Prop :=
| same_none : same_json PNone PNone
| same_bool (b : bool) : same_json (PBool b) (PBool b)
| same_int (z : Z) : same_json (PInt z) (PInt z)
| same_float (f : float) : same_json (PFloat f) (PFloat f)
| same_str (s : string) : same_json (PStr s) (PStr s)
| same_list (l l' : list pyval) :
    Forall2 same_json l l' -> same_json (PList l) (PList l')
| same_dict (d d' : dict) :
    (forall k, option_Forall2 same_json (dict_lookup d k) (dict_lookup d' k)) ->
    same_json (PDict d) (PDict d').

(** ** The runtime model on examples *)

Example float_of_string_examples :
  float_of_string "354" = Some 354%float
  /\ float_of_string "  1_000.5e-1 " = Some 100.05%float
  /\ float_of_string "-1e-5" = Some (-1e-5)%float
  /\ float_of_string ".5" = Some 0.5%float
  /\ float_of_string "-Infinity" = Some neg_infinity
  /\ float_of_string "1e400" = Some infinity
  /\ float_of_string "N/A" = None
  /\ float_of_string "1,5" = None
  /\ float_of_string "1e" = None
  /\ float_of_string "_1" = None
  /\ float_of_string "" = None.
Proof. repeat split. Qed.

Example py_float_examples :
  py_float (PInt 3) = Ok 3%float
  /\ py_float (PBool true) = Ok 1%float
  /\ py_float (PInt (2 ^ 1024))
     = Raise (OverflowError "int too large to convert to float")
  /\ py_float PNone
     = Raise (TypeError
                "float() argument must be a string or a real number, not 'NoneType'")
  /\ py_float (PStr "N/A")
     = Raise (ValueError "could not convert string to float: 'N/A'").
Proof. repeat split. Qed.

Example round_float_examples :
  round_float 0.125 2 = 0.12%float
  /\ round_float 0.375 2 = 0.38%float
  /\ round_float 2.675 2 = 2.67%float
  /\ round_float 0.996 2 = 1%float
  /\ round_float 0.9996 3 = 1%float
  /\ round_float (-0.001) 2 = (-0)%float
  /\ round_float 1e300 2 = 1e300%float
  /\ round_float infinity 2 = infinity.
Proof. repeat split. Qed.

Example search_examples :
  Re.search FieldExtraction.re_invoice_number "Tax INVOICE no.INV/77"
  = Some "INV"
  /\ Re.search FieldExtraction.re_date "Date: 2023-1-15" = Some "2023-1-15"
  /\ Re.search FieldExtraction.re_date "dated 123456-1-15" = None
  /\ Re.search FieldExtraction.re_gst_number "gstin 22aaaaa0000a1z5"
     = Some "22aaaaa0000a1z5"
  /\ Re.search FieldExtraction.re_po_number "PO No - 12" = Some "12".
Proof. repeat split. Qed.

(** The examples of the specification: no date in the text; a row of
    2 x 100 is valid against 200 and not against 205. *)
Example date_absent :
  dict_lookup (FieldExtraction.extract_fields_from_text "Invoice No: INV-2023-001")
    "date"
  = Some (FieldExtraction.field PNone 0 false).
Proof. reflexivity. Qed.

Example line_item_validity :
  line_item "Widget" 2 100 200
  = PDict [("description", PStr "Widget"); ("qty", PFloat 2);
           ("unit_price", PFloat 100); ("row_total", PFloat 200);
           ("valid", PBool true)]
  /\ line_item "Widget" 2 100 205
     = PDict [("description", PStr "Widget"); ("qty", PFloat 2);
              ("unit_price", PFloat 100); ("row_total", PFloat 205);
              ("valid", PBool false)].
Proof. repeat split. Qed.

(** ** The verification engine *)

Lemma verify_calculations_copy :
  LineItemExtractor.verify_calculations = VerificationEngine.verify_calculations.
Proof. reflexivity. Qed.

Lemma field_float_copy :
  LineItemExtractor.field_float = VerificationEngine.field_float.
Proof. reflexivity. Qed.

Ltac both_copies H :=
  unfold verify_calculations_copies in H;
  destruct H as [<- | [<- | []]];
  [ | rewrite verify_calculations_copy ].

Lemma bind_Ok {A B} (a : A) (k : A -> res B) : bind (Ok a) k = k a.
Proof. reflexivity. Qed.

Lemma bind_Raise {A B} (e : exn) (k : A -> res B) : bind (Raise e) k = Raise e.
Proof. reflexivity. Qed.



Lemma field_float_missing (d : dict) (name : string) :
  dict_lookup d name = None ->
  VerificationEngine.field_float (PDict d) name = Ok 0%float.
Proof.
  intros Hd. unfold VerificationEngine.field_float, py_get.
  rewrite Hd. reflexivity.
Qed.



Lemma num_float_py_sum (xs : list float) :
  num_float (py_sum xs) = fold_left PrimFloat.add xs 0%float.
Proof. destruct xs; reflexivity. Qed.

Lemma verify_calculations_of_values (fields line_items : pyval)
  (items : list pyval) (row_totals : list float) (es gst discount total : float) :
  py_iter line_items = Ok items ->
  mapM VerificationEngine.row_total_float items = Ok row_totals ->
  VerificationEngine.field_float fields "subtotal" = Ok es ->
  VerificationEngine.field_float fields "gst_amount" = Ok gst ->
  VerificationEngine.field_float fields "discount" = Ok discount ->
  VerificationEngine.field_float fields "total" = Ok total ->
  VerificationEngine.verify_calculations fields line_items
  = if (total + 1e-5 =? 0)%float
    then Raise (ZeroDivisionError "float division by zero")
    else Ok (success_record row_totals es gst discount total).
Proof.
  intros Hi Hm H1 H2 H3 H4.
  unfold VerificationEngine.verify_calculations, VerificationEngine.extract_values.
  rewrite Hi, bind_Ok, Hm, bind_Ok, H1, bind_Ok, H2, bind_Ok, H3, bind_Ok, H4,
    bind_Ok.
  cbv beta iota zeta. rewrite num_float_py_sum. unfold py_div.
  destruct (total + 1e-5 =? 0)%float; [ reflexivity | ].
  rewrite bind_Ok. unfold success_record.
  destruct row_totals; reflexivity.
Qed.




(** C2, as stated, fails in three ways.  The reported values are rounded:
    with one row of 0.004 and a total of 1 the margin is 0.996, the report
    says [verified] with an [error_margin] of 1.0 and a
    [computed_subtotal] of 0.0.  A row whose [row_total] is not numeric
    gives the failure record although the four fields are numeric.  And a
    total of -1e-5 makes the divisor zero: the function raises. *)
Lemma verify_calculations_success_counterexample :
  let numeric s := FieldExtraction.field (PStr s) 0.95 true in
  let fields t :=
    PDict [("subtotal", numeric "0"); ("gst_amount", numeric "0");
           ("discount", numeric "0"); ("total", numeric t)] in
  Forall
    (fun verify =>
       verify (fields "1") (PList [PDict [("row_total", PFloat 0.004)]])
       = Ok [("verified", PBool true);
             ("confidence", PFloat 0.004);
             ("error_margin", PFloat 1);
             ("extracted_subtotal", PFloat 0);
             ("computed_subtotal", PFloat 0);
             ("extracted_total", PFloat 1);
             ("computed_total", PFloat 0);
             ("gst", PFloat 0);
             ("discount", PFloat 0)]
       /\ verify (fields "1") (PList [PDict [("row_total", PStr "n/a")]])
          = Ok (failure_record
                  "Value extraction error: could not convert string to float: 'n/a'")
       /\ verify (fields "-1e-5") (PList [])
          = Raise (ZeroDivisionError "float division by zero"))
    verify_calculations_copies.
Proof. repeat constructor. Qed.

(** C2 (amended): for every FieldSet whose [subtotal], [gst_amount],
    [discount] and [total] all coerce to numbers, and every line-item
    sequence whose [row_total]s all coerce, provided [total + 1e-5] is not
    zero, [verify_calculations] returns a success record.  With [s] the
    sum of the row totals, [c = s + gst - discount] and
    [m = |c - total|], the record holds [computed_subtotal = round(s, 2)]
    (the integer 0 for an empty sequence), [computed_total = round(c, 2)],
    [error_margin = round(m, 2)], [verified = (m < 1.0)] and
    [confidence = round(max(0.0, 1.0 - m / (total + 1e-5)), 3)], next to
    the four extracted values.  In particular line items summing to 300
    with gst 54, discount 0 and total 354 give [computed_total] 354,
    [error_margin] 0, [verified] true and [confidence] 1.0. *)
Theorem verify_calculations_success :
  forall verify, In verify verify_calculations_copies ->
  (forall (d : dict) (items : list pyval) (row_totals : list float)
          (extracted_subtotal gst discount total : float),
      mapM VerificationEngine.row_total_float items = Ok row_totals ->
      VerificationEngine.field_float (PDict d) "subtotal" = Ok extracted_subtotal ->
      VerificationEngine.field_float (PDict d) "gst_amount" = Ok gst ->
      VerificationEngine.field_float (PDict d) "discount" = Ok discount ->
      VerificationEngine.field_float (PDict d) "total" = Ok total ->
      (total + 1e-5 =? 0)%float = false ->
      verify (PDict d) (PList items)
      = Ok (success_record row_totals extracted_subtotal gst discount total))
  /\ verify example_fields example_line_items
     = Ok [("verified", PBool true);
           ("confidence", PFloat 1);
           ("error_margin", PFloat 0);
           ("extracted_subtotal", PFloat 300);
           ("computed_subtotal", PFloat 300);
           ("extracted_total", PFloat 354);
           ("computed_total", PFloat 354);
           ("gst", PFloat 54);
           ("discount", PFloat 0)].
Proof.
  intros verify Hverify. split.
  - intros d items row_totals es gst discount total Hm H1 H2 H3 H4 Hz.
    assert (Hve : VerificationEngine.verify_calculations (PDict d) (PList items)
                  = Ok (success_record row_totals es gst discount total)).
    { rewrite (verify_calculations_of_values (PDict d) (PList items) items
                 row_totals es gst discount total eq_refl Hm H1 H2 H3 H4).
      rewrite Hz. reflexivity. }
    both_copies Hverify; exact Hve.
  - both_copies Hverify; vm_compute; reflexivity.
Qed.

Lemma verify_calculations_success_witness :
  VerificationEngine.verify_calculations example_fields example_line_items
  = Ok (success_record [100; 200]%float 300 54 0 354).
Proof.
  apply (proj1 (verify_calculations_success
                  VerificationEngine.verify_calculations (or_introl eq_refl))).
  - vm_compute; reflexivity.
  - vm_compute; reflexivity.
  - vm_compute; reflexivity.
  - vm_compute; reflexivity.
  - vm_compute; reflexivity.
  - vm_compute; reflexivity.
Defined.

(** *** The same inputs, read as JSON *)

Lemma same_json_type_name (v v' : pyval) :
  same_json v v' -> type_name v = type_name v'.
Proof. destruct 1; reflexivity. Qed.














(** A read of a field depends on the FieldSet only through the lookup of
    that field. *)
Lemma field_float_agree (d d' : dict) (name : string) :
  dict_lookup d name = dict_lookup d' name ->
  VerificationEngine.field_float (PDict d) name
  = VerificationEngine.field_float (PDict d') name.
Proof.
  intros H. unfold VerificationEngine.field_float, py_get. rewrite H.
  reflexivity.
Qed.

(** C10: the extracted subtotal does not influence the verdict.  For two
    FieldSets that differ only in the (coercible) [subtotal] field and any
    line items, the two reports agree on every key but
    [extracted_subtotal]: on [verified], [confidence], [error_margin],
    [computed_subtotal], [computed_total], [extracted_total], [gst] and
    [discount] (and on [error] when the report is the failure record). *)
Theorem verify_calculations_ignores_subtotal :
  forall verify, In verify verify_calculations_copies ->
  forall (d d' : dict) (line_items : pyval) (x x' : float),
    (forall k, k <> "subtotal" -> dict_lookup d k = dict_lookup d' k) ->
    VerificationEngine.field_float (PDict d) "subtotal" = Ok x ->
    VerificationEngine.field_float (PDict d') "subtotal" = Ok x' ->
    same_verdict (verify (PDict d) line_items) (verify (PDict d') line_items).
Proof.
  intros verify Hverify d d' line_items x x' Hsame Hx Hx'.
  assert (Hve : same_verdict
                  (VerificationEngine.verify_calculations (PDict d) line_items)
                  (VerificationEngine.verify_calculations (PDict d') line_items)).
  { assert (Hg : VerificationEngine.field_float (PDict d) "gst_amount"
                 = VerificationEngine.field_float (PDict d') "gst_amount")
      by (apply field_float_agree, Hsame; discriminate).
    assert (Hd : VerificationEngine.field_float (PDict d) "discount"
                 = VerificationEngine.field_float (PDict d') "discount")
      by (apply field_float_agree, Hsame; discriminate).
    assert (Ht : VerificationEngine.field_float (PDict d) "total"
                 = VerificationEngine.field_float (PDict d') "total")
      by (apply field_float_agree, Hsame; discriminate).
    unfold VerificationEngine.verify_calculations,
      VerificationEngine.extract_values.
    rewrite Hx, Hx', Hg, Hd, Ht.
    destruct (py_iter line_items) as [items | e0]; cbn [bind];
      [ | intros k _; reflexivity ].
    destruct (mapM VerificationEngine.row_total_float items) as [rts | e0];
      cbn [bind]; [ | intros k _; reflexivity ].
    destruct (VerificationEngine.field_float (PDict d') "gst_amount")
      as [gst | e0]; cbn [bind]; [ | intros k _; reflexivity ].
    destruct (VerificationEngine.field_float (PDict d') "discount")
      as [discount | e0]; cbn [bind]; [ | intros k _; reflexivity ].
    destruct (VerificationEngine.field_float (PDict d') "total")
      as [total | e0]; cbn [bind]; [ | intros k _; reflexivity ].
    destruct (py_div _ _) as [ratio | e0]; cbn [bind same_verdict];
      [ | reflexivity ].
    intros k Hk. cbn [dict_lookup].
    repeat match goal with
           | |- context [String.eqb ?a k] =>
               destruct (String.eqb_spec a k); [ try reflexivity; congruence | ]
           end.
    reflexivity. }
  both_copies Hverify; exact Hve.
Qed.

Lemma verify_calculations_ignores_subtotal_witness :
  same_verdict
    (VerificationEngine.verify_calculations example_fields example_line_items)
    (VerificationEngine.verify_calculations
       (PDict [("subtotal", FieldExtraction.field (PStr "1.5") 0.95 true);
               ("gst_amount", FieldExtraction.field (PStr "54") 0.95 true);
               ("discount", FieldExtraction.field (PStr "0") 0.95 true);
               ("total", FieldExtraction.field (PStr "354") 0.95 true)])
       example_line_items).
Proof.
  apply (verify_calculations_ignores_subtotal
           VerificationEngine.verify_calculations (or_introl eq_refl)
           [("subtotal", FieldExtraction.field (PStr "300") 0.95 true);
            ("gst_amount", FieldExtraction.field (PStr "54") 0.95 true);
            ("discount", FieldExtraction.field (PStr "0") 0.95 true);
            ("total", FieldExtraction.field (PStr "354") 0.95 true)]
           [("subtotal", FieldExtraction.field (PStr "1.5") 0.95 true);
            ("gst_amount", FieldExtraction.field (PStr "54") 0.95 true);
            ("discount", FieldExtraction.field (PStr "0") 0.95 true);
            ("total", FieldExtraction.field (PStr "354") 0.95 true)]
           example_line_items 300%float 1.5%float).
  - intros k Hk. cbn [dict_lookup].
    destruct (String.eqb_spec "subtotal" k); [ congruence | reflexivity ].
  - vm_compute; reflexivity.
  - vm_compute; reflexivity.
Defined.

(** ** The verification driver *)

Lemma path_exists_missing (path : string) (w : world) :
  files w !! path = None -> path_exists path w = false.
Proof.
  intros H. unfold path_exists. rewrite H.
  apply bool_decide_eq_false_2, is_Some_None.
Qed.

(** C8: for every document prefix [P], if [P_fields.json] or
    [P_lineitems.json] does not exist, the verification driver skips the
    document: it returns (None) without raising, the files are left as
    they were (no report is written), and one line is printed. *)
Theorem process_verification_skips_missing_input :
  forall json_loads json_dumps resolve run,
    In run (process_verification_copies json_loads json_dumps resolve) ->
    forall (prefix : string) (w : world),
      files w !! ("output/" ++ prefix ++ "_fields.json") = None
      \/ files w !! ("output/" ++ prefix ++ "_lineitems.json") = None ->
      run prefix w
      = (Ok PNone,
         {| files := files w;
            stdout := stdout w
                      ++ ["Required files not found for prefix '" ++ prefix ++ "'."] |}).
Proof.
  intros json_loads json_dumps resolve run Hrun prefix w Hmissing.
  assert (Hskip :
            negb (path_exists ("output/" ++ prefix ++ "_fields.json") w)
            || negb (path_exists ("output/" ++ prefix ++ "_lineitems.json") w)
            = true).
  { destruct Hmissing as [H | H]; rewrite (path_exists_missing _ _ H).
    - reflexivity.
    - apply orb_true_r. }
  unfold process_verification_copies in Hrun.
  destruct Hrun as [<- | [<- | []]].
  - unfold VerificationEngine.process_verification, path_join,
      VerificationEngine.FIELDS_OUTPUT_DIR,
      VerificationEngine.LINEITEMS_OUTPUT_DIR.
    change ("output" ++ "/" ++ ?x) with ("output/" ++ x).
    rewrite Hskip. reflexivity.
  - unfold LineItemExtractor.process_verification, path_join,
      LineItemExtractor.FIELDS_OUTPUT_DIR,
      LineItemExtractor.LINEITEMS_OUTPUT_DIR.
    change ("output" ++ "/" ++ ?x) with ("output/" ++ x).
    rewrite Hskip. reflexivity.
Qed.

Lemma process_verification_skips_missing_input_witness :
  let w := {| files := {["output/inv7_fields.json" := "{}"]}; stdout := [] |} in
  VerificationEngine.process_verification
    (fun _ => Raise (JSONDecodeError "Expecting value")) (fun _ => "") (fun p => p)
    "inv7" w
  = (Ok PNone,
     {| files := files w;
        stdout := ["Required files not found for prefix 'inv7'."] |}).
Proof.
  apply (process_verification_skips_missing_input
           (fun _ => Raise (JSONDecodeError "Expecting value")) (fun _ => "")
           (fun p => p) _ (or_introl eq_refl) "inv7"
           {| files := {["output/inv7_fields.json" := "{}"]}; stdout := [] |}).
  right. vm_compute. reflexivity.
Defined.

(** ** Field extraction *)

Import FieldExtraction.

(** The patterns are the source's. *)
Example re_invoice_number_source :
  Re.compile "Invoice\s*No\.?\s*[:\-]?\s*([A-Za-z0-9\-]+)" = Some re_invoice_number.
Proof. reflexivity. Qed.

Example re_date_source :
  Re.compile "Date\s*[:\-]?\s*([0-9]{2,4}[-/][0-9]{1,2}[-/][0-9]{1,4})"
  = Some re_date.
Proof. reflexivity. Qed.

Example re_gst_number_source :
  Re.compile "GSTIN\s*[:\-]?\s*([0-9A-Z]{15})" = Some re_gst_number.
Proof. reflexivity. Qed.

Example re_po_number_source :
  Re.compile "PO\s*No\.?\s*[:\-]?\s*([A-Za-z0-9\-]+)" = Some re_po_number.
Proof. reflexivity. Qed.

Lemma extract_fields_from_text_eq (text0 : string) :
  extract_fields_from_text text0
  = [("invoice_number", extract_field [re_invoice_number] text0 "invoice_number");
     ("date", extract_field [re_date] text0 "date");
     ("gst_number", extract_field [re_gst_number] text0 "gst_number");
     ("po_number", extract_field [re_po_number] text0 "po_number")].
Proof. reflexivity. Qed.

(** *** Matching ignores case *)





Section IgnoreCase.

Context {R : Type} (F : R -> R).



End IgnoreCase.




(** *** Header fields *)


Lemma extract_field_cases (pats : list Re.pattern) (text0 name : string) :
  (exists g, extract_field pats text0 name = field (PStr g) 0.95 true)
  \/ extract_field pats text0 name = field PNone 0 false.
Proof.
  induction pats as [ | p pats IH]; cbn [extract_field].
  - right. reflexivity.
  - destruct (Re.search p text0) as [g | ]; [ left; eauto | exact IH ].
Qed.

(** *** Trimming *)








(** The value of that field is [12]: nothing else is [  12  ] trimmed. *)
Example extract_field_trims :
  extract_field
    [{| Re.pre := [Re.Rep (Re.Lit "o") 1 (Some 1)];
        Re.grp := [Re.Rep Re.Space 0 None;
                   Re.Rep (Re.Cls [("0", "9")]) 1 None;
                   Re.Rep Re.Space 0 None];
        Re.post := [] |}]%char
    "PO No  12  of 3" "number"
  = field (PStr "12") 0.95 true.
Proof. reflexivity. Qed.

(** *** Bill-to and ship-to *)

Lemma extract_bill_ship_to_entries (text0 : string) (nlp : string -> list Span) :
  extract_bill_ship_to text0 nlp
  = [("bill_to", entity_entry (nth_value (orgs_of (nlp text0)) 0) 0.8);
     ("ship_to", entity_entry (nth_value (orgs_of (nlp text0)) 1) 0.8);
     ("bill_to_address", entity_entry (nth_value (locs_of (nlp text0)) 0) 0.7);
     ("ship_to_address", entity_entry (nth_value (locs_of (nlp text0)) 1) 0.7)].
Proof.
  unfold extract_bill_ship_to, orgs_of, locs_of.
  generalize (map text (List.filter (label_in ["ORG"; "PERSON"]) (nlp text0))) as orgs.
  generalize (map text (List.filter (label_in ["GPE"; "LOC"]) (nlp text0))) as locs.
  intros locs orgs.
  destruct orgs as [ | o1 [ | o2 orgs]]; destruct locs as [ | l1 [ | l2 locs]];
    reflexivity.
Qed.

Lemma entity_entry_positional (l : list string) (n : nat) (c : float) :
  Forall (fun s => s <> "") l ->
  entity_entry (nth_value l n) c = positional_field l n c.
Proof.
  intros Hl. unfold nth_value, positional_field.
  destruct (nth_error l n) as [s | ] eqn:E; [ | reflexivity ].
  assert (Hs : s <> "").
  { apply nth_error_In in E. rewrite List.Forall_forall in Hl. apply Hl, E. }
  unfold entity_entry. cbn [truthy].
  destruct (String.eqb_spec s ""); [ contradiction | reflexivity ].
Qed.

Lemma texts_not_empty (labels : list string) (ents : list Span) :
  Forall (fun e => text e <> "") ents ->
  Forall (fun s => s <> "") (map text (List.filter (label_in labels) ents)).
Proof.
  intros H. induction H as [ | e ents He _ IH]; cbn [List.filter map].
  - constructor.
  - destruct (label_in labels e); cbn [map]; [ constructor; assumption | exact IH ].
Qed.

(** C6, as stated, fails on a span whose text is empty: the span is
    selected, but the field is reported absent with confidence 0. *)
Lemma extract_bill_ship_to_empty_span :
  extract_bill_ship_to "Bill To: Ship To: Acme Ltd"
    (fun _ => [Build_Span "" "ORG"; Build_Span "Acme Ltd" "ORG"])
  = [("bill_to", field (PStr "") 0 false);
     ("ship_to", field (PStr "Acme Ltd") 0.8 true);
     ("bill_to_address", field PNone 0 false);
     ("ship_to_address", field PNone 0 false)].
Proof. reflexivity. Qed.

(** C6 (amended): for every sequence of tagged spans whose texts are not
    empty: [bill_to] is the first organization/person span (confidence
    0.8) or absent when there is none; [ship_to] the second such span
    (confidence 0.8) or absent when there are fewer than two;
    [bill_to_address] the first location span (confidence 0.7) or absent;
    [ship_to_address] the second location span (confidence 0.7) or absent.
    Spans are taken in order of appearance, without deduplication. *)
Theorem extract_bill_ship_to_positional :
  forall (text0 : string) (nlp : string -> list Span),
    Forall (fun e => text e <> "") (nlp text0) ->
    extract_bill_ship_to text0 nlp
    = [("bill_to", positional_field (orgs_of (nlp text0)) 0 0.8);
       ("ship_to", positional_field (orgs_of (nlp text0)) 1 0.8);
       ("bill_to_address", positional_field (locs_of (nlp text0)) 0 0.7);
       ("ship_to_address", positional_field (locs_of (nlp text0)) 1 0.7)].
Proof.
  intros text0 nlp Hents.
  rewrite extract_bill_ship_to_entries.
  rewrite !(entity_entry_positional (orgs_of (nlp text0)))
    by (apply texts_not_empty, Hents).
  rewrite !(entity_entry_positional (locs_of (nlp text0)))
    by (apply texts_not_empty, Hents).
  reflexivity.
Qed.

Lemma extract_bill_ship_to_positional_witness :
  extract_bill_ship_to "Acme Ltd, Pune; Acme Ltd; Bob, Goa"
    (fun _ => [Build_Span "Acme Ltd" "ORG"; Build_Span "Pune" "GPE";
               Build_Span "Acme Ltd" "ORG"; Build_Span "Bob" "PERSON";
               Build_Span "Goa" "LOC"; Build_Span "2024" "DATE"])
  = [("bill_to", field (PStr "Acme Ltd") 0.8 true);
     ("ship_to", field (PStr "Acme Ltd") 0.8 true);
     ("bill_to_address", field (PStr "Pune") 0.7 true);
     ("ship_to_address", field (PStr "Goa") 0.7 true)].
Proof.
  apply (extract_bill_ship_to_positional "Acme Ltd, Pune; Acme Ltd; Bob, Goa"
           (fun _ => [Build_Span "Acme Ltd" "ORG"; Build_Span "Pune" "GPE";
                      Build_Span "Acme Ltd" "ORG"; Build_Span "Bob" "PERSON";
                      Build_Span "Goa" "LOC"; Build_Span "2024" "DATE"])).
  repeat constructor; discriminate.
Defined.

(** *** The FieldValue invariant *)

Lemma process_ocr_pages_field_set (pages : list (list OcrEngine.WordRecord))
  (nlp : string -> list Span) :
  process_ocr_pages pages nlp = field_set (all_text pages) nlp.
Proof. reflexivity. Qed.

(** The eight names are distinct: the update appends. *)
Lemma field_set_eq (text0 : string) (nlp : string -> list Span) :
  field_set text0 nlp
  = (extract_fields_from_text text0 ++ extract_bill_ship_to text0 nlp)%list.
Proof. reflexivity. Qed.

Lemma extract_field_invariant (pats : list Re.pattern) (text0 name : string) :
  field_value_invariant (extract_field pats text0 name).
Proof.
  destruct (extract_field_cases pats text0 name) as [[g ->] | ->].
  - exists (PStr g), 0.95%float, true. repeat split. discriminate.
  - exists PNone, 0%float, false. repeat split.
Qed.

Lemma positional_field_invariant (l : list string) (n : nat) (c : float) :
  field_value_invariant (positional_field l n c).
Proof.
  unfold positional_field. destruct (nth_error l n) as [s | ].
  - exists (PStr s), c, true. repeat split. discriminate.
  - exists PNone, 0%float, false. repeat split.
Qed.

Lemma entity_entry_absent (v : pyval) (c : float) :
  absent_without_confidence (entity_entry v c).
Proof.
  exists v, (if truthy v then c else 0%float), (truthy v).
  split; [ reflexivity | ]. intros ->. reflexivity.
Qed.

Lemma invariant_absent (fv : pyval) :
  field_value_invariant fv -> absent_without_confidence fv.
Proof.
  intros (value & confidence & present & -> & _ & H).
  exists value, confidence, present. split; [ reflexivity | exact H ].
Qed.

(** C4, as stated, fails on a span whose text is empty: [bill_to] then has
    a value that is not None and yet [present] is false. *)
Lemma field_set_empty_span_breaks_invariant :
  let nlp := fun _ : string => [Build_Span "" "ORG"] in
  dict_lookup (field_set "Invoice No: INV-2023-001" nlp) "bill_to"
  = Some (field (PStr "") 0 false)
  /\ ~ field_value_invariant (field (PStr "") 0 false).
Proof.
  split; [ reflexivity | ].
  intros (value & confidence & present & Heq & Hpresent & _).
  inversion Heq; subst. discriminate.
Qed.

(** C4 (amended): for every input text, every FieldValue of the FieldSet
    the extractor produces (regex fields and entity fields alike) has
    [confidence == 0.0] whenever [present == false]; and when no span
    returned by the entity tagger has an empty text, it satisfies
    [present == (value is not None)] as well. *)
Theorem field_set_invariant :
  (forall (text0 : string) (nlp : string -> list Span),
      Forall (fun kv => absent_without_confidence (snd kv)) (field_set text0 nlp))
  /\ (forall (text0 : string) (nlp : string -> list Span),
         Forall (fun e => text e <> "") (nlp text0) ->
         Forall (fun kv => field_value_invariant (snd kv)) (field_set text0 nlp)).
Proof.
  split.
  - intros text0 nlp. rewrite field_set_eq. apply Forall_app. split.
    + rewrite extract_fields_from_text_eq.
      repeat constructor; apply invariant_absent, extract_field_invariant.
    + rewrite extract_bill_ship_to_entries.
      repeat constructor; apply entity_entry_absent.
  - intros text0 nlp Hents. rewrite field_set_eq. apply Forall_app. split.
    + rewrite extract_fields_from_text_eq.
      repeat constructor; apply extract_field_invariant.
    + rewrite extract_bill_ship_to_entries.
      rewrite !(entity_entry_positional (orgs_of (nlp text0)))
        by (apply texts_not_empty, Hents).
      rewrite !(entity_entry_positional (locs_of (nlp text0)))
        by (apply texts_not_empty, Hents).
      repeat constructor; apply positional_field_invariant.
Qed.

Lemma field_set_invariant_witness :
  Forall (fun kv => field_value_invariant (snd kv))
    (field_set "Invoice No: INV-2023-001 Acme Ltd Pune"
       (fun _ => [Build_Span "Acme Ltd" "ORG"; Build_Span "Pune" "GPE"])).
Proof.
  apply (proj2 field_set_invariant "Invoice No: INV-2023-001 Acme Ltd Pune"
           (fun _ => [Build_Span "Acme Ltd" "ORG"; Build_Span "Pune" "GPE"])).
  repeat constructor; discriminate.
Defined.

(** ** Line items *)

Import OcrEngine LineItemExtractor.

(** Float multiplication commutes (the sources multiply
    [unit_price * qty]). *)
Lemma SFmul_comm (x y : spec_float) : SFmul prec emax x y = SFmul prec emax y x.
Proof.
  destruct x as [sx | sx | | sx mx ex], y as [sy | sy | | sy my ey];
    cbn [SFmul]; try reflexivity; try (rewrite xorb_comm; reflexivity).
  rewrite xorb_comm, Pos.mul_comm, Z.add_comm. reflexivity.
Qed.

Lemma float_mul_comm (x y : float) : (x * y = y * x)%float.
Proof.
  apply Prim2SF_inj. rewrite !mul_spec. apply SFmul_comm.
Qed.

(** *** The scan, position by position *)

Lemma scan_word_app (words : list WordRecord) (acc : list pyval)
  (iw : nat * WordRecord) :
  scan_word words acc iw = (acc ++ scan_word words [] iw)%list.
Proof.
  destruct iw as [i word]. unfold scan_word.
  destruct (str_isdigit (text word)); [ | symmetry; apply app_nil_r ].
  destruct (Nat.leb 3 _); [ | symmetry; apply app_nil_r ].
  destruct (parse_row _ _); [ reflexivity | symmetry; apply app_nil_r ].
Qed.

Lemma fold_scan_word (words : list WordRecord) (l : list (nat * WordRecord)) :
  forall acc,
    fold_left (scan_word words) l acc
    = (acc ++ flat_map (scan_word words []) l)%list.
Proof.
  induction l as [ | iw l IH]; intros acc; cbn [fold_left flat_map].
  - symmetry. apply app_nil_r.
  - rewrite IH, (scan_word_app words acc iw), <- app_assoc. reflexivity.
Qed.

Lemma extract_line_items_flat_map (words : list WordRecord) :
  extract_line_items_from_ocr words
  = flat_map (scan_word words []) (enumerate words).
Proof.
  unfold extract_line_items_from_ocr. rewrite fold_scan_word. reflexivity.
Qed.




Lemma numeric_tokens_length (context : list WordRecord) :
  length (numeric_tokens context) <= length context.
Proof. apply List.filter_length_le. Qed.

(** The [try] block succeeds when the window has a fourth numeric token and
    the second, third and fourth parse. *)
Lemma parse_row_ok (context : list WordRecord) (n1 n2 n3 : WordRecord)
  (qty unit_price row_total : float) :
  nth_error (numeric_tokens context) 1 = Some n1 ->
  nth_error (numeric_tokens context) 2 = Some n2 ->
  nth_error (numeric_tokens context) 3 = Some n3 ->
  py_float (PStr (remove_commas (text n1))) = Ok qty ->
  py_float (PStr (remove_commas (text n2))) = Ok unit_price ->
  py_float (PStr (remove_commas (text n3))) = Ok row_total ->
  parse_row context (numeric_tokens context)
  = Ok [("description", PStr (join " " (map text (slice context 1 3))));
        ("qty", PFloat qty);
        ("unit_price", PFloat unit_price);
        ("row_total", PFloat row_total);
        ("valid", PBool (abs (unit_price * qty - row_total) <? 2)%float)].
Proof.
  intros H1 H2 H3 Hq Hu Hr. unfold parse_row, list_index.
  rewrite H1, bind_Ok, Hq, bind_Ok, H2, bind_Ok, Hu, bind_Ok, H3, bind_Ok, Hr,
    bind_Ok.
  reflexivity.
Qed.





(** *** The function on the values of [json.load], on word records *)














(** On other values it can raise: a word without [text] is a [KeyError],
    outside the [try] block. *)
Example extract_line_items_dyn_raises :
  extract_line_items_from_ocr_dyn [PDict [("left", PInt 3)]]
  = Raise (KeyError "'text'")
  /\ extract_line_items_from_ocr_dyn
       [PDict [("text", PStr "7")]; PDict [("text", PInt 7)]]
     = Raise (TypeError "'int' object is not iterable").
Proof. split; reflexivity. Qed.



(** ** More on the verification engine *)

(** *** Floats that are not below zero *)

Lemma leb_zero_nonneg (x : float) : (0 <=? x)%float = true <-> sf_nonneg (Prim2SF x).
Proof.
  rewrite leb_spec. change (Prim2SF 0) with (S754_zero false).
  destruct (Prim2SF x) as [s | [] | | [] m e]; cbn; intuition congruence.
Qed.

Lemma shr_1_nonneg (r : shr_record) : (0 <= shr_m r)%Z -> (0 <= shr_m (shr_1 r))%Z.
Proof.
  destruct r as [m r s]. cbn [shr_m]. intros H.
  destruct m as [ | [p | p | ] | p]; cbn; lia.
Qed.

Lemma iter_shr_1_nonneg (p : positive) :
  forall r, (0 <= shr_m r)%Z -> (0 <= shr_m (SpecFloat.iter_pos shr_1 p r))%Z.
Proof.
  induction p as [p IH | p IH | ]; intros r H; cbn [SpecFloat.iter_pos].
  - apply IH, IH, shr_1_nonneg, H.
  - apply IH, IH, H.
  - apply shr_1_nonneg, H.
Qed.

Lemma shr_fexp_nonneg (m e : Z) (l : location) :
  (0 <= m)%Z -> (0 <= shr_m (fst (shr_fexp prec emax m e l)))%Z.
Proof.
  intros H. unfold shr_fexp, shr.
  assert (H0 : (0 <= shr_m (shr_record_of_loc m l))%Z)
    by (destruct l as [ | []]; exact H).
  destruct (fexp prec emax (Zdigits2 m + e) - e)%Z; cbn [fst]; try exact H0.
  apply iter_shr_1_nonneg, H0.
Qed.

Lemma round_nearest_even_nonneg (m : Z) (l : location) :
  (0 <= m)%Z -> (0 <= round_nearest_even m l)%Z.
Proof.
  intros H. unfold round_nearest_even.
  destruct l as [ | []]; try destruct (Z.even m); lia.
Qed.

Lemma binary_round_aux_nonneg (m e : Z) (l : location) :
  (0 <= m)%Z -> sf_nonneg (binary_round_aux prec emax false m e l).
Proof.
  intros H. unfold binary_round_aux.
  pose proof (shr_fexp_nonneg m e l H) as H1.
  destruct (shr_fexp prec emax m e l) as [mrs' e']. cbn [fst] in H1.
  pose proof (shr_fexp_nonneg
                (round_nearest_even (shr_m mrs') (loc_of_shr_record mrs')) e'
                loc_Exact (round_nearest_even_nonneg _ _ H1)) as H2.
  destruct (shr_fexp prec emax _ e' loc_Exact) as [mrs'' e'']. cbn [fst] in H2.
  destruct (shr_m mrs'') as [ | p | p]; [ exact I | | lia ].
  destruct (e'' <=? emax - prec)%Z; exact I.
Qed.

Lemma binary_round_nonneg (m : positive) (e : Z) :
  sf_nonneg (binary_round prec emax false m e).
Proof.
  unfold binary_round. destruct (shl_align m e _) as [mz ez].
  apply binary_round_aux_nonneg. lia.
Qed.

Lemma binary_normalize_nonneg (z e : Z) :
  (0 <= z)%Z -> sf_nonneg (binary_normalize prec emax z e false).
Proof.
  intros H. unfold binary_normalize.
  destruct z as [ | p | p]; [ exact I | apply binary_round_nonneg | lia ].
Qed.

Lemma SFldexp_nonneg (x : spec_float) (e : Z) :
  sf_nonneg x -> sf_nonneg (SFldexp prec emax x e).
Proof.
  destruct x as [s | s | | [] m ex]; cbn [SFldexp sf_nonneg]; try tauto.
  intros _. apply binary_round_nonneg.
Qed.

Lemma SFdiv_nonneg (m1 m2 : positive) (e1 e2 : Z) :
  sf_nonneg (SFdiv prec emax (S754_finite false m1 e1) (S754_finite false m2 e2)).
Proof.
  cbn [SFdiv]. unfold SFdiv_core_binary.
  set (s := (e1 - e2 - _)%Z).
  set (m' := match s with Zpos _ => Z.shiftl (Zpos m1) s | Z0 => Zpos m1 | Zneg _ => 0%Z end).
  assert (Hm' : (0 <= m')%Z).
  { subst m'. destruct s; try lia. apply Z.shiftl_nonneg. lia. }
  pose proof (Z.div_pos m' (Zpos m2) Hm' eq_refl) as Hq.
  unfold Z.div in Hq.
  destruct (Z.div_eucl m' (Zpos m2)) as [q r]. cbn [fst] in Hq. cbn [xorb].
  apply binary_round_aux_nonneg, Hq.
Qed.

Lemma SF2Prim_nonneg (x : spec_float) :
  sf_nonneg x -> (0 <=? SF2Prim x)%float = true.
Proof.
  intros H. apply leb_zero_nonneg.
  destruct x as [[] | [] | | [] m e]; cbn [sf_nonneg] in H; try tauto;
    try exact I.
  unfold SF2Prim, Z.ldexp.
  rewrite ldshiftexp_spec, of_uint63_spec.
  apply SFldexp_nonneg, binary_normalize_nonneg.
  apply Uint63.to_Z_bounded.
Qed.

Lemma float_of_decimal_nonneg (digits exp10 : Z) :
  (0 <=? float_of_decimal false digits exp10)%float = true.
Proof.
  unfold float_of_decimal. apply SF2Prim_nonneg.
  destruct digits as [ | d | d]; try exact I.
  destruct (0 <=? exp10)%Z eqn:E.
  - apply binary_normalize_nonneg.
    apply Z.mul_nonneg_nonneg; [ lia | apply Z.pow_nonneg; lia ].
  - apply SFdiv_nonneg.
Qed.

Lemma round_float_nonneg (x : float) (ndigits : nat) :
  (0 <=? x)%float = true -> (0 <=? round_float x ndigits)%float = true.
Proof.
  intros H. unfold round_float.
  pose proof (proj1 (leb_zero_nonneg x) H) as Hx.
  destruct (Prim2SF x) as [s | s | | s m e]; try exact H.
  destruct s; [ contradiction | ].
  destruct (0 <=? e)%Z; [ exact H | ].
  apply float_of_decimal_nonneg.
Qed.

Lemma ltb_zero_nonneg (x : float) :
  sf_nonneg (Prim2SF x) \/ Prim2SF x = S754_nan -> (x <? 0)%float = false.
Proof.
  rewrite ltb_spec. change (Prim2SF 0) with (S754_zero false).
  intros [H | ->]; [ | reflexivity ].
  destruct (Prim2SF x) as [s | [] | | [] m e]; cbn in H |- *; tauto.
Qed.

Lemma round_float_not_negative (x : float) (ndigits : nat) :
  sf_nonneg (Prim2SF x) \/ Prim2SF x = S754_nan ->
  (round_float x ndigits <? 0)%float = false.
Proof.
  intros [H | H].
  - apply ltb_zero_nonneg. left. apply leb_zero_nonneg, round_float_nonneg.
    apply leb_zero_nonneg, H.
  - unfold round_float. rewrite H. apply ltb_zero_nonneg. right. exact H.
Qed.

Lemma abs_nonneg_or_nan (x : float) :
  sf_nonneg (Prim2SF (abs x)) \/ Prim2SF (abs x) = S754_nan.
Proof.
  rewrite abs_spec. destruct (Prim2SF x); cbn; tauto.
Qed.

Lemma py_max_zero_nonneg (x : float) : (0 <=? py_max 0 x)%float = true.
Proof.
  unfold py_max. destruct (0 <? x)%float eqn:E; [ | reflexivity ].
  rewrite ltb_spec in E. rewrite leb_spec.
  unfold SFltb in E. unfold SFleb.
  destruct (SFcompare (Prim2SF 0) (Prim2SF x)) as [[] | ]; congruence.
Qed.

(** *** What the engine raises, and the ranges of what it reports *)

(** X1: [verify_calculations] raises nothing but ZeroDivisionError, and
    only after the whole [try] block succeeded with a [total] for which
    [total + 1e-5] is zero. *)
Theorem verify_calculations_raises_only_zero_division :
  forall verify, In verify verify_calculations_copies ->
  forall (fields line_items : pyval) (e : exn),
    verify fields line_items = Raise e ->
    e = ZeroDivisionError "float division by zero"
    /\ exists subtotal extracted_subtotal gst discount total,
        VerificationEngine.extract_values fields line_items
        = Ok (subtotal, extracted_subtotal, gst, discount, total)
        /\ (total + 1e-5 =? 0)%float = true.
Proof.
  intros verify Hverify fields line_items e.
  assert (Hve : VerificationEngine.verify_calculations fields line_items = Raise e ->
                e = ZeroDivisionError "float division by zero"
                /\ exists subtotal extracted_subtotal gst discount total,
                    VerificationEngine.extract_values fields line_items
                    = Ok (subtotal, extracted_subtotal, gst, discount, total)
                    /\ (total + 1e-5 =? 0)%float = true).
  { unfold VerificationEngine.verify_calculations.
    destruct (VerificationEngine.extract_values fields line_items)
      as [[[[[subtotal es] gst] discount] total] | e0]; [ | discriminate ].
    unfold py_div.
    destruct (total + 1e-5 =? 0)%float eqn:Hz; cbn [bind]; [ | discriminate ].
    intros H. injection H as <-. split; [ reflexivity | ].
    exists subtotal, es, gst, discount, total. split; [ reflexivity | exact Hz ]. }
  both_copies Hverify; exact Hve.
Qed.

Lemma verify_calculations_raises_only_zero_division_witness :
  ZeroDivisionError "float division by zero"
  = ZeroDivisionError "float division by zero"
  /\ exists subtotal extracted_subtotal gst discount total,
      VerificationEngine.extract_values
        (PDict [("total", PDict [("value", PStr "-1e-5")])]) (PList [])
      = Ok (subtotal, extracted_subtotal, gst, discount, total)
      /\ (total + 1e-5 =? 0)%float = true.
Proof.
  apply (verify_calculations_raises_only_zero_division
           VerificationEngine.verify_calculations (or_introl eq_refl)
           (PDict [("total", PDict [("value", PStr "-1e-5")])]) (PList [])).
  vm_compute. reflexivity.
Defined.

(** X2: in every report [confidence] is a float that is neither negative
    nor NaN, and [error_margin] is null or a float that is not
    negative. *)
Theorem verify_calculations_report_ranges :
  forall verify, In verify verify_calculations_copies ->
  forall (fields line_items : pyval) (report : dict),
    verify fields line_items = Ok report ->
    (exists c, dict_lookup report "confidence" = Some (PFloat c)
               /\ (0 <=? c)%float = true)
    /\ (dict_lookup report "error_margin" = Some PNone
        \/ exists m, dict_lookup report "error_margin" = Some (PFloat m)
                     /\ (m <? 0)%float = false).
Proof.
  intros verify Hverify fields line_items report.
  assert (Hve : VerificationEngine.verify_calculations fields line_items = Ok report ->
                (exists c, dict_lookup report "confidence" = Some (PFloat c)
                           /\ (0 <=? c)%float = true)
                /\ (dict_lookup report "error_margin" = Some PNone
                    \/ exists m, dict_lookup report "error_margin" = Some (PFloat m)
                                 /\ (m <? 0)%float = false)).
  { unfold VerificationEngine.verify_calculations.
    destruct (VerificationEngine.extract_values fields line_items)
      as [[[[[subtotal es] gst] discount] total] | e0].
    - destruct (py_div _ _) as [ratio | e1]; cbn [bind]; [ | discriminate ].
      intros H. injection H as <-. split.
      + eexists. split; [ reflexivity | ].
        apply round_float_nonneg, py_max_zero_nonneg.
      + right. eexists. split; [ reflexivity | ].
        apply round_float_not_negative, abs_nonneg_or_nan.
    - intros H. injection H as <-. split.
      + exists 0%float. split; reflexivity.
      + left. reflexivity. }
  both_copies Hverify; exact Hve.
Qed.

Lemma verify_calculations_report_ranges_witness :
  exists report,
    VerificationEngine.verify_calculations example_fields example_line_items
    = Ok report
    /\ (exists c, dict_lookup report "confidence" = Some (PFloat c)
                  /\ (0 <=? c)%float = true)
    /\ (dict_lookup report "error_margin" = Some PNone
        \/ exists m, dict_lookup report "error_margin" = Some (PFloat m)
                     /\ (m <? 0)%float = false).
Proof.
  eexists. split; [ vm_compute; reflexivity | ].
  apply (verify_calculations_report_ranges
           VerificationEngine.verify_calculations (or_introl eq_refl)
           example_fields example_line_items).
  vm_compute. reflexivity.
Defined.

(** *** Missing fields *)

Lemma dict_lookup_dict_set (d : dict) (k k' : string) (v : pyval) :
  dict_lookup (dict_set d k v) k'
  = if String.eqb k k' then Some v else dict_lookup d k'.
Proof.
  induction d as [ | [k0 v0] d IH]; cbn [dict_set dict_lookup].
  - reflexivity.
  - destruct (String.eqb_spec k0 k) as [-> | Hk0].
    + cbn [dict_lookup]. destruct (String.eqb k k'); reflexivity.
    + cbn [dict_lookup]. rewrite IH.
      destruct (String.eqb_spec k0 k') as [-> | Hk0'];
        [ | reflexivity ].
      destruct (String.eqb_spec k k'); [ congruence | reflexivity ].
Qed.

(** The engine looks at the FieldSet through four reads only. *)
Lemma verify_calculations_ext (fields fields' line_items : pyval) :
  (forall name, In name REQUIRED_FIELDS ->
     VerificationEngine.field_float fields name
     = VerificationEngine.field_float fields' name) ->
  VerificationEngine.verify_calculations fields line_items
  = VerificationEngine.verify_calculations fields' line_items.
Proof.
  intros H. unfold VerificationEngine.verify_calculations,
    VerificationEngine.extract_values.
  rewrite (H "subtotal"), (H "gst_amount"), (H "discount"), (H "total");
    unfold REQUIRED_FIELDS; simpl; tauto.
Qed.

(** X3: a field that is missing from the FieldSet counts as a field whose
    value is 0: adding [{name: {"value": 0}}] for a missing [name] does
    not change the outcome. *)
Theorem verify_calculations_missing_field_is_zero :
  forall verify, In verify verify_calculations_copies ->
  forall (d : dict) (line_items : pyval) (name : string),
    dict_lookup d name = None ->
    verify (PDict (dict_set d name zero_field)) line_items
    = verify (PDict d) line_items.
Proof.
  intros verify Hverify d line_items name Hmissing.
  assert (Hve : VerificationEngine.verify_calculations
                  (PDict (dict_set d name zero_field)) line_items
                = VerificationEngine.verify_calculations (PDict d) line_items).
  { apply verify_calculations_ext. intros k _.
    unfold VerificationEngine.field_float, py_get.
    rewrite dict_lookup_dict_set.
    destruct (String.eqb_spec name k) as [<- | Hk]; [ | reflexivity ].
    rewrite Hmissing. reflexivity. }
  both_copies Hverify; exact Hve.
Qed.

Lemma verify_calculations_missing_field_is_zero_witness :
  VerificationEngine.verify_calculations
    (PDict (dict_set [("total", FieldExtraction.field (PStr "300") 0.95 true)]
              "discount" zero_field))
    example_line_items
  = VerificationEngine.verify_calculations
      (PDict [("total", FieldExtraction.field (PStr "300") 0.95 true)])
      example_line_items.
Proof.
  apply (verify_calculations_missing_field_is_zero
           VerificationEngine.verify_calculations (or_introl eq_refl)
           [("total", FieldExtraction.field (PStr "300") 0.95 true)]
           example_line_items "discount").
  reflexivity.
Defined.

(** ** More on the verification driver *)

Lemma process_verification_copy :
  LineItemExtractor.process_verification = VerificationEngine.process_verification.
Proof. reflexivity. Qed.

Lemma append_inj_l (a b c : string) : a ++ b = a ++ c -> b = c.
Proof.
  induction a as [ | x a IH]; cbn [String.append]; intros H.
  - exact H.
  - injection H as H. apply IH, H.
Qed.

Lemma report_path_not_fields (prefix : string) :
  path_join "output" (prefix ++ "_verifiability_report.json")
  <> path_join "output" (prefix ++ "_fields.json").
Proof.
  unfold path_join. intros H.
  apply append_inj_l, append_inj_l, append_inj_l in H. discriminate.
Qed.

Lemma report_path_not_lineitems (prefix : string) :
  path_join "output" (prefix ++ "_verifiability_report.json")
  <> path_join "output" (prefix ++ "_lineitems.json").
Proof.
  unfold path_join. intros H.
  apply append_inj_l, append_inj_l, append_inj_l in H. discriminate.
Qed.

Section DriverFacts.

Variable json_loads : string -> res pyval.
Variable json_dumps : pyval -> string.
Variable resolve : string -> string.

Lemma path_exists_files (path : string) (w w' : world) :
  files w' !! path = files w !! path -> path_exists path w' = path_exists path w.
Proof. intros H. unfold path_exists. rewrite H. reflexivity. Qed.

Lemma load_json_files (path : string) (w w' : world) :
  files w' !! path = files w !! path ->
  VerificationEngine.load_json json_loads path w'
  = VerificationEngine.load_json json_loads path w.
Proof. intros H. unfold VerificationEngine.load_json. rewrite H. reflexivity. Qed.

(** The three ways a run ends. *)
Lemma run_cases (prefix : string) (w : world) :
  (VerificationEngine.process_verification json_loads json_dumps resolve
     prefix w
   = (Ok PNone,
      print ("Required files not found for prefix '" ++ prefix ++ "'.") w))
  \/ (exists e,
         VerificationEngine.process_verification json_loads json_dumps resolve
           prefix w
         = (Raise e, w))
  \/ (exists result,
         VerificationEngine.process_verification json_loads json_dumps resolve
           prefix w
         = (Ok (PDict result),
            print ("Verification report saved to "
                   ++ resolve (path_join "output"
                                 (prefix ++ "_verifiability_report.json")))
              (write_file
                 (path_join "output" (prefix ++ "_verifiability_report.json"))
                 (json_dumps (PDict result)) w))).
Proof.
  unfold VerificationEngine.process_verification,
    VerificationEngine.FIELDS_OUTPUT_DIR, VerificationEngine.LINEITEMS_OUTPUT_DIR,
    VerificationEngine.VERIFICATION_OUTPUT_DIR, VerificationEngine.ensure_dir.
  destruct (negb _ || negb _); [ left; reflexivity | right ].
  destruct (VerificationEngine.load_json _ _ w) as [fields | e]; [ | left; eauto ].
  destruct (VerificationEngine.load_json _ _ w) as [items | e]; [ | left; eauto ].
  destruct (VerificationEngine.verify_calculations fields items) as [result | e];
    [ right; eauto | left; eauto ].
Qed.

(** A run reads the world through the two input files only. *)
Lemma run_reads_inputs (prefix : string) (w w' : world) :
  files w' !! path_join "output" (prefix ++ "_fields.json")
  = files w !! path_join "output" (prefix ++ "_fields.json") ->
  files w' !! path_join "output" (prefix ++ "_lineitems.json")
  = files w !! path_join "output" (prefix ++ "_lineitems.json") ->
  fst (VerificationEngine.process_verification json_loads json_dumps resolve
         prefix w')
  = fst (VerificationEngine.process_verification json_loads json_dumps resolve
           prefix w).
Proof.
  intros Hf Hl.
  unfold VerificationEngine.process_verification,
    VerificationEngine.FIELDS_OUTPUT_DIR, VerificationEngine.LINEITEMS_OUTPUT_DIR.
  rewrite (path_exists_files _ w w' Hf), (path_exists_files _ w w' Hl).
  rewrite (load_json_files _ w w' Hf), (load_json_files _ w w' Hl).
  destruct (negb _ || negb _); [ reflexivity | ].
  destruct (VerificationEngine.load_json _ _ w) as [fields | e]; [ | reflexivity ].
  destruct (VerificationEngine.load_json _ _ w) as [items | e]; [ | reflexivity ].
  destruct (VerificationEngine.verify_calculations fields items); reflexivity.
Qed.

End DriverFacts.


(** X4: a run of the driver that raises has written nothing and printed
    nothing. *)
Theorem process_verification_raise_leaves_world :
  forall json_loads json_dumps resolve run,
    In run (process_verification_copies json_loads json_dumps resolve) ->
    forall (prefix : string) (w w' : world) (e : exn),
      run prefix w = (Raise e, w') -> w' = w.
Proof.
  intros json_loads json_dumps resolve run Hrun prefix w w' e.
  unfold process_verification_copies in Hrun.
  destruct Hrun as [<- | [<- | []]]; [ | rewrite process_verification_copy ].
  all: destruct (run_cases json_loads json_dumps resolve prefix w)
         as [H | [[e0 H] | [result H]]]; rewrite H; congruence.
Qed.

Lemma process_verification_raise_leaves_world_witness :
  let w := {| files := {["output/inv7_fields.json" := "{";
                         "output/inv7_lineitems.json" := "[]"]};
              stdout := [] |} in
  snd (VerificationEngine.process_verification
         (fun _ => Raise (JSONDecodeError "Expecting property name"))
         (fun _ => "") (fun p => p) "inv7" w)
  = w.
Proof.
  apply (process_verification_raise_leaves_world
           (fun _ => Raise (JSONDecodeError "Expecting property name"))
           (fun _ => "") (fun p => p) _ (or_introl eq_refl) "inv7"
           {| files := {["output/inv7_fields.json" := "{";
                         "output/inv7_lineitems.json" := "[]"]};
              stdout := [] |}
           _ (JSONDecodeError "Expecting property name")).
  vm_compute. reflexivity.
Defined.

(** X5: a run that returns a report has found both input files, and the
    report is [verify_calculations] of what they hold; it has written
    [json.dump] of that report to [P_verifiability_report.json] and left
    every other file as it was. *)
Theorem process_verification_report_written :
  forall json_loads json_dumps resolve run,
    In run (process_verification_copies json_loads json_dumps resolve) ->
    forall (prefix : string) (w w' : world) (report : pyval),
      run prefix w = (Ok report, w') ->
      report <> PNone ->
      exists fields_text lineitems_text fields line_items result,
        files w !! ("output/" ++ prefix ++ "_fields.json") = Some fields_text
        /\ files w !! ("output/" ++ prefix ++ "_lineitems.json")
           = Some lineitems_text
        /\ json_loads fields_text = Ok fields
        /\ json_loads lineitems_text = Ok line_items
        /\ VerificationEngine.verify_calculations fields line_items = Ok result
        /\ report = PDict result
        /\ files w'
           = <["output/" ++ prefix ++ "_verifiability_report.json"
               := json_dumps report]> (files w).
Proof.
  intros json_loads json_dumps resolve run Hrun prefix w w' report.
  unfold process_verification_copies in Hrun.
  destruct Hrun as [<- | [<- | []]]; [ | rewrite process_verification_copy ].
  all: unfold VerificationEngine.process_verification,
         VerificationEngine.FIELDS_OUTPUT_DIR,
         VerificationEngine.LINEITEMS_OUTPUT_DIR,
         VerificationEngine.VERIFICATION_OUTPUT_DIR,
         VerificationEngine.ensure_dir, VerificationEngine.load_json, path_join.
  all: change ("output" ++ "/" ++ ?x) with ("output/" ++ x).
  all: destruct (negb _ || negb _); [ intros H Hnone; congruence | ].
  all: destruct (files w !! ("output/" ++ prefix ++ "_fields.json"))
         as [fields_text | ]; [ | discriminate ].
  all: destruct (json_loads fields_text) as [fields | e] eqn:Hfields;
         [ | discriminate ].
  all: destruct (files w !! ("output/" ++ prefix ++ "_lineitems.json"))
         as [lineitems_text | ]; [ | discriminate ].
  all: destruct (json_loads lineitems_text) as [line_items | e] eqn:Hitems;
         [ | discriminate ].
  all: destruct (VerificationEngine.verify_calculations fields line_items)
         as [result | e] eqn:Hresult; [ | discriminate ].
  all: intros H _; injection H as <- <-.
  all: exists fields_text, lineitems_text, fields, line_items, result.
  all: repeat split; assumption.
Qed.

Lemma process_verification_report_written_witness :
  let w := {| files := {["output/inv7_fields.json" := "{}";
                         "output/inv7_lineitems.json" := "[]"]};
              stdout := [] |} in
  let json_loads s := if String.eqb s "{}" then Ok (PDict []) else Ok (PList []) in
  files (snd (VerificationEngine.process_verification
                json_loads (fun _ => "<report>") (fun p => p) "inv7" w))
  = <["output/" ++ "inv7" ++ "_verifiability_report.json" := "<report>"]>
      (files w).
Proof.
  cbv zeta.
  destruct (process_verification_report_written
              (fun s => if String.eqb s "{}" then Ok (PDict []) else Ok (PList []))
              (fun _ => "<report>") (fun p => p) _ (or_introl eq_refl) "inv7"
              {| files := {["output/inv7_fields.json" := "{}";
                            "output/inv7_lineitems.json" := "[]"]};
                 stdout := [] |}
              (snd (VerificationEngine.process_verification
                      (fun s => if String.eqb s "{}" then Ok (PDict [])
                                else Ok (PList []))
                      (fun _ => "<report>") (fun p => p) "inv7"
                      {| files := {["output/inv7_fields.json" := "{}";
                                    "output/inv7_lineitems.json" := "[]"]};
                         stdout := [] |}))
              (PDict (success_record [] 0 0 0 0)))
    as (ft & lt & f & l & r & _ & _ & _ & _ & _ & _ & H).
  - vm_compute. reflexivity.
  - discriminate.
  - exact H.
Defined.

(** X6: running the driver a second time gives the same result and the
    same files as the first run: the report is replaced by an identical
    one. *)
Theorem process_verification_rerun :
  forall json_loads json_dumps resolve run,
    In run (process_verification_copies json_loads json_dumps resolve) ->
    forall (prefix : string) (w : world),
      fst (run prefix (snd (run prefix w))) = fst (run prefix w)
      /\ files (snd (run prefix (snd (run prefix w)))) = files (snd (run prefix w)).
Proof.
  intros json_loads json_dumps resolve run Hrun prefix w.
  unfold process_verification_copies in Hrun.
  assert (Hve :
            fst (VerificationEngine.process_verification json_loads json_dumps
                   resolve prefix
                   (snd (VerificationEngine.process_verification json_loads
                           json_dumps resolve prefix w)))
            = fst (VerificationEngine.process_verification json_loads json_dumps
                     resolve prefix w)
            /\ files (snd (VerificationEngine.process_verification json_loads
                             json_dumps resolve prefix
                             (snd (VerificationEngine.process_verification
                                     json_loads json_dumps resolve prefix w))))
               = files (snd (VerificationEngine.process_verification json_loads
                               json_dumps resolve prefix w))).
  { destruct (run_cases json_loads json_dumps resolve prefix w)
      as [H | [[e H] | [result H]]].
    - (* skipped *)
      rewrite H. cbn [fst snd].
      assert (Hfst :
                fst (VerificationEngine.process_verification json_loads json_dumps
                       resolve prefix
                       (print ("Required files not found for prefix '"
                               ++ prefix ++ "'.") w))
                = Ok PNone).
      { rewrite (run_reads_inputs json_loads json_dumps resolve prefix w
                   (print ("Required files not found for prefix '"
                           ++ prefix ++ "'.") w) eq_refl eq_refl), H.
        reflexivity. }
      split; [ exact Hfst | ].
      destruct (run_cases json_loads json_dumps resolve prefix
                  (print ("Required files not found for prefix '"
                          ++ prefix ++ "'.") w))
        as [H' | [[e H'] | [result H']]]; rewrite H' in Hfst |- *;
        cbn [fst snd] in Hfst |- *; [ reflexivity | discriminate | discriminate ].
    - (* raised *)
      rewrite H. cbn [fst snd]. rewrite H. split; reflexivity.
    - (* report written *)
      rewrite H. cbn [fst snd].
      set (out := path_join "output" (prefix ++ "_verifiability_report.json")).
      set (w1 := print _ (write_file out (json_dumps (PDict result)) w)).
      assert (Hfst :
                fst (VerificationEngine.process_verification json_loads json_dumps
                       resolve prefix w1)
                = Ok (PDict result)).
      { rewrite (run_reads_inputs json_loads json_dumps resolve prefix w w1), H;
          [ reflexivity | | ].
        - apply lookup_insert_ne, report_path_not_fields.
        - apply lookup_insert_ne, report_path_not_lineitems. }
      split; [ exact Hfst | ].
      destruct (run_cases json_loads json_dumps resolve prefix w1)
        as [H' | [[e H'] | [result' H']]]; rewrite H' in Hfst |- *;
        cbn [fst snd] in Hfst |- *; [ discriminate | discriminate | ].
      injection Hfst as ->.
      cbn [files print write_file]. fold out. subst w1.
      cbn [files print write_file]. apply insert_insert_eq. }
  destruct Hrun as [<- | [<- | []]]; [ | rewrite process_verification_copy ];
    exact Hve.
Qed.

Lemma process_verification_rerun_witness :
  let w := {| files := {["output/inv7_fields.json" := "{}";
                         "output/inv7_lineitems.json" := "[]"]};
              stdout := [] |} in
  let run :=
    VerificationEngine.process_verification
      (fun s => if String.eqb s "{}" then Ok (PDict []) else Ok (PList []))
      (fun _ => "<report>") (fun p => p) in
  fst (run "inv7" (snd (run "inv7" w))) = fst (run "inv7" w)
  /\ files (snd (run "inv7" (snd (run "inv7" w)))) = files (snd (run "inv7" w)).
Proof.
  cbv zeta.
  apply (process_verification_rerun
           (fun s => if String.eqb s "{}" then Ok (PDict []) else Ok (PList []))
           (fun _ => "<report>") (fun p => p) _ (or_introl eq_refl) "inv7").
Defined.

(** ** More on the header fields *)

(** *** What a match consumes *)

Lemma match_rep_consumed {R} (a : Re.atom) (k : list ascii -> option R) (r : R) :
  forall s lo hi,
    Re.match_rep a lo hi k s = Some r ->
    exists p1 s',
      s = (p1 ++ s')%list
      /\ Forall (fun c => Re.atom_matches a c = true) p1
      /\ lo <= length p1
      /\ (forall h, hi = Some h -> length p1 <= h)
      /\ k s' = Some r.
Proof.
  assert (Hstop : forall s lo (hi : option nat),
             match lo with O => k s | S _ => None end = Some r ->
             exists p1 s',
               s = (p1 ++ s')%list
               /\ Forall (fun c => Re.atom_matches a c = true) p1
               /\ lo <= length p1
               /\ (forall h, hi = Some h -> length p1 <= h)
               /\ k s' = Some r).
  { intros s lo hi H. destruct lo; [ | discriminate ].
    exists [], s. repeat split; auto. cbn. intros; lia. }
  induction s as [ | c s IH]; intros lo hi H.
  - apply Hstop. destruct hi as [[ | h] | ]; exact H.
  - cbn [Re.match_rep] in H.
    destruct hi as [[ | h] | ]; [ apply Hstop, H | | ].
    + destruct (Re.atom_matches a c) eqn:Hc; [ | apply Hstop, H ].
      destruct (Re.match_rep a (Nat.pred lo) (option_map Nat.pred (Some (S h))) k s)
        as [r' | ] eqn:Hrec; [ | apply Hstop, H ].
      injection H as ->.
      destruct (IH _ _ Hrec) as (p1 & s' & -> & Hall & Hlo & Hhi & Hk).
      exists (c :: p1), s'. repeat split; auto.
      * cbn [length]. lia.
      * intros h' Hh'. injection Hh' as <-. cbn [length].
        specialize (Hhi h eq_refl). lia.
    + destruct (Re.atom_matches a c) eqn:Hc; [ | apply Hstop, H ].
      destruct (Re.match_rep a (Nat.pred lo) (option_map Nat.pred None) k s)
        as [r' | ] eqn:Hrec; [ | apply Hstop, H ].
      injection H as ->.
      destruct (IH _ _ Hrec) as (p1 & s' & -> & Hall & Hlo & Hhi & Hk).
      exists (c :: p1), s'. repeat split; auto.
      * cbn [length]. lia.
      * discriminate.
Qed.

Lemma match_items_consumed {R} (its : list Re.item) :
  forall (k : list ascii -> option R) (r : R) (s : list ascii),
    Re.match_items its k s = Some r ->
    exists p s', s = (p ++ s')%list /\ consumed its p /\ k s' = Some r.
Proof.
  induction its as [ | [a lo hi] rest IH]; intros k r s H.
  - exists [], s. repeat split; [ constructor | exact H ].
  - cbn [Re.match_items] in H.
    destruct (match_rep_consumed a _ r s lo hi H)
      as (p1 & s1 & -> & Hall & Hlo & Hhi & Hk).
    destruct (IH k r s1 Hk) as (p2 & s2 & -> & Hc & Hk2).
    exists (p1 ++ p2)%list, s2. repeat split.
    + apply app_assoc.
    + constructor; assumption.
    + exact Hk2.
Qed.

Lemma match_at_consumed (p : Re.pattern) (s g : list ascii) :
  Re.match_at p s = Some g ->
  exists a b rest,
    s = (a ++ g ++ b ++ rest)%list
    /\ consumed (Re.pre p) a /\ consumed (Re.grp p) g /\ consumed (Re.post p) b.
Proof.
  unfold Re.match_at. intros H.
  destruct (match_items_consumed (Re.pre p) _ g s H) as (a & s1 & -> & Ha & H1).
  destruct (match_items_consumed (Re.grp p) _ g s1 H1) as (g' & s2 & -> & Hg & H2).
  destruct (match_items_consumed (Re.post p) _ g s2 H2) as (b & rest & -> & Hb & H3).
  injection H3 as <-.
  rewrite !length_app.
  replace (length g' + (length b + length rest) - (length b + length rest))
    with (length g') by lia.
  rewrite firstn_app, Nat.sub_diag, firstn_all, firstn_O, app_nil_r.
  exists a, b, rest. repeat split; assumption.
Qed.

Lemma search_from_consumed (p : Re.pattern) (s g : list ascii) :
  Re.search_from p s = Some g ->
  exists skipped a b rest,
    s = (skipped ++ a ++ g ++ b ++ rest)%list
    /\ consumed (Re.pre p) a /\ consumed (Re.grp p) g /\ consumed (Re.post p) b.
Proof.
  induction s as [ | c s IH]; cbn [Re.search_from]; intros H.
  - destruct (Re.match_at p []) as [g' | ] eqn:E; [ | discriminate ].
    injection H as ->.
    destruct (match_at_consumed p [] g E) as (a & b & rest & Hs & Hc).
    exists [], a, b, rest. split; [ exact Hs | exact Hc ].
  - destruct (Re.match_at p (c :: s)) as [g' | ] eqn:E.
    + injection H as ->.
      destruct (match_at_consumed p (c :: s) g E) as (a & b & rest & Hs & Hc).
      exists [], a, b, rest. split; [ exact Hs | exact Hc ].
    + destruct (IH H) as (skipped & a & b & rest & -> & Hc).
      exists (c :: skipped), a, b, rest. split; [ reflexivity | exact Hc ].
Qed.

Lemma string_of_list_ascii_app (l1 l2 : list ascii) :
  string_of_list_ascii (l1 ++ l2)
  = string_of_list_ascii l1 ++ string_of_list_ascii l2.
Proof.
  induction l1 as [ | c l1 IH]; cbn; [ reflexivity | ]. rewrite IH. reflexivity.
Qed.

Lemma search_consumed (p : Re.pattern) (text0 g : string) :
  Re.search p text0 = Some g ->
  occurs_in g text0 /\ consumed (Re.grp p) (list_ascii_of_string g).
Proof.
  unfold Re.search. intros H.
  destruct (Re.search_from p (list_ascii_of_string text0)) as [l | ] eqn:E;
    [ | discriminate ].
  injection H as <-.
  destruct (search_from_consumed p _ l E) as (skipped & a & b & rest & Hs & _ & Hg & _).
  split.
  - exists (string_of_list_ascii (skipped ++ a)),
      (string_of_list_ascii (b ++ rest)).
    rewrite <- (string_of_list_ascii_of_string text0), Hs.
    rewrite <- !string_of_list_ascii_app. f_equal.
    rewrite <- !app_assoc. reflexivity.
  - rewrite list_ascii_of_string_of_list_ascii. exact Hg.
Qed.

(** [strip] keeps a piece of the text. *)
Lemma drop_while_suffix {A} (p : A -> bool) (l : list A) :
  exists a, l = (a ++ drop_while p l)%list.
Proof.
  induction l as [ | x l [a IH]]; cbn [drop_while].
  - exists []. reflexivity.
  - destruct (p x).
    + exists (x :: a). cbn. f_equal. exact IH.
    + exists []. reflexivity.
Qed.

Lemma strip_with_infix (p : ascii -> bool) (l : list ascii) :
  exists a b, l = (a ++ strip_with p l ++ b)%list.
Proof.
  unfold strip_with.
  destruct (drop_while_suffix p l) as [a Ha].
  destruct (drop_while_suffix p (rev (drop_while p l))) as [b Hb].
  exists a, (rev b).
  rewrite <- rev_app_distr, <- Hb, rev_involutive. exact Ha.
Qed.

Lemma strip_occurs (g : string) : occurs_in (strip g) g.
Proof.
  unfold strip.
  destruct (strip_with_infix is_space (list_ascii_of_string g)) as (a & b & H).
  exists (string_of_list_ascii a), (string_of_list_ascii b).
  rewrite <- !string_of_list_ascii_app, <- H.
  symmetry. apply string_of_list_ascii_of_string.
Qed.

Lemma string_append_assoc (a b c : string) : (a ++ b) ++ c = a ++ (b ++ c).
Proof.
  induction a as [ | x a IH]; [ reflexivity | ].
  change (String x ((a ++ b) ++ c) = String x (a ++ (b ++ c))).
  f_equal. exact IH.
Qed.

Lemma occurs_in_trans (a b c : string) :
  occurs_in a b -> occurs_in b c -> occurs_in a c.
Proof.
  intros (x & y & ->) (u & v & ->).
  exists (u ++ x), (y ++ v).
  rewrite !string_append_assoc. reflexivity.
Qed.

(** *** The characters of a capture *)

Lemma consumed_one_class (rs : list (ascii * ascii)) (lo : nat) (hi : option nat)
  (g : list ascii) :
  consumed [Re.Rep (Re.Cls rs) lo hi] g ->
  Forall (fun c => Re.atom_matches (Re.Cls rs) c = true) g
  /\ lo <= length g
  /\ (forall h, hi = Some h -> length g <= h).
Proof.
  intros H. inversion H as [ | a lo' hi' rest p1 p2 Hall Hlo Hhi Hrest]; subst.
  inversion Hrest; subst. rewrite app_nil_r. auto.
Qed.

Lemma ident_class (c : ascii) :
  Re.atom_matches
    (Re.Cls [("A", "Z"); ("a", "z"); ("0", "9"); ("-", "-")]%char) c = true ->
  is_ident_char c = true.
Proof.
  destruct c as [[] [] [] [] [] [] [] []]; vm_compute; intros H;
    first [ reflexivity | discriminate H ].
Qed.

Lemma gst_class (c : ascii) :
  Re.atom_matches (Re.Cls [("0", "9"); ("A", "Z")]%char) c = true ->
  Re.is_alnum c = true.
Proof.
  destruct c as [[] [] [] [] [] [] [] []]; vm_compute; intros H;
    first [ reflexivity | discriminate H ].
Qed.

Lemma ident_not_space (c : ascii) : is_ident_char c = true -> is_space c = false.
Proof.
  destruct c as [[] [] [] [] [] [] [] []]; vm_compute; intros H;
    first [ reflexivity | discriminate H ].
Qed.

Lemma date_not_space (c : ascii) : is_date_char c = true -> is_space c = false.
Proof.
  destruct c as [[] [] [] [] [] [] [] []]; vm_compute; intros H;
    first [ reflexivity | discriminate H ].
Qed.

Lemma alnum_ident (c : ascii) : Re.is_alnum c = true -> is_ident_char c = true.
Proof. unfold is_ident_char. intros ->. reflexivity. Qed.

Lemma drop_while_none {A} (p : A -> bool) (l : list A) :
  Forall (fun x => p x = false) l -> drop_while p l = l.
Proof. intros H. destruct H as [ | x l Hx _]; cbn; [ | rewrite Hx ]; reflexivity. Qed.

Lemma strip_no_space (g : list ascii) :
  Forall (fun c => is_space c = false) g ->
  strip (string_of_list_ascii g) = string_of_list_ascii g.
Proof.
  intros H. unfold strip, strip_with.
  rewrite list_ascii_of_string_of_list_ascii.
  rewrite (drop_while_none is_space g H).
  rewrite (drop_while_none is_space (rev g)) by (apply Forall_rev, H).
  rewrite rev_involutive. reflexivity.
Qed.

Lemma consumed_chars (its : list Re.item) (g : list ascii) :
  consumed its g -> Forall (fun c => accepted_by its c = true) g.
Proof.
  induction 1 as [ | a lo hi rest p1 p2 Hall Hlo Hhi Hrest IH].
  - constructor.
  - apply Forall_app. split.
    + eapply List.Forall_impl; [ | exact Hall ].
      intros c Hc. unfold accepted_by. cbn [existsb item_atom]. rewrite Hc.
      reflexivity.
    + eapply List.Forall_impl; [ | exact IH ].
      intros c Hc. unfold accepted_by in *. cbn [existsb]. rewrite Hc.
      apply orb_true_r.
Qed.

Lemma consumed_min_length (its : list Re.item) (g : list ascii) :
  consumed its g -> min_length its <= length g.
Proof.
  induction 1 as [ | a lo hi rest p1 p2 Hall Hlo Hhi Hrest IH]; cbn [min_length].
  - lia.
  - rewrite length_app. lia.
Qed.

Lemma consumed_max_length (its : list Re.item) (g : list ascii) (n : nat) :
  consumed its g -> max_length its = Some n -> length g <= n.
Proof.
  intros H. revert n.
  induction H as [ | a lo hi rest p1 p2 Hall Hlo Hhi Hrest IH]; intros n;
    cbn [max_length].
  - intros H. injection H as <-. cbn. lia.
  - destruct hi as [h | ]; [ | discriminate ].
    destruct (max_length rest) as [m | ]; [ | discriminate ].
    intros H. injection H as <-. rewrite length_app.
    specialize (Hhi h eq_refl). specialize (IH m eq_refl). lia.
Qed.

Lemma date_class (c : ascii) :
  accepted_by (Re.grp re_date) c = true -> is_date_char c = true.
Proof.
  destruct c as [[] [] [] [] [] [] [] []]; vm_compute; intros H;
    first [ reflexivity | discriminate H ].
Qed.

Lemma ident_accepted (c : ascii) :
  accepted_by (Re.grp re_invoice_number) c = true -> is_ident_char c = true.
Proof.
  destruct c as [[] [] [] [] [] [] [] []]; vm_compute; intros H;
    first [ reflexivity | discriminate H ].
Qed.

Lemma gst_accepted (c : ascii) :
  accepted_by (Re.grp re_gst_number) c = true -> Re.is_alnum c = true.
Proof.
  destruct c as [[] [] [] [] [] [] [] []]; vm_compute; intros H;
    first [ reflexivity | discriminate H ].
Qed.

Lemma alnum_not_space (c : ascii) : Re.is_alnum c = true -> is_space c = false.
Proof. intros H. apply ident_not_space, alnum_ident, H. Qed.

Lemma string_length_list (s : string) :
  String.length s = length (list_ascii_of_string s).
Proof.
  induction s as [ | c s IH]; cbn; [ reflexivity | ]. rewrite IH. reflexivity.
Qed.

(** What a capture made of non-space characters becomes in the field. *)
Lemma extract_field_single (p : Re.pattern) (text0 name : string) (v : pyval)
  (c : float) (pr : bool) (ok : ascii -> bool) :
  (forall x, accepted_by (Re.grp p) x = true -> ok x = true) ->
  (forall x, ok x = true -> is_space x = false) ->
  extract_field [p] text0 name = field v c pr ->
  v = PNone
  \/ exists g,
      v = PStr g
      /\ Re.search p text0 = Some g
      /\ forallb ok (list_ascii_of_string g) = true
      /\ min_length (Re.grp p) <= String.length g
      /\ (forall n, max_length (Re.grp p) = Some n -> String.length g <= n).
Proof.
  intros Hok Hspace. cbn [extract_field].
  destruct (Re.search p text0) as [g | ] eqn:E.
  - intros H. injection H as <- _ _. right.
    destruct (search_consumed p text0 g E) as [_ Hc].
    pose proof (consumed_chars _ _ Hc) as Hchars.
    assert (Hall : Forall (fun x => ok x = true) (list_ascii_of_string g))
      by (eapply List.Forall_impl; [ | exact Hchars ]; exact Hok).
    assert (Hstrip : strip g = g).
    { assert (Hns : Forall (fun x => is_space x = false) (list_ascii_of_string g))
        by (eapply List.Forall_impl; [ | exact Hall ]; exact Hspace).
      pose proof (strip_no_space _ Hns) as Hs.
      rewrite string_of_list_ascii_of_string in Hs. exact Hs. }
    exists g. rewrite Hstrip.
    split; [ reflexivity | ]. split; [ reflexivity | ].
    split; [ | split ].
    + apply forallb_forall. apply List.Forall_forall. exact Hall.
    + rewrite string_length_list. apply consumed_min_length, Hc.
    + intros n Hn. rewrite string_length_list.
      apply (consumed_max_length _ _ n Hc Hn).
  - intros H. injection H as <- _ _. left. reflexivity.
Qed.

(** *** The values of the header fields *)

(** X7: the value of a regex field that is present occurs in the text,
    character for character. *)
Theorem extract_field_value_occurs :
  forall (pats : list Re.pattern) (text0 name v : string) (c : float) (pr : bool),
    extract_field pats text0 name = field (PStr v) c pr ->
    occurs_in v text0.
Proof.
  intros pats text0 name v c pr.
  induction pats as [ | p pats IH]; cbn [extract_field].
  - discriminate.
  - destruct (Re.search p text0) as [g | ] eqn:E; [ | exact IH ].
    intros H. injection H as <- _ _.
    apply (occurs_in_trans _ g); [ apply strip_occurs | ].
    apply (search_consumed p text0 g E).
Qed.

Lemma extract_field_value_occurs_witness :
  occurs_in "INV-2023-001" "Invoice No: INV-2023-001 Date: 2023-01-15".
Proof.
  apply (extract_field_value_occurs [re_gst_number; re_invoice_number]
           "Invoice No: INV-2023-001 Date: 2023-01-15" "invoice_number"
           "INV-2023-001" 0.95 true).
  vm_compute. reflexivity.
Defined.

(** X8: the shape of the values the four patterns give on ASCII text.  An
    [invoice_number] or [po_number] is at least one character long and
    made of letters, digits and hyphens; a [gst_number] is exactly 15
    letters and digits; a [date] is 6 to 12 digits, hyphens and slashes.
    None of them holds white space, so [strip] has nothing to remove. *)
Theorem regex_field_values_shape :
  forall (text0 name v : string) (c : float) (pr : bool),
    str_isascii text0 = true ->
    dict_lookup (extract_fields_from_text text0) name = Some (field (PStr v) c pr) ->
    (name = "invoice_number" \/ name = "po_number" ->
     1 <= String.length v
     /\ forallb is_ident_char (list_ascii_of_string v) = true)
    /\ (name = "gst_number" ->
        String.length v = 15
        /\ forallb Re.is_alnum (list_ascii_of_string v) = true)
    /\ (name = "date" ->
        6 <= String.length v <= 12
        /\ forallb is_date_char (list_ascii_of_string v) = true).
Proof.
  intros text0 name v c pr _ H.
  rewrite extract_fields_from_text_eq in H. cbn [dict_lookup] in H.
  destruct (String.eqb_spec "invoice_number" name) as [<- | N1].
  { assert (H' : extract_field [re_invoice_number] text0 "invoice_number"
                 = field (PStr v) c pr) by congruence.
    destruct (extract_field_single re_invoice_number text0 "invoice_number" _
                c pr is_ident_char ident_accepted ident_not_space H')
      as [Hnone | (g & Hg & _ & Hchars & Hmin & _)]; [ discriminate | ].
    injection Hg as <-.
    split; [ intros _; split; [ exact Hmin | exact Hchars ] | ].
    split; intros Hn; discriminate Hn. }
  destruct (String.eqb_spec "date" name) as [<- | N2].
  { assert (H' : extract_field [re_date] text0 "date" = field (PStr v) c pr)
      by congruence.
    destruct (extract_field_single re_date text0 "date" _ c pr is_date_char
                date_class date_not_space H')
      as [Hnone | (g & Hg & _ & Hchars & Hmin & Hmax)]; [ discriminate | ].
    injection Hg as <-. specialize (Hmax 12 eq_refl).
    split; [ intros [Hn | Hn]; discriminate Hn | ].
    split; [ intros Hn; discriminate Hn | ].
    intros _. split; [ split; [ exact Hmin | exact Hmax ] | exact Hchars ]. }
  destruct (String.eqb_spec "gst_number" name) as [<- | N3].
  { assert (H' : extract_field [re_gst_number] text0 "gst_number"
                 = field (PStr v) c pr) by congruence.
    destruct (extract_field_single re_gst_number text0 "gst_number" _ c pr
                Re.is_alnum gst_accepted alnum_not_space H')
      as [Hnone | (g & Hg & _ & Hchars & Hmin & Hmax)]; [ discriminate | ].
    injection Hg as <-. specialize (Hmax 15 eq_refl).
    split; [ intros [Hn | Hn]; discriminate Hn | ].
    split; [ | intros Hn; discriminate Hn ].
    intros _. split; [ | exact Hchars ].
    apply Nat.le_antisymm; [ exact Hmax | exact Hmin ]. }
  destruct (String.eqb_spec "po_number" name) as [<- | N4]; [ | discriminate ].
  assert (H' : extract_field [re_po_number] text0 "po_number"
               = field (PStr v) c pr) by congruence.
  destruct (extract_field_single re_po_number text0 "po_number" _ c pr
              is_ident_char ident_accepted ident_not_space H')
    as [Hnone | (g & Hg & _ & Hchars & Hmin & _)]; [ discriminate | ].
  injection Hg as <-.
  split; [ intros _; split; [ exact Hmin | exact Hchars ] | ].
  split; intros Hn; discriminate Hn.
Qed.

Lemma regex_field_values_shape_witness :
  String.length "22AAAAA0000A1Z5" = 15
  /\ forallb Re.is_alnum (list_ascii_of_string "22AAAAA0000A1Z5") = true.
Proof.
  apply (regex_field_values_shape "GSTIN: 22AAAAA0000A1Z5 PO No 7" "gst_number"
           "22AAAAA0000A1Z5" 0.95 true).
  - reflexivity.
  - vm_compute. reflexivity.
  - reflexivity.
Defined.

(** ** More on bill-to and ship-to *)

Lemma nth_value_firstn (l : list string) (n m : nat) :
  n < m -> nth_value (firstn m l) n = nth_value l n.
Proof.
  intros H. unfold nth_value. rewrite nth_error_firstn.
  destruct (Nat.ltb_spec n m); [ reflexivity | lia ].
Qed.

(** X9: [extract_bill_ship_to] depends on the tagger's answer only through
    the first two organization/person texts and the first two location
    texts: later spans and spans with any other label have no
    influence. *)
Theorem extract_bill_ship_to_first_two :
  forall (text0 : string) (nlp nlp' : string -> list Span),
    firstn 2 (orgs_of (nlp text0)) = firstn 2 (orgs_of (nlp' text0)) ->
    firstn 2 (locs_of (nlp text0)) = firstn 2 (locs_of (nlp' text0)) ->
    extract_bill_ship_to text0 nlp = extract_bill_ship_to text0 nlp'.
Proof.
  intros text0 nlp nlp' Horgs Hlocs.
  rewrite !extract_bill_ship_to_entries.
  rewrite <- (nth_value_firstn (orgs_of (nlp text0)) 0 2) by lia.
  rewrite <- (nth_value_firstn (orgs_of (nlp text0)) 1 2) by lia.
  rewrite <- (nth_value_firstn (locs_of (nlp text0)) 0 2) by lia.
  rewrite <- (nth_value_firstn (locs_of (nlp text0)) 1 2) by lia.
  rewrite Horgs, Hlocs.
  rewrite !nth_value_firstn by lia.
  reflexivity.
Qed.

Lemma extract_bill_ship_to_first_two_witness :
  extract_bill_ship_to "Acme Ltd, Pune; Bolt Inc, Goa; 2024; Zed, Agra"
    (fun _ => [Build_Span "Acme Ltd" "ORG"; Build_Span "Pune" "GPE";
               Build_Span "2024" "DATE"; Build_Span "Bolt Inc" "ORG";
               Build_Span "Goa" "LOC"; Build_Span "Zed" "PERSON";
               Build_Span "Agra" "GPE"])
  = extract_bill_ship_to "Acme Ltd, Pune; Bolt Inc, Goa; 2024; Zed, Agra"
      (fun _ => [Build_Span "Acme Ltd" "ORG"; Build_Span "Bolt Inc" "ORG";
                 Build_Span "Pune" "GPE"; Build_Span "Goa" "LOC"]).
Proof.
  apply (extract_bill_ship_to_first_two
           "Acme Ltd, Pune; Bolt Inc, Goa; 2024; Zed, Agra"
           (fun _ => [Build_Span "Acme Ltd" "ORG"; Build_Span "Pune" "GPE";
                      Build_Span "2024" "DATE"; Build_Span "Bolt Inc" "ORG";
                      Build_Span "Goa" "LOC"; Build_Span "Zed" "PERSON";
                      Build_Span "Agra" "GPE"])
           (fun _ => [Build_Span "Acme Ltd" "ORG"; Build_Span "Bolt Inc" "ORG";
                      Build_Span "Pune" "GPE"; Build_Span "Goa" "LOC"]));
    reflexivity.
Defined.

(** ** More on the line items *)

(** *** From the rows back to the words *)

(** What [parse_row] returns when it returns. *)
Lemma parse_row_inv (context : list WordRecord) (row : dict) :
  parse_row context (numeric_tokens context) = Ok row ->
  exists n1 n2 n3 qty unit_price row_total,
    nth_error (numeric_tokens context) 1 = Some n1
    /\ nth_error (numeric_tokens context) 2 = Some n2
    /\ nth_error (numeric_tokens context) 3 = Some n3
    /\ py_float (PStr (remove_commas (text n1))) = Ok qty
    /\ py_float (PStr (remove_commas (text n2))) = Ok unit_price
    /\ py_float (PStr (remove_commas (text n3))) = Ok row_total.
Proof.
  unfold parse_row, list_index.
  destruct (nth_error (numeric_tokens context) 1) as [n1 | ] eqn:E1;
    [ rewrite bind_Ok | discriminate ].
  destruct (py_float (PStr (remove_commas (text n1)))) as [qty | ] eqn:P1;
    [ rewrite bind_Ok | discriminate ].
  destruct (nth_error (numeric_tokens context) 2) as [n2 | ] eqn:E2;
    [ rewrite bind_Ok | discriminate ].
  destruct (py_float (PStr (remove_commas (text n2)))) as [up | ] eqn:P2;
    [ rewrite bind_Ok | discriminate ].
  destruct (nth_error (numeric_tokens context) 3) as [n3 | ] eqn:E3;
    [ rewrite bind_Ok | discriminate ].
  destruct (py_float (PStr (remove_commas (text n3)))) as [rt | ] eqn:P3;
    [ rewrite bind_Ok | discriminate ].
  intros _. exists n1, n2, n3, qty, up, rt. repeat split; assumption.
Qed.

(** The row of a window that has one. *)
Lemma parse_row_line_item (context : list WordRecord) (n1 n2 n3 : WordRecord)
  (qty unit_price row_total : float) :
  nth_error (numeric_tokens context) 1 = Some n1 ->
  nth_error (numeric_tokens context) 2 = Some n2 ->
  nth_error (numeric_tokens context) 3 = Some n3 ->
  py_float (PStr (remove_commas (text n1))) = Ok qty ->
  py_float (PStr (remove_commas (text n2))) = Ok unit_price ->
  py_float (PStr (remove_commas (text n3))) = Ok row_total ->
  exists w1 w2,
    nth_error context 1 = Some w1
    /\ nth_error context 2 = Some w2
    /\ parse_row context (numeric_tokens context)
       = Ok [("description", PStr (text w1 ++ " " ++ text w2));
             ("qty", PFloat qty);
             ("unit_price", PFloat unit_price);
             ("row_total", PFloat row_total);
             ("valid", PBool (abs (qty * unit_price - row_total) <? 2)%float)].
Proof.
  intros H1 H2 H3 Hq Hu Hr.
  assert (Hlen : 3 < length (numeric_tokens context))
    by (apply nth_error_Some; rewrite H3; discriminate).
  pose proof (numeric_tokens_length context) as Hle.
  rewrite (parse_row_ok context n1 n2 n3 qty unit_price row_total H1 H2 H3 Hq Hu Hr).
  rewrite (float_mul_comm qty unit_price).
  destruct context as [ | w0 [ | w1 [ | w2 rest]]]; cbn [length] in Hle; try lia.
  exists w1, w2. split; [ reflexivity | ]. split; [ reflexivity | ].
  destruct rest; reflexivity.
Qed.

(** One position gives no row or one row. *)
Lemma scan_word_cases (words : list WordRecord) (i : nat) (word : WordRecord) :
  scan_word words [] (i, word) = []
  \/ exists row,
      scan_word words [] (i, word) = [row]
      /\ (nth_error words i = Some word -> row_at words i row).
Proof.
  unfold scan_word.
  destruct (str_isdigit (text word)) eqn:Hdigit; [ | left; reflexivity ].
  fold (window words i). fold (numeric_tokens (window words i)).
  destruct (Nat.leb 3 _); [ | left; reflexivity ].
  destruct (parse_row _ _) as [row | e] eqn:E; [ | left; reflexivity ].
  right.
  destruct (parse_row_inv _ _ E)
    as (n1 & n2 & n3 & qty & up & rt & H1 & H2 & H3 & Hq & Hu & Hr).
  destruct (parse_row_line_item _ n1 n2 n3 qty up rt H1 H2 H3 Hq Hu Hr)
    as (w1 & w2 & Hw1 & Hw2 & Hrow).
  rewrite Hrow in E. injection E as <-.
  eexists. split; [ reflexivity | ]. intros Hword.
  exists word, n1, n2, n3, w1, w2, qty, up, rt.
  repeat (split; [ assumption | ]). reflexivity.
Qed.

Lemma enumerate_nth_from {A} (l : list A) :
  forall (start i : nat) (x : A),
    In (i, x) (combine (seq start (length l)) l) ->
    start <= i /\ nth_error l (i - start) = Some x.
Proof.
  induction l as [ | y l IH]; intros start i x H; cbn [length seq combine] in H.
  - destruct H.
  - destruct H as [H | H].
    + inversion H; subst. rewrite Nat.sub_diag. split; [ lia | reflexivity ].
    + destruct (IH (S start) i x H) as [Hle Hnth]. split; [ lia | ].
      replace (i - start) with (S (i - S start)) by lia. exact Hnth.
Qed.

Lemma enumerate_nth {A} (l : list A) (i : nat) (x : A) :
  In (i, x) (enumerate l) -> nth_error l i = Some x.
Proof.
  intros H. destruct (enumerate_nth_from l 0 i x H) as [_ Hnth].
  rewrite Nat.sub_0_r in Hnth. exact Hnth.
Qed.

Lemma row_at_line_item (words : list WordRecord) (i : nat) (row : pyval) :
  row_at words i row -> is_line_item row.
Proof.
  intros (word & n1 & n2 & n3 & w1 & w2 & qty & up & rt & H).
  exists (text w1 ++ " " ++ text w2), qty, up, rt. apply H.
Qed.

Lemma window_length (words : list WordRecord) (i : nat) :
  length (window words i) <= length words - i.
Proof.
  unfold window, slice. rewrite length_firstn, length_skipn. lia.
Qed.

Lemma row_at_room (words : list WordRecord) (i : nat) (row : pyval) :
  row_at words i row -> i + 3 < length words.
Proof.
  intros (word & n1 & n2 & n3 & w1 & w2 & qty & up & rt & _ & _ & _ & _ & H3 & _).
  assert (Hlen : 3 < length (numeric_tokens (window words i)))
    by (apply nth_error_Some; rewrite H3; discriminate).
  pose proof (numeric_tokens_length (window words i)).
  pose proof (window_length words i). lia.
Qed.

Lemma filter_firstn_le {A} (p : A -> bool) (x : A) (l : list A) :
  length (List.filter p (firstn (length l - 3) l))
  <= length (List.filter p (firstn (length (x :: l) - 3) (x :: l))).
Proof.
  change (length (x :: l)) with (S (length l)).
  destruct (Nat.le_gt_cases 3 (length l)) as [H | H].
  - replace (S (length l) - 3) with (S (length l - 3)) by lia.
    cbn [firstn List.filter]. destruct (p x); cbn [length]; lia.
  - replace (length l - 3) with 0 by lia. rewrite firstn_O. cbn [List.filter length]. lia.
Qed.

Lemma flat_map_scan_length (words : list WordRecord) (l : list WordRecord) :
  forall start,
    skipn start words = l ->
    length (flat_map (scan_word words []) (combine (seq start (length l)) l))
    <= length (candidates l).
Proof.
  unfold candidates.
  induction l as [ | x l IH]; intros start Hl.
  - cbn. lia.
  - assert (Hl' : skipn (S start) words = l).
    { replace (S start) with (1 + start) by lia.
      rewrite <- skipn_skipn, Hl. reflexivity. }
    assert (Hx : nth_error words start = Some x).
    { rewrite <- (Nat.add_0_r start), <- nth_error_skipn, Hl. reflexivity. }
    assert (Hlen : length words - start = S (length l))
      by (rewrite <- length_skipn, Hl; reflexivity).
    change (combine (seq start (length (x :: l))) (x :: l))
      with ((start, x) :: combine (seq (S start) (length l)) l).
    cbn [flat_map]. rewrite length_app.
    specialize (IH (S start) Hl').
    destruct (scan_word_cases words start x) as [-> | (row & -> & Hrow)].
    + pose proof (filter_firstn_le (fun w => str_isdigit (text w)) x l).
      cbn [length] in *. lia.
    + specialize (Hrow Hx).
      pose proof (row_at_room _ _ _ Hrow) as Hroom.
      destruct Hrow as (word & n1 & n2 & n3 & w1 & w2 & qty & up & rt
                        & Hword & Hdigit & _).
      rewrite Hx in Hword. injection Hword as <-.
      change (length (x :: l)) with (S (length l)).
      replace (S (length l) - 3) with (S (length l - 3)) by lia.
      cbn [firstn List.filter]. rewrite Hdigit. cbn [length]. lia.
Qed.

(** Words in front shift the positions and leave the windows alone. *)
Lemma window_app (pre words : list WordRecord) (i : nat) :
  window (pre ++ words)%list (length pre + i) = window words i.
Proof.
  unfold window, slice.
  replace (length pre + i + 8 - (length pre + i)) with (i + 8 - i) by lia.
  rewrite skipn_app.
  replace (length pre + i - length pre) with i by lia.
  rewrite skipn_all2 by lia. reflexivity.
Qed.

Lemma scan_word_shift (pre words : list WordRecord) (i : nat) (word : WordRecord) :
  scan_word (pre ++ words)%list [] (length pre + i, word)
  = scan_word words [] (i, word).
Proof.
  unfold scan_word. fold (window (pre ++ words)%list (length pre + i)).
  fold (window words i). rewrite window_app. reflexivity.
Qed.

Lemma flat_map_scan_shift (pre words l : list WordRecord) :
  forall start,
    flat_map (scan_word (pre ++ words)%list [])
      (combine (seq (length pre + start) (length l)) l)
    = flat_map (scan_word words []) (combine (seq start (length l)) l).
Proof.
  induction l as [ | x l IH]; intros start; [ reflexivity | ].
  cbn [length seq combine flat_map].
  rewrite scan_word_shift. f_equal.
  replace (S (length pre + start)) with (length pre + S start) by lia.
  apply IH.
Qed.

Lemma combine_seq_app {A} (l1 l2 : list A) (start : nat) :
  combine (seq start (length (l1 ++ l2)%list)) (l1 ++ l2)%list
  = (combine (seq start (length l1)) l1
       ++ combine (seq (start + length l1) (length l2)) l2)%list.
Proof.
  revert start. induction l1 as [ | x l1 IH]; intros start.
  - cbn [app length seq combine]. rewrite Nat.add_0_r. reflexivity.
  - cbn [app length seq combine]. rewrite IH.
    replace (S start + length l1) with (start + S (length l1)) by lia.
    reflexivity.
Qed.

(** *** The rows of a word list *)

(** Every row comes from a position of the word list. *)
Lemma in_extract_row_at (words : list WordRecord) (row : pyval) :
  In row (extract_line_items_from_ocr words) -> exists i, row_at words i row.
Proof.
  intros Hin. rewrite extract_line_items_flat_map in Hin.
  apply in_flat_map in Hin. destruct Hin as ([i word] & Hiw & Hin).
  exists i.
  destruct (scan_word_cases words i word) as [H | (row' & H & Hrow)];
    rewrite H in Hin; cbn in Hin; [ contradiction | ].
  destruct Hin as [<- | []]. apply Hrow, enumerate_nth, Hiw.
Qed.

(** X10: the converse of the scan step, for words that are ASCII text.
    Every row that
    [extract_line_items_from_ocr] returns was built at some position [i]
    of the word list: the word there is purely numeric, its window has a
    fourth numeric token, the second, third and fourth numeric token parse
    as floats once their commas are removed, and the row is the line item
    made of them and of the two words after the first.  At least three
    words follow position [i]. *)
Theorem extract_line_items_origin :
  forall (words : list WordRecord) (row : pyval),
    ascii_words words ->
    In row (extract_line_items_from_ocr words) ->
    exists i, row_at words i row /\ i + 3 < length words.
Proof.
  intros words row _ Hin.
  destruct (in_extract_row_at words row Hin) as [i Hrow].
  exists i. split; [ exact Hrow | apply (row_at_room words i row Hrow) ].
Qed.

Lemma extract_line_items_origin_witness :
  exists i,
    row_at (map word_of ["7"; "Bolt"; "Steel"; "10"; "1.50"; "15.00"; "Total"]) i
      (line_item "Bolt Steel" 10 1.5 15)
    /\ i + 3 < 7.
Proof.
  apply (extract_line_items_origin
           (map word_of ["7"; "Bolt"; "Steel"; "10"; "1.50"; "15.00"; "Total"])).
  - repeat constructor.
  - left. reflexivity.
Defined.

(** X11: [extract_line_items_from_ocr] returns at most [len(words) - 3]
    rows, so none for fewer than four words; and for words that are ASCII
    text, at most one row for each purely numeric word that is followed
    by at least three more words. *)
Theorem extract_line_items_count :
  forall words : list WordRecord,
    length (extract_line_items_from_ocr words) <= length words - 3
    /\ (ascii_words words ->
        length (extract_line_items_from_ocr words) <= length (candidates words)).
Proof.
  intros words.
  assert (H : length (extract_line_items_from_ocr words)
              <= length (candidates words)).
  { rewrite extract_line_items_flat_map. unfold enumerate.
    apply flat_map_scan_length. reflexivity. }
  split; [ | intros _; exact H ].
  etransitivity; [ exact H | ].
  unfold candidates.
  etransitivity; [ apply List.filter_length_le | ].
  rewrite length_firstn. lia.
Qed.

Lemma extract_line_items_count_witness :
  length (extract_line_items_from_ocr
            (map word_of ["7"; "Bolt"; "Steel"; "10"; "1.50"; "15.00"; "Total"]))
  <= length (candidates
               (map word_of ["7"; "Bolt"; "Steel"; "10"; "1.50"; "15.00"; "Total"])).
Proof.
  apply (proj2 (extract_line_items_count
                  (map word_of ["7"; "Bolt"; "Steel"; "10"; "1.50"; "15.00";
                                "Total"]))).
  repeat constructor.
Defined.

(** The rows that start in [pre], and the rows of [words], in this
    order. *)
Lemma extract_line_items_app_eq (pre words : list WordRecord) :
  extract_line_items_from_ocr (pre ++ words)%list
  = (flat_map (scan_word (pre ++ words)%list [])
       (combine (seq 0 (length pre)) pre)
       ++ extract_line_items_from_ocr words)%list.
Proof.
  rewrite !extract_line_items_flat_map. unfold enumerate.
  rewrite combine_seq_app, flat_map_app. f_equal.
  cbn [Nat.add]. rewrite <- (Nat.add_0_r (length pre)).
  apply flat_map_scan_shift.
Qed.

(** A window that starts in [pre] reaches at most 7 words further. *)
Lemma window_app_firstn (pre words : list WordRecord) (i : nat) :
  i < length pre ->
  window (pre ++ words)%list i = window (pre ++ firstn 7 words)%list i.
Proof.
  intros Hi. unfold window, slice.
  replace (i + 8 - i) with 8 by lia.
  rewrite !skipn_app. replace (i - length pre) with 0 by lia.
  rewrite !skipn_O, !firstn_app, firstn_firstn.
  assert (Hlen : 1 <= length (skipn i pre)) by (rewrite length_skipn; lia).
  replace (Nat.min (8 - length (skipn i pre)) 7) with (8 - length (skipn i pre))
    by lia.
  reflexivity.
Qed.

Lemma scan_word_app_firstn (pre words : list WordRecord) (i : nat)
  (word : WordRecord) :
  i < length pre ->
  scan_word (pre ++ words)%list [] (i, word)
  = scan_word (pre ++ firstn 7 words)%list [] (i, word).
Proof.
  intros Hi. unfold scan_word.
  fold (window (pre ++ words)%list i).
  fold (window (pre ++ firstn 7 words)%list i).
  rewrite (window_app_firstn pre words i Hi). reflexivity.
Qed.

Lemma flat_map_eq_in {A B} (f g : A -> list B) (l : list A) :
  (forall x, In x l -> f x = g x) -> flat_map f l = flat_map g l.
Proof.
  induction l as [ | x l IH]; intros H; [ reflexivity | ].
  cbn [flat_map]. rewrite (H x (or_introl eq_refl)), IH; [ reflexivity | ].
  intros y Hy. apply H. right. exact Hy.
Qed.

Lemma flat_map_scan_one (words : list WordRecord) (l : list (nat * WordRecord)) :
  length (flat_map (scan_word words []) l) <= length l.
Proof.
  induction l as [ | [i word] l IH]; [ reflexivity | ].
  cbn [flat_map length]. rewrite length_app.
  destruct (scan_word_cases words i word) as [-> | (row & -> & _)];
    cbn [length]; lia.
Qed.

(** X12: words put in front of a word list do not change the rows found
    in it.  The rows of [pre ++ words] are the rows that start in [pre],
    at most one for each word of [pre], followed by exactly the rows of
    [words] alone; and the rows that start in [pre] see of [words] its
    first 7 words only. *)
Theorem extract_line_items_app :
  forall pre words : list WordRecord,
    exists rows,
      extract_line_items_from_ocr (pre ++ words)%list
      = (rows ++ extract_line_items_from_ocr words)%list
      /\ length rows <= length pre
      /\ extract_line_items_from_ocr (pre ++ firstn 7 words)%list
         = (rows ++ extract_line_items_from_ocr (firstn 7 words))%list.
Proof.
  intros pre words.
  exists (flat_map (scan_word (pre ++ words)%list [])
            (combine (seq 0 (length pre)) pre)).
  split; [ apply extract_line_items_app_eq | ].
  split.
  - etransitivity; [ apply flat_map_scan_one | ].
    rewrite length_combine, length_seq. lia.
  - rewrite extract_line_items_app_eq. f_equal.
    symmetry. apply flat_map_eq_in. intros [i word] Hiw.
    apply scan_word_app_firstn.
    destruct (enumerate_nth_from pre 0 i word Hiw) as [_ Hnth].
    rewrite Nat.sub_0_r in Hnth. apply nth_error_Some. congruence.
Qed.


(** ** The extractors and the verification engine together *)

Lemma mapM_row_totals (rows : list pyval) :
  Forall is_line_item rows ->
  mapM VerificationEngine.row_total_float rows = Ok (map row_total rows).
Proof.
  induction 1 as [ | row rows (d & q & u & r & ->) _ IH]; [ reflexivity | ].
  cbn [mapM map]. 
  change (VerificationEngine.row_total_float (line_item d q u r)) with (Ok r).
  rewrite bind_Ok, IH. reflexivity.
Qed.

Lemma extract_line_items_shape (words : list WordRecord) :
  Forall is_line_item (extract_line_items_from_ocr words).
Proof.
  apply List.Forall_forall. intros row Hin.
  destruct (in_extract_row_at words row Hin) as [i Hrow].
  apply (row_at_line_item words i row Hrow).
Qed.

Lemma field_set_no_totals (text0 : string) (nlp : string -> list Span)
  (name : string) :
  In name REQUIRED_FIELDS -> dict_lookup (field_set text0 nlp) name = None.
Proof.
  intros Hin. rewrite field_set_eq, extract_fields_from_text_eq,
    extract_bill_ship_to_entries.
  unfold REQUIRED_FIELDS in Hin. simpl in Hin.
  destruct Hin as [<- | [<- | [<- | [<- | []]]]]; reflexivity.
Qed.

(** On a FieldSet of [process_ocr_pages] and rows of the shape of line
    items the engine reports the row totals against zeros. *)
Lemma verify_calculations_no_totals (pages : list (list WordRecord))
  (nlp : string -> list Span) (rows : list pyval) :
  Forall is_line_item rows ->
  VerificationEngine.verify_calculations
    (PDict (process_ocr_pages pages nlp)) (PList rows)
  = Ok (success_record (map row_total rows) 0 0 0 0).
Proof.
  intros Hrows. rewrite process_ocr_pages_field_set.
  rewrite (verify_calculations_of_values
             (PDict (field_set (all_text pages) nlp)) (PList rows)
             rows (map row_total rows) 0 0 0 0 eq_refl
             (mapM_row_totals _ Hrows));
    try (apply field_float_missing, field_set_no_totals; simpl; tauto).
  reflexivity.
Qed.

(** X13: the FieldSet [process_ocr_pages] builds never has a [subtotal],
    [gst_amount], [discount] or [total] entry, and the rows of
    [extract_line_items_from_ocr] always carry a float [row_total].  So on
    the outputs of the two extractors [verify_calculations] never fails
    and never raises: it returns the success record of the row totals
    against a subtotal, GST, discount and total of 0. *)
Theorem verify_calculations_of_pipeline :
  forall (verify : pyval -> pyval -> res dict)
         (pages : list (list WordRecord)) (nlp : string -> list Span)
         (words : list WordRecord),
    In verify verify_calculations_copies ->
    verify (PDict (process_ocr_pages pages nlp))
      (PList (extract_line_items_from_ocr words))
    = Ok (success_record (map row_total (extract_line_items_from_ocr words))
            0 0 0 0).
Proof.
  intros verify pages nlp words Hin.
  both_copies Hin; apply verify_calculations_no_totals, extract_line_items_shape.
Qed.

Lemma verify_calculations_of_pipeline_witness :
  VerificationEngine.verify_calculations
    (PDict (process_ocr_pages
              [map word_of ["Invoice"; "No"; "A-17"]] (fun _ => [])))
    (PList (extract_line_items_from_ocr
              (map word_of ["7"; "Bolt"; "Steel"; "10"; "1.50"; "15.00"; "Total"])))
  = Ok (success_record [15%float] 0 0 0 0).
Proof.
  apply (verify_calculations_of_pipeline
           VerificationEngine.verify_calculations
           [map word_of ["Invoice"; "No"; "A-17"]] (fun _ => [])
           (map word_of ["7"; "Bolt"; "Steel"; "10"; "1.50"; "15.00"; "Total"])).
  left. reflexivity.
Defined.

(** ** File names and prefixes *)

Lemma split_not_nil (sep : ascii) (s : string) : split sep s <> [].
Proof.
  destruct s as [ | c s]; cbn [split]; [ discriminate | ].
  destruct (Ascii.eqb c sep); [ discriminate | ].
  destruct (split sep s); discriminate.
Qed.

Lemma split_app (sep : ascii) (a b : string) :
  split sep (a ++ String sep b) = (split sep a ++ split sep b)%list.
Proof.
  induction a as [ | c a IH].
  - change ("" ++ String sep b) with (String sep b). cbn [split].
    rewrite Ascii.eqb_refl. reflexivity.
  - change (String c a ++ String sep b) with (String c (a ++ String sep b)).
    cbn [split]. rewrite IH.
    destruct (Ascii.eqb c sep); [ reflexivity | ].
    pose proof (split_not_nil sep a).
    destruct (split sep a); [ contradiction | reflexivity ].
Qed.

Lemma split_free (sep : ascii) (s : string) :
  free_of sep s -> split sep s = [s].
Proof.
  unfold free_of. induction s as [ | c s IH]; intros H; [ reflexivity | ].
  cbn [list_ascii_of_string] in H. cbn [split].
  destruct (Ascii.eqb_spec c sep) as [-> | _].
  - exfalso. apply H. left. reflexivity.
  - rewrite IH; [ reflexivity | ]. intros Hin. apply H. right. exact Hin.
Qed.

Lemma join_split (sep : ascii) (s : string) :
  join (String sep "") (split sep s) = s.
Proof.
  induction s as [ | c s IH]; [ reflexivity | ].
  cbn [split]. pose proof (split_not_nil sep s) as Hne.
  destruct (Ascii.eqb_spec c sep) as [-> | _].
  - destruct (split sep s) as [ | p ps]; [ contradiction | ].
    change (join (String sep "") ("" :: p :: ps))
      with (String sep (join (String sep "") (p :: ps))).
    rewrite IH. reflexivity.
  - destruct (split sep s) as [ | p ps]; [ contradiction | ].
    rewrite <- IH. destruct ps; reflexivity.
Qed.

Lemma firstn_app_length {A} (l1 l2 : list A) (n : nat) :
  length l2 = n ->
  firstn (length (l1 ++ l2)%list - n) (l1 ++ l2)%list = l1.
Proof.
  intros <-. rewrite length_app.
  replace (length l1 + length l2 - length l2) with (length l1) by lia.
  rewrite firstn_app, Nat.sub_diag, firstn_all. cbn [firstn]. apply app_nil_r.
Qed.

Lemma get_prefix_of_parts (a p1 p2 p3 : string) :
  free_of "_"%char p1 -> free_of "_"%char p2 -> free_of "_"%char p3 ->
  get_prefix_from_filename
    (a ++ String "_"%char (p1 ++ String "_"%char (p2 ++ String "_"%char p3)))
  = a.
Proof.
  intros H1 H2 H3. unfold get_prefix_from_filename, slice.
  rewrite !split_app, (split_free _ _ H1), (split_free _ _ H2), (split_free _ _ H3).
  cbn [app skipn]. rewrite Nat.sub_0_r.
  rewrite skipn_O, (firstn_app_length (split "_"%char a) [p1; p2; p3] 3 eq_refl).
  apply join_split.
Qed.

Lemma uint_free (u : Decimal.uint) :
  free_of "_"%char (DecimalString.NilEmpty.string_of_uint u).
Proof.
  unfold free_of.
  induction u; cbn [DecimalString.NilEmpty.string_of_uint list_ascii_of_string];
    intros H; [ destruct H | .. ];
    (destruct H as [H | H]; [ discriminate | tauto ]).
Qed.

Lemma str_int_free (z : Z) : free_of "_"%char (str_int z).
Proof.
  unfold str_int, DecimalString.NilZero.string_of_int,
    DecimalString.NilZero.string_of_uint.
  destruct (Z.to_int z) as [u | u].
  - destruct u; try apply uint_free. intros [H | []]. discriminate.
  - unfold free_of. cbn [list_ascii_of_string]. intros [H | H]; [ discriminate | ].
    revert H. destruct u; try apply uint_free. intros [H | []]. discriminate.
Qed.

(** X14: [get_prefix_from_filename] undoes the naming of
    [save_ocr_output].  For every prefix, with or without underscores, and
    every page number, the prefix of [<prefix>_page_<n>_raw.json] is
    [<prefix>]. *)
Theorem get_prefix_of_raw_json_name :
  forall (prefix : string) (page_num : Z),
    get_prefix_from_filename (raw_json_name prefix page_num) = prefix.
Proof.
  intros prefix page_num. unfold raw_json_name.
  change (prefix ++ "_page_" ++ str_int page_num ++ "_raw.json")
    with (prefix ++ String "_"%char
            ("page" ++ String "_"%char
               (str_int page_num ++ String "_"%char "raw.json"))).
  apply get_prefix_of_parts.
  - unfold free_of. cbn. intros H. decompose [or] H; discriminate || contradiction.
  - apply str_int_free.
  - unfold free_of. cbn. intros H. decompose [or] H; discriminate || contradiction.
Qed.

Lemma string_append_nil_r (s : string) : s ++ "" = s.
Proof.
  induction s as [ | c s IH]; [ reflexivity | ].
  change (String c s ++ "") with (String c (s ++ "")). rewrite IH. reflexivity.
Qed.

Lemma join_app_prefix (sep : string) (l1 l2 : list string) :
  exists rest, join sep (l1 ++ l2)%list = join sep l1 ++ rest.
Proof.
  induction l1 as [ | x l1 IH].
  - exists (join sep l2). reflexivity.
  - destruct IH as [rest IH]. destruct l1 as [ | y l1].
    + cbn [app]. destruct l2 as [ | z l2].
      * exists "". symmetry. apply string_append_nil_r.
      * exists (sep ++ join sep (z :: l2)). reflexivity.
    + exists rest.
      change (join sep ((x :: y :: l1) ++ l2)%list)
        with (x ++ sep ++ join sep ((y :: l1) ++ l2)%list).
      rewrite IH.
      change (join sep (x :: y :: l1)) with (x ++ sep ++ join sep (y :: l1)).
      rewrite !string_append_assoc. reflexivity.
Qed.

(** X15: what [get_prefix_from_filename] returns is always an initial
    part of the file name. *)
Theorem get_prefix_is_prefix :
  forall filename : string,
    exists rest, filename = get_prefix_from_filename filename ++ rest.
Proof.
  intros filename. unfold get_prefix_from_filename, slice.
  rewrite skipn_O, Nat.sub_0_r.
  set (parts := split "_"%char filename).
  destruct (join_app_prefix "_" (firstn (length parts - 3) parts)
              (skipn (length parts - 3) parts)) as [rest H].
  exists rest. rewrite <- H, firstn_skipn. symmetry. apply join_split.
Qed.

(** ** The line-item driver *)

Lemma lineitems_path_not_fields (prefix : string) :
  path_join "output" (prefix ++ "_lineitems.json")
  <> path_join "output" (prefix ++ "_fields.json").
Proof.
  unfold path_join. intros H.
  apply append_inj_l, append_inj_l, append_inj_l in H. discriminate.
Qed.

Section PagesFacts.

Variable sorted_glob : string -> string -> world -> list string.
Variable json_loads_words : string -> res (list WordRecord).
Variable json_loads : string -> res pyval.
Variable json_dumps : pyval -> string.
Variable resolve : string -> string.

(** The three ways a run of [process_line_items] ends. *)
Lemma process_line_items_cases (prefix : string) (w : world) :
  (process_line_items sorted_glob json_loads_words json_dumps resolve prefix w
   = (Ok PNone, print ("No OCR outputs found for prefix '" ++ prefix ++ "'.") w))
  \/ (exists e,
         process_line_items sorted_glob json_loads_words json_dumps resolve
           prefix w
         = (Raise e, w))
  \/ (exists words,
         load_words json_loads_words
           (sorted_glob "output/ocr" (prefix ++ "_page_*_raw.json") w) [] w
         = Ok words
         /\ process_line_items sorted_glob json_loads_words json_dumps resolve
              prefix w
            = (Ok (PList (extract_line_items_from_ocr words)),
               print ("Extracted line items saved to "
                      ++ resolve (path_join "output" (prefix ++ "_lineitems.json")))
                 (write_file (path_join "output" (prefix ++ "_lineitems.json"))
                    (json_dumps (PList (extract_line_items_from_ocr words))) w))).
Proof.
  unfold process_line_items, LineItemExtractor.OCR_OUTPUT_DIR,
    LineItemExtractor.LINEITEMS_OUTPUT_DIR, LineItemExtractor.ensure_dir.
  destruct (sorted_glob _ _ w) as [ | f fs]; [ left; reflexivity | right ].
  destruct (load_words _ _ _ w) as [words | e]; [ right | left; eauto ].
  exists words. split; reflexivity.
Qed.

(** The loop appends the pages in the order of the files. *)
Lemma load_words_concat (ocr_files : list string) (w : world) :
  forall acc words,
    load_words json_loads_words ocr_files acc w = Ok words ->
    exists pages,
      mapM (fun f => load_ocr_json json_loads_words f w) ocr_files = Ok pages
      /\ words = (acc ++ concat pages)%list.
Proof.
  induction ocr_files as [ | f fs IH]; intros acc words H; cbn [load_words] in H.
  - injection H as <-. exists []. split; [ reflexivity | ].
    symmetry. apply app_nil_r.
  - cbn [mapM].
    destruct (load_ocr_json json_loads_words f w) as [page | e] eqn:E;
      [ | discriminate ].
    cbn [bind] in H.
    destruct (IH _ _ H) as (pages & Hpages & ->).
    exists (page :: pages). split; [ rewrite Hpages; reflexivity | ].
    cbn [concat]. rewrite app_assoc. reflexivity.
Qed.

(** What a run of the verification driver returns when both files are
    there and load. *)
Lemma process_verification_result (prefix : string) (w : world)
  (content content' : string) (fields line_items : pyval) :
  files w !! path_join "output" (prefix ++ "_fields.json") = Some content ->
  files w !! path_join "output" (prefix ++ "_lineitems.json") = Some content' ->
  json_loads content = Ok fields ->
  json_loads content' = Ok line_items ->
  fst (VerificationEngine.process_verification json_loads json_dumps resolve
         prefix w)
  = match VerificationEngine.verify_calculations fields line_items with
    | Ok report => Ok (PDict report)
    | Raise e => Raise e
    end.
Proof.
  intros Hf Hl Hfields Hitems.
  unfold VerificationEngine.process_verification,
    VerificationEngine.FIELDS_OUTPUT_DIR, VerificationEngine.LINEITEMS_OUTPUT_DIR,
    VerificationEngine.load_json, path_exists.
  rewrite Hf, Hl, Hfields, Hitems.
  rewrite !bool_decide_eq_true_2 by (eexists; reflexivity).
  cbn [negb orb].
  destruct (VerificationEngine.verify_calculations fields line_items);
    reflexivity.
Qed.

(** A run of the verification driver on what the two extractors left. *)
Lemma process_verification_no_totals (prefix : string) (w : world)
  (content : string) (rows : list pyval) (pages : list (list WordRecord))
  (nlp : string -> list Span) :
  files w !! path_join "output" (prefix ++ "_fields.json") = Some content ->
  files w !! path_join "output" (prefix ++ "_lineitems.json")
  = Some (json_dumps (PList rows)) ->
  json_loads content = Ok (PDict (process_ocr_pages pages nlp)) ->
  json_loads (json_dumps (PList rows)) = Ok (PList rows) ->
  Forall is_line_item rows ->
  VerificationEngine.process_verification json_loads json_dumps resolve prefix w
  = (Ok (PDict (success_record (map row_total rows) 0 0 0 0)),
     print ("Verification report saved to "
            ++ resolve (path_join "output"
                          (prefix ++ "_verifiability_report.json")))
       (write_file (path_join "output" (prefix ++ "_verifiability_report.json"))
          (json_dumps (PDict (success_record (map row_total rows) 0 0 0 0))) w)).
Proof.
  intros Hf Hl Hfields Hrows Hshape.
  unfold VerificationEngine.process_verification,
    VerificationEngine.FIELDS_OUTPUT_DIR, VerificationEngine.LINEITEMS_OUTPUT_DIR,
    VerificationEngine.VERIFICATION_OUTPUT_DIR, VerificationEngine.ensure_dir,
    VerificationEngine.load_json, path_exists.
  rewrite Hf, Hl, Hfields, Hrows.
  rewrite !bool_decide_eq_true_2 by (eexists; reflexivity).
  cbn [negb orb].
  rewrite (verify_calculations_no_totals pages nlp rows Hshape).
  reflexivity.
Qed.

End PagesFacts.

(** X16: [process_line_items] changes no file but
    [output/<prefix>_lineitems.json], whatever the outcome; the OCR files
    it reads and the fields file of the same prefix stay as they are. *)
Theorem process_line_items_frame :
  forall sorted_glob json_loads_words json_dumps resolve
         (prefix : string) (w : world) (path : string),
    path <> "output/" ++ prefix ++ "_lineitems.json" ->
    files (snd (process_line_items sorted_glob json_loads_words json_dumps
                  resolve prefix w)) !! path
    = files w !! path.
Proof.
  intros sorted_glob json_loads_words json_dumps resolve prefix w path Hpath.
  destruct (process_line_items_cases sorted_glob json_loads_words json_dumps
              resolve prefix w) as [H | [[e H] | (words & _ & H)]];
    rewrite H; cbn [snd files print write_file]; try reflexivity.
  apply lookup_insert_ne. intros Heq. apply Hpath. symmetry. exact Heq.
Qed.

Lemma process_line_items_frame_witness :
  let w := {| files := {["output/ocr/inv7_page_1_raw.json" := "<words>"]};
              stdout := [] |} in
  files (snd (process_line_items
                (fun _ _ _ => ["output/ocr/inv7_page_1_raw.json"])
                (fun _ => Ok (map word_of ["7"; "Bolt"; "Steel"; "10"; "1.50";
                                           "15.00"; "Total"]))
                (fun _ => "<rows>") (fun p => p) "inv7" w))
    !! "output/ocr/inv7_page_1_raw.json"
  = Some "<words>".
Proof.
  cbv zeta.
  rewrite (process_line_items_frame
             (fun _ _ _ => ["output/ocr/inv7_page_1_raw.json"])
             (fun _ => Ok (map word_of ["7"; "Bolt"; "Steel"; "10"; "1.50";
                                        "15.00"; "Total"]))
             (fun _ => "<rows>") (fun p => p) "inv7"
             {| files := {["output/ocr/inv7_page_1_raw.json" := "<words>"]};
                stdout := [] |}
             "output/ocr/inv7_page_1_raw.json").
  - reflexivity.
  - discriminate.
Defined.

(** X17: the rows [process_line_items] returns are the rows of all pages
    taken as one word list, in the order of the sorted file names, and
    they are what a following [process_verification] verifies.  With
    [json.load] giving back the rows [json.dump] wrote, the verification
    run after the line-item run returns what [verify_calculations] makes
    of the fields file and these rows. *)
Theorem process_line_items_then_verification :
  forall sorted_glob json_loads_words json_loads json_dumps resolve run,
    In run (process_verification_copies json_loads json_dumps resolve) ->
    forall (prefix : string) (w w1 : world) (rows : list pyval)
           (content : string) (fields : pyval),
      process_line_items sorted_glob json_loads_words json_dumps resolve prefix w
      = (Ok (PList rows), w1) ->
      files w !! ("output/" ++ prefix ++ "_fields.json") = Some content ->
      json_loads content = Ok fields ->
      json_loads (json_dumps (PList rows)) = Ok (PList rows) ->
      (exists ocr_pages,
          mapM (fun f => load_ocr_json json_loads_words f w)
            (sorted_glob "output/ocr" (prefix ++ "_page_*_raw.json") w)
          = Ok ocr_pages
          /\ rows = extract_line_items_from_ocr (concat ocr_pages))
      /\ fst (run prefix w1)
         = match VerificationEngine.verify_calculations fields (PList rows) with
           | Ok report => Ok (PDict report)
           | Raise e => Raise e
           end.
Proof.
  intros sorted_glob json_loads_words json_loads json_dumps resolve run Hrun
    prefix w w1 rows content fields Hitems Hf Hfields Hround.
  destruct (process_line_items_cases sorted_glob json_loads_words json_dumps
              resolve prefix w) as [H | [[e H] | (words & Hwords & H)]];
    rewrite H in Hitems; try discriminate.
  injection Hitems as <- <-.
  destruct (load_words_concat json_loads_words _ w [] words Hwords)
    as (ocr_pages & Hpages & ->).
  cbn [app] in *.
  split; [ exists ocr_pages; split; [ exact Hpages | reflexivity ] | ].
  unfold process_verification_copies in Hrun.
  destruct Hrun as [<- | [<- | []]]; [ | rewrite process_verification_copy ].
  all: apply (process_verification_result json_loads json_dumps resolve
                prefix _ content
                (json_dumps (PList (extract_line_items_from_ocr (concat ocr_pages))))).
  all: cbn [files print write_file].
  all: try (rewrite lookup_insert_ne by apply lineitems_path_not_fields;
            exact Hf).
  all: try apply lookup_insert_eq.
  all: assumption.
Qed.

Lemma process_line_items_then_verification_witness :
  let w := {| files := {["output/ocr/inv7_page_1_raw.json" := "<words>";
                         "output/inv7_fields.json" := "<fields>"]};
              stdout := [] |} in
  let sorted_glob (_ _ : string) (_ : world) :=
    ["output/ocr/inv7_page_1_raw.json"] in
  let json_loads_words (_ : string) :=
    Ok (map word_of ["7"; "Bolt"; "Steel"; "10"; "1.50"; "15.00"; "Total"]) in
  let json_dumps v := match v with PList _ => "<rows>" | _ => "<report>" end in
  let json_loads s :=
    if String.eqb s "<rows>" then Ok (PList [line_item "Bolt Steel" 10 1.5 15])
    else Ok (PDict [("total", PDict [("value", PStr "15.00")])]) in
  fst (VerificationEngine.process_verification json_loads json_dumps (fun p => p)
         "inv7"
         (snd (process_line_items sorted_glob json_loads_words json_dumps
                 (fun p => p) "inv7" w)))
  = Ok (PDict (success_record [15%float] 0 0 0 15)).
Proof.
  cbv zeta.
  destruct (process_line_items_then_verification
              (fun _ _ _ => ["output/ocr/inv7_page_1_raw.json"])
              (fun _ => Ok (map word_of ["7"; "Bolt"; "Steel"; "10"; "1.50";
                                         "15.00"; "Total"]))
              (fun s =>
                 if String.eqb s "<rows>"
                 then Ok (PList [line_item "Bolt Steel" 10 1.5 15])
                 else Ok (PDict [("total", PDict [("value", PStr "15.00")])]))
              (fun v => match v with PList _ => "<rows>" | _ => "<report>" end)
              (fun p => p) _ (or_introl eq_refl) "inv7"
              {| files := {["output/ocr/inv7_page_1_raw.json" := "<words>";
                            "output/inv7_fields.json" := "<fields>"]};
                 stdout := [] |}
              (snd (process_line_items
                      (fun _ _ _ => ["output/ocr/inv7_page_1_raw.json"])
                      (fun _ => Ok (map word_of ["7"; "Bolt"; "Steel"; "10";
                                                 "1.50"; "15.00"; "Total"]))
                      (fun v => match v with
                                | PList _ => "<rows>"
                                | _ => "<report>"
                                end)
                      (fun p => p) "inv7"
                      {| files := {["output/ocr/inv7_page_1_raw.json" := "<words>";
                                    "output/inv7_fields.json" := "<fields>"]};
                         stdout := [] |}))
              [line_item "Bolt Steel" 10 1.5 15]
              "<fields>" (PDict [("total", PDict [("value", PStr "15.00")])]))
    as [_ H].
  - vm_compute. reflexivity.
  - vm_compute. reflexivity.
  - reflexivity.
  - reflexivity.
  - rewrite H. vm_compute. reflexivity.
Defined.

(** ** The prefix of a fields file *)

Lemma startswith_occurs (s t : string) :
  startswith s t = true -> exists rest, s = t ++ rest.
Proof.
  revert s. induction t as [ | b t IH]; intros s H.
  - exists s. reflexivity.
  - destruct s as [ | a s]; [ discriminate | ]. cbn [startswith] in H.
    apply andb_prop in H. destruct H as [Hab H].
    apply Ascii.eqb_eq in Hab. subst b.
    destruct (IH s H) as [rest ->]. exists rest. reflexivity.
Qed.

Ltac split_char H :=
  repeat match type of H with
         | context [Ascii.eqb ?c ?k] =>
             destruct (Ascii.eqb c k); cbn [andb] in H; try discriminate H
         end.

Ltac straddle p H n :=
  lazymatch n with
  | O => idtac
  | S ?k =>
      let q := fresh "q" in
      destruct p as [ | ? q];
      [ exfalso; simpl in H; split_char H; discriminate H | straddle q H k ]
  end.

(** No occurrence of [_fields.json] starts inside a text and ends inside a
    [_fields.json] that follows it: the name part has one underscore
    only. *)
Lemma no_straddle (p : string) (c : ascii) :
  startswith (String c p ++ "_fields.json") "_fields.json" = true ->
  startswith (String c p) "_fields.json" = true.
Proof.
  intros H. straddle p H 11. simpl in H |- *.
  exact H.
Qed.

Lemma str_remove_from_fields (p : string) :
  str_contains p "_fields.json" = false ->
  str_remove_from "_fields.json" 0 (p ++ "_fields.json") = p.
Proof.
  induction p as [ | c p IH]; intros Hfree; [ reflexivity | ].
  change (String c p ++ "_fields.json") with (String c (p ++ "_fields.json")).
  cbn [str_contains] in Hfree. apply orb_false_elim in Hfree.
  destruct Hfree as [Hhere Hfree].
  cbn [str_remove_from].
  destruct (startswith (String c (p ++ "_fields.json")) "_fields.json") eqn:E.
  - rewrite (no_straddle p c E) in Hhere. discriminate.
  - rewrite (IH Hfree). reflexivity.
Qed.

(** X18: the drivers recover the prefix from the name of a fields file.
    For a prefix that does not contain [_fields.json], removing
    [_fields.json] from [<prefix>_fields.json], the name
    [process_ocr_pages] writes, gives the prefix back: no occurrence
    starts inside the prefix and runs into the suffix. *)
Theorem prefix_of_fields_name_round_trip :
  forall p : string,
    str_contains p "_fields.json" = false ->
    VerificationEngine.prefix_of_fields_name (p ++ "_fields.json") = p.
Proof.
  intros p Hfree. apply (str_remove_from_fields p Hfree).
Qed.

Lemma prefix_of_fields_name_round_trip_witness :
  VerificationEngine.prefix_of_fields_name ("scan_2024_inv7" ++ "_fields.json")
  = "scan_2024_inv7".
Proof.
  apply (prefix_of_fields_name_round_trip "scan_2024_inv7"). reflexivity.
Defined.

(** A prefix that contains [_fields.json] does not come back. *)
Example prefix_of_fields_name_lossy :
  VerificationEngine.prefix_of_fields_name ("a_fields.json_v2" ++ "_fields.json")
  = "a_v2".
Proof. reflexivity. Qed.

(** ** The exporter *)

Lemma export_rows_fold (all_data : list Exporter.Doc) :
  forall rows,
    fold_left
      (fun rows doc =>
         ((fst rows ++ [Exporter.fields_row doc])%list,
          (snd rows
             ++ map (Exporter.item_row (Exporter.prefix doc))
                  (Exporter.line_items doc))%list))
      all_data rows
    = ((fst rows ++ map Exporter.fields_row all_data)%list,
       (snd rows
          ++ flat_map (fun doc =>
                         map (Exporter.item_row (Exporter.prefix doc))
                           (Exporter.line_items doc))
               all_data)%list).
Proof.
  induction all_data as [ | doc all_data IH]; intros [frs irs];
    cbn [fold_left map flat_map fst snd].
  - rewrite !app_nil_r. reflexivity.
  - rewrite IH. cbn [fst snd]. rewrite <- !app_assoc. reflexivity.
Qed.

(** The sheets, document by document. *)
Lemma export_rows_eq (all_data : list Exporter.Doc) :
  Exporter.export_rows all_data
  = (map Exporter.fields_row all_data,
     flat_map (fun doc =>
                 map (Exporter.item_row (Exporter.prefix doc))
                   (Exporter.line_items doc))
       all_data).
Proof. unfold Exporter.export_rows. rewrite export_rows_fold. reflexivity. Qed.

(** An update keeps the first key where it is. *)
Lemma dict_set_head (k0 : string) (v0 : pyval) (d : dict) (k : string) (v : pyval) :
  exists v' d', dict_set ((k0, v0) :: d) k v = (k0, v') :: d'.
Proof.
  cbn [dict_set]. destruct (String.eqb k0 k); eauto.
Qed.

Lemma dict_update_head (e : dict) :
  forall (k0 : string) (v0 : pyval) (d : dict),
    exists v' d', dict_update ((k0, v0) :: d) e = (k0, v') :: d'.
Proof.
  unfold dict_update.
  induction e as [ | [k v] e IH]; intros k0 v0 d; cbn [fold_left fst snd].
  - eauto.
  - destruct (dict_set_head k0 v0 d k v) as (v' & d' & ->). apply IH.
Qed.

Lemma length_flat_map_sum {A B} (f : A -> list B) (l : list A) :
  length (flat_map f l) = list_sum (map (fun x => length (f x)) l).
Proof.
  induction l as [ | x l IH]; [ reflexivity | ].
  cbn [flat_map map list_sum]. rewrite length_app, IH. reflexivity.
Qed.

(** X19: [export_to_excel] makes one row of the [Fields] sheet for each
    document and one row of the [LineItems] sheet for each line item, and
    every row of either sheet has [prefix] as its first column (a field or
    an item key named [prefix] replaces the value, not the place). *)
Theorem export_rows_counts :
  forall all_data : list Exporter.Doc,
    length (fst (Exporter.export_rows all_data)) = length all_data
    /\ length (snd (Exporter.export_rows all_data))
       = list_sum (map (fun doc => length (Exporter.line_items doc)) all_data)
    /\ Forall (fun row => exists v rest, row = ("prefix", v) :: rest)
         (fst (Exporter.export_rows all_data)
            ++ snd (Exporter.export_rows all_data))%list.
Proof.
  intros all_data. rewrite export_rows_eq. cbn [fst snd].
  split; [ apply length_map | ].
  split.
  - rewrite length_flat_map_sum. f_equal. apply map_ext. intros doc.
    apply length_map.
  - apply Forall_app. split; apply List.Forall_forall; intros row Hin.
    + apply in_map_iff in Hin. destruct Hin as (doc & <- & _).
      apply dict_update_head.
    + apply in_flat_map in Hin. destruct Hin as (doc & _ & Hin).
      apply in_map_iff in Hin. destruct Hin as (item & <- & _).
      apply dict_update_head.
Qed.

Lemma flat_value_extract_field (pats : list Re.pattern) (text0 name : string) :
  text_or_none (Exporter.flat_value (extract_field pats text0 name)).
Proof.
  destruct (extract_field_cases pats text0 name) as [[g ->] | ->].
  - right. exists g. reflexivity.
  - left. reflexivity.
Qed.

Lemma flat_value_entity_entry (l : list string) (n : nat) (c : float) :
  text_or_none (Exporter.flat_value (entity_entry (nth_value l n) c)).
Proof.
  unfold nth_value. destruct (nth_error l n) as [s | ].
  - right. exists s. reflexivity.
  - left. reflexivity.
Qed.

Lemma fields_row_of_pipeline (p : string) (pages : list (list WordRecord))
  (nlp : string -> list Span) (words : list WordRecord) :
  let row := Exporter.fields_row (pipeline_doc p pages nlp words) in
  map fst row = FIELDS_COLUMNS
  /\ dict_lookup row "prefix" = Some (PStr p)
  /\ Forall text_or_none (map snd row).
Proof.
  cbv zeta. unfold Exporter.fields_row, pipeline_doc.
  cbn [Exporter.prefix Exporter.fields].
  rewrite process_ocr_pages_field_set, field_set_eq, extract_fields_from_text_eq,
    extract_bill_ship_to_entries.
  split; [ reflexivity | ]. split; [ reflexivity | ].
  cbn [dict_update fold_left map fst snd app dict_set String.eqb Ascii.eqb
         Bool.eqb].
  repeat (apply List.Forall_cons;
          [ first [ apply flat_value_extract_field
                  | apply flat_value_entity_entry
                  | right; eexists; reflexivity ] | ]).
  apply List.Forall_nil.
Qed.

Lemma item_row_of_line_item (p : string) (row : pyval) :
  is_line_item row ->
  map fst (Exporter.item_row p (dict_of row)) = LINEITEMS_COLUMNS
  /\ dict_lookup (Exporter.item_row p (dict_of row)) "prefix" = Some (PStr p).
Proof.
  intros (d & q & u & r & ->). split; reflexivity.
Qed.

(** X20: the sheets of documents that hold what the two extractors
    produce.  Each row of the [Fields] sheet has the nine columns [prefix],
    [invoice_number], [date], [gst_number], [po_number], [bill_to],
    [ship_to], [bill_to_address], [ship_to_address], in this order, and
    each cell is a string or empty.  Each row of the [LineItems] sheet has
    the six columns [prefix], [description], [qty], [unit_price],
    [row_total], [valid]. *)
Theorem export_rows_of_pipeline :
  forall all_data : list Exporter.Doc,
    Forall (fun doc => exists p pages nlp words,
                doc = pipeline_doc p pages nlp words) all_data ->
    Forall (fun row => map fst row = FIELDS_COLUMNS
                       /\ Forall text_or_none (map snd row))
      (fst (Exporter.export_rows all_data))
    /\ Forall (fun row => map fst row = LINEITEMS_COLUMNS)
         (snd (Exporter.export_rows all_data)).
Proof.
  intros all_data Hdocs. rewrite export_rows_eq. cbn [fst snd].
  split; apply List.Forall_forall; intros row Hin.
  - apply in_map_iff in Hin. destruct Hin as (doc & <- & Hdoc).
    rewrite List.Forall_forall in Hdocs.
    destruct (Hdocs doc Hdoc) as (p & pages & nlp & words & ->).
    destruct (fields_row_of_pipeline p pages nlp words) as (H1 & _ & H2).
    split; assumption.
  - apply in_flat_map in Hin. destruct Hin as (doc & Hdoc & Hin).
    rewrite List.Forall_forall in Hdocs.
    destruct (Hdocs doc Hdoc) as (p & pages & nlp & words & ->).
    unfold pipeline_doc in Hin. cbn [Exporter.prefix Exporter.line_items] in Hin.
    apply in_map_iff in Hin. destruct Hin as (item & <- & Hin).
    apply in_map_iff in Hin. destruct Hin as (r & <- & Hin).
    apply item_row_of_line_item.
    pose proof (extract_line_items_shape words) as Hshape.
    rewrite List.Forall_forall in Hshape. apply Hshape, Hin.
Qed.

Lemma export_rows_of_pipeline_witness :
  let doc :=
    pipeline_doc "inv7" [map word_of ["Invoice"; "No"; "A-17"]] (fun _ => [])
      (map word_of ["7"; "Bolt"; "Steel"; "10"; "1.50"; "15.00"; "Total"]) in
  Forall (fun row => map fst row = FIELDS_COLUMNS
                     /\ Forall text_or_none (map snd row))
    (fst (Exporter.export_rows [doc]))
  /\ Forall (fun row => map fst row = LINEITEMS_COLUMNS)
       (snd (Exporter.export_rows [doc])).
Proof.
  cbv zeta. apply export_rows_of_pipeline.
  repeat constructor. eexists _, _, _, _. reflexivity.
Defined.

(** X21: the exporter keeps every report of [verify_calculations].  A
    report is never an empty dict, so [if verification:] holds for it, and
    it has no [prefix] key, so the entry added to the verifiability report
    is the report with the prefix put in front. *)
Theorem add_report_keeps_report :
  forall (verify : pyval -> pyval -> res dict) (fields line_items : pyval)
         (report : dict) (p : string) (verification_reports : list dict),
    In verify verify_calculations_copies ->
    verify fields line_items = Ok report ->
    Exporter.add_report p (PDict report) verification_reports
    = Ok (verification_reports ++ [("prefix", PStr p) :: report])%list.
Proof.
  intros verify fields line_items report p reports Hin Hreport.
  assert (H : VerificationEngine.verify_calculations fields line_items = Ok report)
    by (unfold verify_calculations_copies in Hin;
        destruct Hin as [<- | [<- | []]]; exact Hreport).
  clear Hin Hreport. revert H.
  unfold VerificationEngine.verify_calculations.
  destruct (VerificationEngine.extract_values fields line_items)
    as [[[[[subtotal es] gst] discount] total] | e0].
  - destruct (py_div _ _) as [ratio | e1]; cbn [bind]; [ | discriminate ].
    intros H. injection H as <-. reflexivity.
  - intros H. injection H as <-. reflexivity.
Qed.

Lemma add_report_keeps_report_witness :
  Exporter.add_report "inv7"
    (PDict (failure_record
              "Value extraction error: 'int' object is not iterable"))
    []
  = Ok [("prefix", PStr "inv7")
          :: failure_record
               "Value extraction error: 'int' object is not iterable"].
Proof.
  apply (add_report_keeps_report VerificationEngine.verify_calculations
           (PDict []) (PInt 3) _ "inv7" [] (or_introl eq_refl)).
  reflexivity.
Defined.

(** An empty report, which is what [main] takes when the report file is
    missing, and any other value that counts as false, is left out. *)
Example add_report_drops_empty :
  Exporter.add_report "inv7" (PDict []) [] = Ok []
  /\ Exporter.add_report "inv7" PNone [] = Ok [].
Proof. split; reflexivity. Qed.

(** ** The field driver, and the three drivers in a row *)

Section FieldDriverFacts.

Variable nlp : string -> list Span.
Variable sorted_glob : string -> string -> world -> list string.
Variable json_loads_words : string -> res (list WordRecord).
Variable json_dumps : pyval -> string.
Variable resolve : string -> string.

(** The loop reads the text of the pages in the order of the files. *)
Lemma read_pages_all_text (ocr_files : list string) (w : world) :
  forall acc text0,
    FieldExtractionFiles.read_pages json_loads_words ocr_files acc w = Ok text0 ->
    exists pages,
      mapM (fun f => FieldExtractionFiles.load_ocr_json json_loads_words f w)
        ocr_files
      = Ok pages
      /\ text0
         = fold_left
             (fun acc words =>
                acc ++ join " " (map text words) ++ String (ascii_of_nat 10) "")
             pages acc.
Proof.
  induction ocr_files as [ | f fs IH]; intros acc text0 H;
    cbn [FieldExtractionFiles.read_pages] in H.
  - injection H as <-. exists []. split; reflexivity.
  - cbn [mapM].
    destruct (FieldExtractionFiles.load_ocr_json json_loads_words f w)
      as [page | e] eqn:E; [ | discriminate ].
    cbn [bind] in H.
    destruct (IH _ _ H) as (pages & Hpages & ->).
    exists (page :: pages). split; [ rewrite Hpages; reflexivity | reflexivity ].
Qed.

(** The two ways a run of the field driver ends. *)
Lemma process_ocr_pages_cases (prefix : string) (w : world) :
  (exists e,
      FieldExtractionFiles.process_ocr_pages nlp sorted_glob json_loads_words
        json_dumps resolve prefix w
      = (Raise e, w))
  \/ (exists pages,
         mapM (fun f => FieldExtractionFiles.load_ocr_json json_loads_words f w)
           (sorted_glob "output/ocr" (prefix ++ "_page_*_raw.json") w)
         = Ok pages
         /\ FieldExtractionFiles.process_ocr_pages nlp sorted_glob
              json_loads_words json_dumps resolve prefix w
            = (Ok (PDict (process_ocr_pages pages nlp)),
               print ("Extracted fields saved to "
                      ++ resolve (path_join "output" (prefix ++ "_fields.json")))
                 (write_file (path_join "output" (prefix ++ "_fields.json"))
                    (json_dumps (PDict (process_ocr_pages pages nlp))) w))).
Proof.
  unfold FieldExtractionFiles.process_ocr_pages,
    FieldExtractionFiles.OCR_OUTPUT_DIR, FieldExtractionFiles.FIELDS_OUTPUT_DIR,
    FieldExtractionFiles.ensure_dir.
  destruct (FieldExtractionFiles.read_pages _ _ _ w) as [text0 | e] eqn:E;
    [ right | left; eauto ].
  destruct (read_pages_all_text _ w _ _ E) as (pages & Hpages & ->).
  exists pages. split; [ exact Hpages | reflexivity ].
Qed.

End FieldDriverFacts.

(** X22: without OCR files for a prefix the two extraction drivers part
    ways.  [process_ocr_pages] still writes [output/<prefix>_fields.json],
    built from the empty text, in which the four header fields are absent;
    [process_line_items] prints a message, returns [None] and writes
    nothing. *)
Theorem process_ocr_pages_without_pages :
  forall nlp sorted_glob json_loads_words json_dumps resolve
         (prefix : string) (w : world),
    sorted_glob "output/ocr" (prefix ++ "_page_*_raw.json") w = [] ->
    FieldExtractionFiles.process_ocr_pages nlp sorted_glob json_loads_words
      json_dumps resolve prefix w
    = (Ok (PDict (field_set "" nlp)),
       print ("Extracted fields saved to "
              ++ resolve ("output/" ++ prefix ++ "_fields.json"))
         (write_file ("output/" ++ prefix ++ "_fields.json")
            (json_dumps (PDict (field_set "" nlp))) w))
    /\ Forall (fun name =>
                 dict_lookup (field_set "" nlp) name = Some (field PNone 0 false))
         ["invoice_number"; "date"; "gst_number"; "po_number"]
    /\ process_line_items sorted_glob json_loads_words json_dumps resolve prefix w
       = (Ok PNone,
          print ("No OCR outputs found for prefix '" ++ prefix ++ "'.") w).
Proof.
  intros nlp sorted_glob json_loads_words json_dumps resolve prefix w Hnone.
  split; [ | split ].
  - unfold FieldExtractionFiles.process_ocr_pages,
      FieldExtractionFiles.OCR_OUTPUT_DIR. rewrite Hnone. reflexivity.
  - rewrite field_set_eq, extract_fields_from_text_eq.
    repeat (apply List.Forall_cons; [ reflexivity | ]). apply List.Forall_nil.
  - unfold process_line_items, LineItemExtractor.OCR_OUTPUT_DIR.
    rewrite Hnone. reflexivity.
Qed.

Lemma process_ocr_pages_without_pages_witness :
  let w := {| files := empty; stdout := [] |} in
  files (snd (FieldExtractionFiles.process_ocr_pages
                (fun _ => []) (fun _ _ _ => []) (fun _ => Ok [])
                (fun _ => "<fields>") (fun p => p) "inv7" w))
  = {["output/inv7_fields.json" := "<fields>"]}
  /\ files (snd (process_line_items (fun _ _ _ => []) (fun _ => Ok [])
                   (fun _ => "<fields>") (fun p => p) "inv7" w))
     = empty.
Proof.
  cbv zeta.
  destruct (process_ocr_pages_without_pages
              (fun _ => []) (fun _ _ _ => []) (fun _ => Ok [])
              (fun _ => "<fields>") (fun p => p) "inv7"
              {| files := empty; stdout := [] |} eq_refl) as (H1 & _ & H2).
  rewrite H1, H2. split; reflexivity.
Defined.

(** X23: the three drivers in a row.  After a run of [process_ocr_pages]
    and a run of [process_line_items] that returns rows, for the same
    prefix, and with [json.load] giving back what [json.dump] wrote,
    [process_verification] finds both files, never fails and never raises:
    it returns the success record of the row totals against a subtotal,
    GST, discount and total of 0, and the three output files are the only
    ones that changed. *)
Theorem drivers_in_a_row :
  forall nlp sorted_glob json_loads_words json_loads json_dumps resolve run,
    In run (process_verification_copies json_loads json_dumps resolve) ->
    forall (prefix : string) (w w1 w2 : world) (fields : pyval)
           (rows : list pyval),
      FieldExtractionFiles.process_ocr_pages nlp sorted_glob json_loads_words
        json_dumps resolve prefix w
      = (Ok fields, w1) ->
      process_line_items sorted_glob json_loads_words json_dumps resolve
        prefix w1
      = (Ok (PList rows), w2) ->
      json_loads (json_dumps fields) = Ok fields ->
      json_loads (json_dumps (PList rows)) = Ok (PList rows) ->
      exists w3,
        run prefix w2
        = (Ok (PDict (success_record (map row_total rows) 0 0 0 0)), w3)
        /\ files w3
           = <["output/" ++ prefix ++ "_verifiability_report.json"
               := json_dumps (PDict (success_record (map row_total rows)
                                       0 0 0 0))]>
               (<["output/" ++ prefix ++ "_lineitems.json"
                  := json_dumps (PList rows)]>
                  (<["output/" ++ prefix ++ "_fields.json"
                     := json_dumps fields]> (files w))).
Proof.
  intros nlp sorted_glob json_loads_words json_loads json_dumps resolve run Hrun
    prefix w w1 w2 fields rows Hfields Hitems Hround1 Hround2.
  destruct (process_ocr_pages_cases nlp sorted_glob json_loads_words json_dumps
              resolve prefix w) as [[e H] | (pages & _ & H)];
    rewrite H in Hfields; [ discriminate | ].
  injection Hfields as <- <-.
  destruct (process_line_items_cases sorted_glob json_loads_words json_dumps
              resolve prefix
              (print ("Extracted fields saved to "
                      ++ resolve (path_join "output" (prefix ++ "_fields.json")))
                 (write_file (path_join "output" (prefix ++ "_fields.json"))
                    (json_dumps (PDict (process_ocr_pages pages nlp))) w)))
    as [H' | [[e H'] | (words & _ & H')]];
    rewrite H' in Hitems; try discriminate.
  injection Hitems as <- <-.
  eexists. split.
  - unfold process_verification_copies in Hrun.
    destruct Hrun as [<- | [<- | []]]; [ | rewrite process_verification_copy ].
    all: apply (process_verification_no_totals json_loads json_dumps resolve
                  prefix _ (json_dumps (PDict (process_ocr_pages pages nlp)))
                  _ pages nlp).
    all: cbn [files print write_file].
    all: try (rewrite lookup_insert_ne by apply lineitems_path_not_fields;
              apply lookup_insert_eq).
    all: try apply lookup_insert_eq.
    all: try exact Hround1.
    all: try exact Hround2.
    all: apply extract_line_items_shape.
  - reflexivity.
Qed.

Lemma drivers_in_a_row_witness :
  let w := {| files := {["output/ocr/inv7_page_1_raw.json" := "<words>"]};
              stdout := [] |} in
  let nlp (_ : string) : list Span := [] in
  let sorted_glob (_ _ : string) (_ : world) :=
    ["output/ocr/inv7_page_1_raw.json"] in
  let words := map word_of ["7"; "Bolt"; "Steel"; "10"; "1.50"; "15.00"; "Total"] in
  let json_loads_words (_ : string) := Ok words in
  let json_dumps v := match v with PList _ => "<rows>" | _ => "<fields>" end in
  let json_loads s :=
    if String.eqb s "<rows>" then Ok (PList [line_item "Bolt Steel" 10 1.5 15])
    else Ok (PDict (process_ocr_pages [words] nlp)) in
  let w1 :=
    snd (FieldExtractionFiles.process_ocr_pages nlp sorted_glob json_loads_words
           json_dumps (fun p => p) "inv7" w) in
  let w2 :=
    snd (process_line_items sorted_glob json_loads_words json_dumps
           (fun p => p) "inv7" w1) in
  exists w3,
    VerificationEngine.process_verification json_loads json_dumps (fun p => p)
      "inv7" w2
    = (Ok (PDict (success_record [15%float] 0 0 0 0)), w3).
Proof.
  cbv zeta.
  set (words := map word_of ["7"; "Bolt"; "Steel"; "10"; "1.50"; "15.00"; "Total"]).
  set (nlp := fun _ : string => @nil Span).
  set (sorted_glob := fun (_ _ : string) (_ : world) =>
                        ["output/ocr/inv7_page_1_raw.json"]).
  set (json_loads_words := fun _ : string => Ok words).
  set (json_dumps := fun v : pyval =>
                       match v with PList _ => "<rows>" | _ => "<fields>" end).
  set (json_loads := fun s : string =>
                       if String.eqb s "<rows>"
                       then Ok (PList [line_item "Bolt Steel" 10 1.5 15])
                       else Ok (PDict (process_ocr_pages [words] nlp))).
  set (w := {| files := {["output/ocr/inv7_page_1_raw.json" := "<words>"]};
               stdout := [] |}).
  destruct (drivers_in_a_row nlp sorted_glob json_loads_words json_loads
              json_dumps (fun p => p) _ (or_introl eq_refl) "inv7" w
              (snd (FieldExtractionFiles.process_ocr_pages nlp sorted_glob
                      json_loads_words json_dumps (fun p => p) "inv7" w))
              (snd (process_line_items sorted_glob json_loads_words json_dumps
                      (fun p => p) "inv7"
                      (snd (FieldExtractionFiles.process_ocr_pages nlp
                              sorted_glob json_loads_words json_dumps
                              (fun p => p) "inv7" w))))
              (PDict (process_ocr_pages [words] nlp))
              [line_item "Bolt Steel" 10 1.5 15])
    as (w3 & H & _).
  - vm_compute. reflexivity.
  - vm_compute. reflexivity.
  - reflexivity.
  - reflexivity.
  - exists w3. exact H.
Defined.
